(** * Complexity and statement-count rules: a shallow embedding

    The rules embedded here are
    - [Complexity]      src/lib/rules/complexity.js,
    - [ComplexityRec]   src/unnamed/part_001, the revision of the complexity
                        rule with the else rule and recursion detection,
    - [MaxStatements]   src/unnamed/part_002.

    A rule is a set of listeners that the linter's traversal calls while it
    walks the syntax tree.  A listener is embedded as a function from the
    rule's state to the rule's state; the traversal is embedded as the list
    of events it dispatches. *)

From Stdlib Require Import String List ZArith Bool Lia.
Import ListNotations.
Open Scope string_scope.
Open Scope list_scope.
Open Scope Z_scope.

(* ================================================================== *)
(** * JavaScript values *)
(* ================================================================== *)

(** The numeric values the rules compute with.  Counters are integers, far
    below the bound up to which a JavaScript number is exact; the two other
    values arise from reading a missing property ([undefined]) and from
    arithmetic on it ([NaN]). *)
Inductive jsval : Type :=
| undefined
| NaN
| Num (z : Z).

(** [a + b] on numeric operands: [undefined] converts to [NaN]. *)
Definition js_add (a b : jsval) : jsval :=
  match a, b with
  | Num x, Num y => Num (x + y)
  | _, _ => NaN
  end.

(** [a > b]: a comparison with [undefined] or [NaN] is false. *)
Definition js_gt (a b : jsval) : bool :=
  match a, b with
  | Num x, Num y => x >? y
  | _, _ => false
  end.

(** [a === 0]. *)
Definition js_is_zero (a : jsval) : bool :=
  match a with
  | Num z => z =? 0
  | _ => false
  end.

(** Truthiness of a numeric value. *)
Definition truthy (a : jsval) : bool :=
  match a with
  | Num z => negb (z =? 0)
  | _ => false
  end.

(** [a || b]. *)
Definition js_or (a b : jsval) : jsval :=
  if truthy a then a else b.

(** A JavaScript array of counters used as a stack.  [items] holds the
    elements, the last element of the array first.  [minus1] is the property
    named "-1": [arr[arr.length - 1]] reads and writes it when the array is
    empty, and neither [push], [pop] nor [length] see it. *)
Record jsarray : Type := mkArray {
  items : list Z;
  minus1 : jsval
}.

Definition empty_array : jsarray := mkArray [] undefined.

(** [arr.push(v)] *)
Definition push (v : Z) (arr : jsarray) : jsarray :=
  mkArray (v :: items arr) (minus1 arr).

(** [arr.pop()]: the removed element ([undefined] on an empty array) and the
    array that is left. *)
Definition pop (arr : jsarray) : jsval * jsarray :=
  match items arr with
  | v :: rest => (Num v, mkArray rest (minus1 arr))
  | [] => (undefined, arr)
  end.

(** [arr[arr.length - 1] += d] *)
Definition add_last (d : Z) (arr : jsarray) : jsarray :=
  match items arr with
  | v :: rest => mkArray ((v + d) :: rest) (minus1 arr)
  | [] => mkArray [] (js_add (minus1 arr) (Num d))
  end.

(* ================================================================== *)
(** * Syntax tree *)
(* ================================================================== *)

(** The induction principle of [node] gives an induction hypothesis for the
    nodes held in a [list] or an [option] field. *)
Scheme All for list.
Scheme All for option.

(** ESTree nodes, one constructor per node type, fields in the order the
    traversal visits them.  A [null] field is [None]. *)
Inductive node : Type :=
| Program (body : list node)
| FunctionDeclaration (id : option node) (params : list node) (body : node)
| FunctionExpression (id : option node) (params : list node) (body : node)
| ArrowFunctionExpression (params : list node) (body : node)
| BlockStatement (body : list node)
| ExpressionStatement (expression : node)
| ReturnStatement (argument : option node)
| IfStatement (test consequent : node) (alternate : option node)
| ForStatement (init test update : option node) (body : node)
| ForInStatement (left right body : node)
| ForOfStatement (left right body : node)
| WhileStatement (test body : node)
| DoWhileStatement (body test : node)
| SwitchStatement (discriminant : node) (cases : list node)
| SwitchCase (test : option node) (consequent : list node)
| TryStatement (block : node) (handler finalizer : option node)
| CatchClause (param : option node) (body : node)
| VariableDeclaration (kind : string) (declarations : list node)
| VariableDeclarator (id : node) (init : option node)
| ClassDeclaration (id superClass : option node) (body : node)
| ClassBody (body : list node)
| MethodDefinition (key value : node)
| PropertyDefinition (key : node) (value : option node)
| StaticBlock (body : list node)
| Identifier (name : string)
| Literal (raw : string)
| ThisExpression
| MemberExpression (object property : node) (computed : bool)
| CallExpression (callee : node) (arguments : list node)
| ChainExpression (expression : node)
| LogicalExpression (operator : string) (left right : node)
| AssignmentExpression (operator : string) (left right : node)
| BinaryExpression (operator : string) (left right : node)
| ConditionalExpression (test consequent alternate : node)
| ObjectExpression (properties : list node)
| Property (key value : node) (computed : bool)
| ObjectPattern (properties : list node)
| ArrayPattern (elements : list node)
| AssignmentPattern (left right : node).

(** [node.type === "LogicalExpression"] *)
Definition isLogicalExpression (n : node) : bool :=
  match n with LogicalExpression _ _ _ => true | _ => false end.

(** [node.type === "IfStatement"] *)
Definition isIfStatement (n : node) : bool :=
  match n with IfStatement _ _ _ => true | _ => false end.

(** [node.type === "Identifier"] *)
Definition isIdentifier (n : node) : bool :=
  match n with Identifier _ => true | _ => false end.

(** [node.type === "StaticBlock"] *)
Definition isStaticBlock (n : node) : bool :=
  match n with StaticBlock _ => true | _ => false end.

(** [node.name]: only identifiers have one. *)
Definition name_of (n : node) : option string :=
  match n with Identifier name => Some name | _ => None end.

(** [node.id], [null] or missing is [None]. *)
Definition id_of (n : node) : option node :=
  match n with
  | FunctionDeclaration id _ _ => id
  | FunctionExpression id _ _ => id
  | ClassDeclaration id _ _ => id
  | VariableDeclarator id _ => Some id
  | _ => None
  end.

(** The three function node types. *)
Definition isFunction (n : node) : bool :=
  match n with
  | FunctionDeclaration _ _ _ | FunctionExpression _ _ _
  | ArrowFunctionExpression _ _ => true
  | _ => false
  end.

(** Modelled from the spec: [astUtils.isLogicalAssignmentOperator], which is
    not under src/; the logical short-circuit assignment operators are
    [&&=], [||=] and [??=]. *)
Definition isLogicalAssignmentOperator (operator : string) : bool :=
  String.eqb operator "&&=" || String.eqb operator "||="
  || String.eqb operator "??=".

(* ================================================================== *)
(** * Rule options *)
(* ================================================================== *)

(** [context.options[0]]: missing, a number, or an object whose [maximum],
    [max] and [variant] properties may each be missing. *)
Inductive option_value : Type :=
| OptMissing
| OptNumber (n : Z)
| OptObject (maximum max : option Z) (variant : option string).

(** Reading a property that may be missing. *)
Definition prop (p : option Z) : jsval :=
  match p with Some n => Num n | None => undefined end.

(** [Object.hasOwn(option, key)] *)
Definition hasOwn (p : option Z) : bool :=
  match p with Some _ => true | None => false end.

(* ================================================================== *)
(** * Events of the traversal *)
(* ================================================================== *)

(** What the traversal dispatches to a rule.  A node carries no parent
    link in this embedding, so an event that hands a node to a listener
    hands its parent along ([node.parent]). *)
Inductive event : Type :=
| CodePathStart (origin : string) (n : node) (parent : option node)
| CodePathEnd (origin : string) (n : node)
| Enter (n : node) (parent : option node)
| Exit (n : node).

(** Modelled from the spec: the code-path analysis, which is not under
    src/.  A program, a function, a class static block and the value of a
    class field each are a logical unit of their own; the origin of the
    unit a node opens by its type: *)
Definition codePathOrigin (n : node) : option string :=
  match n with
  | Program _ => Some "program"
  | FunctionDeclaration _ _ _ | FunctionExpression _ _ _
  | ArrowFunctionExpression _ _ => Some "function"
  | StaticBlock _ => Some "class-static-block"
  | _ => None
  end.

(** The events of one node: the unit it opens, if any, is started before
    the node is entered and ended after it is left. *)
Definition in_code_path (origin : option string) (n : node)
    (parent : option node) (inner : list event) : list event :=
  match origin with
  | Some o => CodePathStart o n parent :: inner ++ [CodePathEnd o n]
  | None => inner
  end.

(** Modelled from the spec: the traversal, which is not under src/.  It
    walks the tree in document order; each node is entered, its children
    are traversed field by field, and it is left.  The value of a class
    field is a unit of origin [class-field-initializer]. *)
Fixpoint traverse (parent : option node) (n : node) {struct n} : list event :=
  let visit := traverse (Some n) in
  let visit_opt := fun o : option node =>
    match o with Some c => visit c | None => [] end in
  let visit_all := flat_map visit in
  in_code_path (codePathOrigin n) n parent
    (Enter n parent ::
     match n with
     | Program body => visit_all body
     | FunctionDeclaration id params body =>
         visit_opt id ++ visit_all params ++ visit body
     | FunctionExpression id params body =>
         visit_opt id ++ visit_all params ++ visit body
     | ArrowFunctionExpression params body => visit_all params ++ visit body
     | BlockStatement body => visit_all body
     | ExpressionStatement expression => visit expression
     | ReturnStatement argument => visit_opt argument
     | IfStatement test consequent alternate =>
         visit test ++ visit consequent ++ visit_opt alternate
     | ForStatement init test update body =>
         visit_opt init ++ visit_opt test ++ visit_opt update ++ visit body
     | ForInStatement lhs rhs body => visit lhs ++ visit rhs ++ visit body
     | ForOfStatement lhs rhs body => visit lhs ++ visit rhs ++ visit body
     | WhileStatement test body => visit test ++ visit body
     | DoWhileStatement body test => visit body ++ visit test
     | SwitchStatement discriminant cases => visit discriminant ++ visit_all cases
     | SwitchCase test consequent => visit_opt test ++ visit_all consequent
     | TryStatement block handler finalizer =>
         visit block ++ visit_opt handler ++ visit_opt finalizer
     | CatchClause param body => visit_opt param ++ visit body
     | VariableDeclaration _ declarations => visit_all declarations
     | VariableDeclarator id init => visit id ++ visit_opt init
     | ClassDeclaration id superClass body =>
         visit_opt id ++ visit_opt superClass ++ visit body
     | ClassBody body => visit_all body
     | MethodDefinition key value => visit key ++ visit value
     | PropertyDefinition key value =>
         visit key ++
         match value with
         | Some v =>
             in_code_path (Some "class-field-initializer") v (Some n) (visit v)
         | None => []
         end
     | StaticBlock body => visit_all body
     | Identifier _ | Literal _ | ThisExpression => []
     | MemberExpression object property _ => visit object ++ visit property
     | CallExpression callee arguments => visit callee ++ visit_all arguments
     | ChainExpression expression => visit expression
     | LogicalExpression _ lhs rhs => visit lhs ++ visit rhs
     | AssignmentExpression _ lhs rhs => visit lhs ++ visit rhs
     | BinaryExpression _ lhs rhs => visit lhs ++ visit rhs
     | ConditionalExpression test consequent alternate =>
         visit test ++ visit consequent ++ visit alternate
     | ObjectExpression properties => visit_all properties
     | Property key value _ => visit key ++ visit value
     | ObjectPattern properties => visit_all properties
     | ArrayPattern elements => visit_all elements
     | AssignmentPattern lhs rhs => visit lhs ++ visit rhs
     end ++ [Exit n]).

(** The name a report carries.  [astUtils.getFunctionNameWithKind] and
    [upperCaseFirst] are not under src/: a name is either one of the two
    fixed strings of the rule or stands for the name of a function node. *)
Inductive unit_name : Type :=
| FixedName (s : string)
| FunctionNameWithKind (n : node).

(* ================================================================== *)
(** * The complexity rule, src/lib/rules/complexity.js *)
(* ================================================================== *)

Module Complexity.

Definition THRESHOLD_DEFAULT : Z := 20.

(** [create], lines 71-83: the threshold of [context.options[0]]. *)
Definition threshold (opt : option_value) : jsval :=
  match opt with
  | OptObject maximum max _ =>
      if hasOwn maximum || hasOwn max
      then js_or (prop maximum) (prop max)
      else Num THRESHOLD_DEFAULT
  | OptNumber n => Num n
  | OptMissing => Num THRESHOLD_DEFAULT
  end.

(** The data of [context.report]. *)
Record report : Type := mkReport {
  node_of : node;
  name : unit_name;
  complexity : jsval;
  max : jsval
}.

(** The rule's state: the stack [complexities] and what was reported, in
    the order of the reports. *)
Record state : Type := mkState {
  complexities : jsarray;
  reports : list report
}.

Definition initial : state := mkState empty_array [].

(** [increaseComplexity], lines 97-99:
    [complexities[complexities.length - 1]++] *)
Definition increaseComplexity (complexities : jsarray) : jsarray :=
  add_last 1 complexities.

(** [hasLogicalExpressionParent], lines 107-113:
    [node.parent && node.parent.type === "LogicalExpression"] *)
Definition hasLogicalExpressionParent (parent : option node) : bool :=
  match parent with
  | Some p => isLogicalExpression p
  | None => false
  end.

(** [currentOp === null || currentOp !== node.operator] *)
Definition startsSequence (currentOp : option string) (operator : string)
    : bool :=
  match currentOp with
  | None => true
  | Some op => negb (String.eqb op operator)
  end.

(** [countLogicalOperatorSequences(node, currentOp, sequences)], lines
    123-143: the object [sequences] is threaded as the value of
    [sequences.count].  The function is only ever called on a logical
    expression. *)
Fixpoint countLogicalOperatorSequences (n : node) (currentOp : option string)
    (count : Z) {struct n} : Z :=
  match n with
  | LogicalExpression operator lhs rhs =>
      let count :=
        if startsSequence currentOp operator then count + 1 else count in
      let count :=
        match lhs with
        | LogicalExpression _ _ _ =>
            countLogicalOperatorSequences lhs (Some operator) count
        | _ => count
        end in
      match rhs with
      | LogicalExpression _ _ _ =>
          countLogicalOperatorSequences rhs (Some operator) count
      | _ => count
      end
  | _ => count
  end.

(** Lines 191-193:
    [for (let i = 0; i < sequences.count; i++) increaseComplexity()] *)
Definition increaseComplexityTimes (count : Z) (complexities : jsarray)
    : jsarray :=
  Nat.iter (Z.to_nat count) increaseComplexity complexities.

(** [caseNode.test === null] *)
Definition isDefaultCase (caseNode : node) : bool :=
  match caseNode with
  | SwitchCase None _ => true
  | _ => false
  end.

(** The listener of [SwitchStatement], lines 165-172. *)
Definition onSwitchStatement (cases : list node) (complexities : jsarray)
    : jsarray :=
  let complexities := increaseComplexity complexities in
  if existsb isDefaultCase cases
  then increaseComplexity complexities
  else complexities.

(** The listener of [LogicalExpression], lines 180-194. *)
Definition onLogicalExpression (n : node) (parent : option node)
    (complexities : jsarray) : jsarray :=
  if hasLogicalExpressionParent parent then complexities
  else
    let count := countLogicalOperatorSequences n None 0 in
    increaseComplexityTimes count complexities.

(** The listener of [AssignmentExpression], lines 197-201. *)
Definition onAssignmentExpression (operator : string) (complexities : jsarray)
    : jsarray :=
  if isLogicalAssignmentOperator operator
  then increaseComplexity complexities
  else complexities.

(** The listeners keyed by a node type, lines 156-201. *)
Definition enter (n : node) (parent : option node) (complexities : jsarray)
    : jsarray :=
  match n with
  | CatchClause _ _ | ConditionalExpression _ _ _ | ForStatement _ _ _ _
  | ForInStatement _ _ _ | ForOfStatement _ _ _ | IfStatement _ _ _
  | WhileStatement _ _ | DoWhileStatement _ _ =>
      increaseComplexity complexities
  | SwitchStatement _ cases => onSwitchStatement cases complexities
  | LogicalExpression _ _ _ => onLogicalExpression n parent complexities
  | AssignmentExpression operator _ _ =>
      onAssignmentExpression operator complexities
  | _ => complexities
  end.

(** [onCodePathStart], lines 150-153: [complexities.push(0)] *)
Definition onCodePathStart (s : state) : state :=
  mkState (push 0 (complexities s)) (reports s).

(** The origins [onCodePathEnd] does not return early for, lines 212-218. *)
Definition reportable (origin : string) : bool :=
  String.eqb origin "function"
  || String.eqb origin "class-field-initializer"
  || String.eqb origin "class-static-block".

(** The name of a report before [upperCaseFirst], lines 221-229. *)
Definition nameOf (origin : string) (n : node) : unit_name :=
  if String.eqb origin "class-field-initializer"
  then FixedName "class field initializer"
  else if String.eqb origin "class-static-block"
  then FixedName "class static block"
  else FunctionNameWithKind n.

(** What [onCodePathEnd] does with the popped [complexity], lines 212-240. *)
Definition reportIfComplex (threshold : jsval) (origin : string) (n : node)
    (complexity : jsval) (reports : list report) : list report :=
  if negb (reportable origin) then reports
  else if js_is_zero threshold || js_gt complexity threshold
  then reports ++ [mkReport n (nameOf origin n) complexity threshold]
  else reports.

(** [onCodePathEnd], lines 203-241. *)
Definition onCodePathEnd (threshold : jsval) (origin : string) (n : node)
    (s : state) : state :=
  let (complexity, rest) := pop (complexities s) in
  mkState rest (reportIfComplex threshold origin n complexity (reports s)).

(** The listeners [create] returns, applied to one event. *)
Definition handle (threshold : jsval) (e : event) (s : state) : state :=
  match e with
  | CodePathStart _ _ _ => onCodePathStart s
  | CodePathEnd origin n => onCodePathEnd threshold origin n s
  | Enter n parent => mkState (enter n parent (complexities s)) (reports s)
  | Exit _ => s
  end.

Definition run (threshold : jsval) (events : list event) (s : state) : state :=
  fold_left (fun s e => handle threshold e s) events s.

(** Linting a program under an option. *)
Definition lint (opt : option_value) (program : node) : list report :=
  reports (run (threshold opt) (traverse None program) initial).

End Complexity.

(* ================================================================== *)
(** * The complexity rule with recursion detection, src/unnamed/part_001 *)
(* ================================================================== *)

(** This revision keeps [create]'s threshold (lines 70-83), the helpers
    [increaseComplexity], [hasLogicalExpressionParent] and
    [countLogicalOperatorSequences] (lines 100-146), the listeners of
    [SwitchStatement], [LogicalExpression] and [AssignmentExpression] (lines
    260-296) and the report of [onCodePathEnd] (lines 310-338) as they are in
    src/lib/rules/complexity.js, so the definitions of [Complexity] are used
    for them.  It adds the stack [functionStack], [getFunctionIdentifier] and
    the listeners of [IfStatement] and [CallExpression]. *)
Module ComplexityRec.

Definition threshold : option_value -> jsval := Complexity.threshold.

Record state : Type := mkState {
  complexities : jsarray;
  functionStack : list (option node);  (* last element first *)
  reports : list Complexity.report
}.

Definition initial : state := mkState empty_array [] [].

(** [a === b] on two values that each are a string or [undefined]. *)
Definition same_name (a b : option string) : bool :=
  match a, b with
  | Some x, Some y => String.eqb x y
  | None, None => true
  | _, _ => false
  end.

(** [getFunctionIdentifier(node)], lines 154-194; [null] is [None]. *)
Definition getFunctionIdentifier (n : node) (parent : option node)
    : option node :=
  match id_of n with
  | Some id => Some id
  | None =>
      match parent with
      | Some (VariableDeclarator id _) => Some id
      | Some (AssignmentExpression _ (Identifier name) _) =>
          Some (Identifier name)
      | Some (AssignmentExpression _
                (MemberExpression _ (Identifier name) _) _) =>
          Some (Identifier name)
      | Some (Property (Identifier name) _ _) => Some (Identifier name)
      | _ => None
      end
  end.

(** [functionStack.at(-1)]; [undefined] and [null] are [None]. *)
Definition currentFunctionIdentifier (functionStack : list (option node))
    : option node :=
  match functionStack with
  | top :: _ => top
  | [] => None
  end.

(** The listener of [IfStatement], lines 224-231. *)
Definition onIfStatement (alternate : option node) (complexities : jsarray)
    : jsarray :=
  let complexities := Complexity.increaseComplexity complexities in
  match alternate with
  | Some a =>
      if negb (isIfStatement a)
      then Complexity.increaseComplexity complexities
      else complexities
  | None => complexities
  end.

(** Whether the listener of [CallExpression] counts a call of [callee]
    when [current] is on top of [functionStack], lines 235-257. *)
Definition isRecursiveCall (current : option node) (callee : node) : bool :=
  match current with
  | None => false
  | Some cur =>
      match callee with
      | Identifier name => same_name (Some name) (name_of cur)
      | MemberExpression _ (Identifier name) _ =>
          isIdentifier cur && same_name (Some name) (name_of cur)
      | _ => false
      end
  end.

(** The listener of [CallExpression], lines 234-258. *)
Definition onCallExpression (callee : node)
    (functionStack : list (option node)) (complexities : jsarray)
    : jsarray :=
  if isRecursiveCall (currentFunctionIdentifier functionStack) callee
  then Complexity.increaseComplexity complexities
  else complexities.

(** The listeners keyed by a node type, lines 216-296. *)
Definition enter (n : node) (parent : option node)
    (functionStack : list (option node)) (complexities : jsarray)
    : jsarray :=
  match n with
  | CatchClause _ _ | ConditionalExpression _ _ _ | ForStatement _ _ _ _
  | ForInStatement _ _ _ | ForOfStatement _ _ _
  | WhileStatement _ _ | DoWhileStatement _ _ =>
      Complexity.increaseComplexity complexities
  | IfStatement _ _ alternate => onIfStatement alternate complexities
  | CallExpression callee _ =>
      onCallExpression callee functionStack complexities
  | SwitchStatement _ cases => Complexity.onSwitchStatement cases complexities
  | LogicalExpression _ _ _ =>
      Complexity.onLogicalExpression n parent complexities
  | AssignmentExpression operator _ _ =>
      Complexity.onAssignmentExpression operator complexities
  | _ => complexities
  end.

(** [onCodePathStart], lines 201-213. *)
Definition onCodePathStart (origin : string) (n : node)
    (parent : option node) (s : state) : state :=
  mkState (push 0 (complexities s))
    ((if String.eqb origin "function"
      then getFunctionIdentifier n parent
      else None) :: functionStack s)
    (reports s).

(** [onCodePathEnd], lines 298-339. *)
Definition onCodePathEnd (threshold : jsval) (origin : string) (n : node)
    (s : state) : state :=
  let (complexity, rest) := pop (complexities s) in
  mkState rest (tl (functionStack s))
    (Complexity.reportIfComplex threshold origin n complexity (reports s)).

(** The listeners [create] returns, applied to one event. *)
Definition handle (threshold : jsval) (e : event) (s : state) : state :=
  match e with
  | CodePathStart origin n parent => onCodePathStart origin n parent s
  | CodePathEnd origin n => onCodePathEnd threshold origin n s
  | Enter n parent =>
      mkState (enter n parent (functionStack s) (complexities s))
        (functionStack s) (reports s)
  | Exit _ => s
  end.

Definition run (threshold : jsval) (events : list event) (s : state) : state :=
  fold_left (fun s e => handle threshold e s) events s.

(** Linting a program under an option. *)
Definition lint (opt : option_value) (program : node)
    : list Complexity.report :=
  reports (run (threshold opt) (traverse None program) initial).

End ComplexityRec.

(* ================================================================== *)
(** * The statement-count rule, src/unnamed/part_002 *)
(* ================================================================== *)

Module MaxStatements.

(** [create], lines 81-90. *)
Definition maxStatements (opt : option_value) : jsval :=
  match opt with
  | OptObject maximum max _ =>
      if hasOwn maximum || hasOwn max
      then js_or (prop maximum) (prop max)
      else Num 10
  | OptNumber n => Num n
  | OptMissing => Num 10
  end.

(** [(context.options[1] && context.options[1].ignoreTopLevelFunctions)
    || false], lines 76-79.  The second option is missing ([None]) or an
    object whose property may be missing. *)
Definition ignoreTopLevelFunctions (option1 : option (option bool)) : bool :=
  match option1 with
  | Some (Some b) => b
  | _ => false
  end.

(** The rule's configuration: [ignoreTopLevelFunctions] and
    [maxStatements], as [create] computes them. *)
Record config : Type := mkConfig {
  ignoreTop : bool;
  maxOf : jsval
}.

Definition configure (opt : option_value)
    (option1 : option (option bool)) : config :=
  mkConfig (ignoreTopLevelFunctions option1) (maxStatements opt).

(** The data of [context.report]; the name is computed from the node. *)
Record report : Type := mkReport {
  node_of : node;
  count : jsval;
  max : jsval
}.

(** The rule's state: the stack [functionStack], the array
    [topLevelFunctions] in the order of its elements, and what was
    reported, in the order of the reports. *)
Record state : Type := mkState {
  functionStack : jsarray;
  topLevelFunctions : list (node * jsval);
  reports : list report
}.

Definition initial : state := mkState empty_array [] [].

(** [reportIfTooManyStatements(node, count, max)], lines 100-112. *)
Definition reportIfTooManyStatements (n : node) (count max : jsval)
    (reports : list report) : list report :=
  if js_gt count max then reports ++ [mkReport n count max] else reports.

(** [startFunction], lines 119-121. *)
Definition startFunction (s : state) : state :=
  mkState (push 0 (functionStack s)) (topLevelFunctions s) (reports s).

(** [endFunction(node)], lines 129-145. *)
Definition endFunction (c : config) (n : node) (s : state) : state :=
  let (count, rest) := pop (functionStack s) in
  if isStaticBlock n then
    mkState rest (topLevelFunctions s) (reports s)
  else if ignoreTop c && (length (items rest) =? 0)%nat then
    mkState rest (topLevelFunctions s ++ [(n, count)]) (reports s)
  else
    mkState rest (topLevelFunctions s)
      (reportIfTooManyStatements n count (maxOf c) (reports s)).

(** [countStatements(node)], lines 153-155:
    [functionStack[functionStack.length - 1] += node.body.length] *)
Definition countStatements (body : list node) (s : state) : state :=
  mkState (add_last (Z.of_nat (length body)) (functionStack s))
    (topLevelFunctions s) (reports s).

(** The listener of ["Program:exit"], lines 174-185. *)
Definition onProgramExit (c : config) (s : state) : state :=
  if (length (topLevelFunctions s) =? 1)%nat then s
  else
    mkState (functionStack s) (topLevelFunctions s)
      (fold_left
         (fun reports element =>
            reportIfTooManyStatements (fst element) (snd element) (maxOf c)
              reports)
         (topLevelFunctions s) (reports s)).

(** The nodes whose listeners are [startFunction] and [endFunction]. *)
Definition isFunctionLike (n : node) : bool :=
  isFunction n || isStaticBlock n.

(** The listeners [create] returns, applied to one event. *)
Definition handle (c : config) (e : event) (s : state) : state :=
  match e with
  | Enter n _ =>
      match n with
      | FunctionDeclaration _ _ _ | FunctionExpression _ _ _
      | ArrowFunctionExpression _ _ | StaticBlock _ => startFunction s
      | BlockStatement body => countStatements body s
      | _ => s
      end
  | Exit n =>
      match n with
      | FunctionDeclaration _ _ _ | FunctionExpression _ _ _
      | ArrowFunctionExpression _ _ | StaticBlock _ => endFunction c n s
      | Program _ => onProgramExit c s
      | _ => s
      end
  | _ => s
  end.

Definition run (c : config) (events : list event) (s : state) : state :=
  fold_left (fun s e => handle c e s) events s.

(** Linting a program under the rule's two options. *)
Definition lint (opt : option_value) (option1 : option (option bool))
    (program : node) : list report :=
  reports (run (configure opt option1) (traverse None program) initial).

End MaxStatements.

(* ================================================================== *)
(** * Programs of the test files *)
(* ================================================================== *)

(** [function basic() { return true; }] *)
Definition basic_function : node :=
  FunctionDeclaration (Some (Identifier "basic")) []
    (BlockStatement [ReturnStatement (Some (Literal "true"))]).

Definition basic : node := Program [basic_function].


(* ================================================================== *)
(** * What the claims speak of *)
(* ================================================================== *)

(** ** Runs of a logical chain *)

(** The logical expressions of a chain: the nodes reached from [n] through
    operands that are logical expressions themselves. *)
Fixpoint logical_nodes (n : node) : Z :=
  match n with
  | LogicalExpression _ lhs rhs => 1 + logical_nodes lhs + logical_nodes rhs
  | _ => 0
  end.

(** Whether the operand [n] is a logical expression of operator [operator],
    that is, whether it continues the run of its parent. *)
Definition continues_run (operator : string) (n : node) : Z :=
  match n with
  | LogicalExpression op _ _ => if String.eqb operator op then 1 else 0
  | _ => 0
  end.

(** The operands of a chain that continue the run of their parent. *)
Fixpoint merged_operands (n : node) : Z :=
  match n with
  | LogicalExpression operator lhs rhs =>
      continues_run operator lhs + merged_operands lhs
      + continues_run operator rhs + merged_operands rhs
  | _ => 0
  end.

(** The maximal same-operator runs of a chain: every logical expression
    belongs to one run, and it belongs to the run of its parent exactly when
    it has the operator of its parent. *)
Definition runs (n : node) : Z := logical_nodes n - merged_operands n.

(** ** Decision points *)

(** An [else] branch that is not an else-if link. *)
Definition final_else (alternate : option node) : bool :=
  match alternate with
  | Some a => negb (isIfStatement a)
  | None => false
  end.

(** A callee that is the bare identifier [name] or a member access whose
    property is the identifier [name]. *)
Definition calls_by_name (name : string) (callee : node) : bool :=
  match callee with
  | Identifier x => String.eqb x name
  | MemberExpression _ (Identifier x) _ => String.eqb x name
  | _ => false
  end.

Definition b2z (b : bool) : Z := if b then 1 else 0.

(** The decision points of one node by the rules of the specification,
    [current] being the binding of the unit the node is in. *)
Definition decision_points (current : option node) (n : node)
    (parent : option node) : Z :=
  match n with
  | CatchClause _ _ | ConditionalExpression _ _ _ | ForStatement _ _ _ _
  | ForInStatement _ _ _ | ForOfStatement _ _ _
  | WhileStatement _ _ | DoWhileStatement _ _ => 1
  | IfStatement _ _ alternate => 1 + b2z (final_else alternate)
  | SwitchStatement _ cases => 1 + b2z (existsb Complexity.isDefaultCase cases)
  | LogicalExpression _ _ _ =>
      if Complexity.hasLogicalExpressionParent parent then 0 else runs n
  | AssignmentExpression operator _ _ =>
      b2z (isLogicalAssignmentOperator operator)
  | CallExpression callee _ =>
      match current with
      | Some (Identifier name) => b2z (calls_by_name name callee)
      | _ => 0
      end
  | _ => 0
  end.

(** The decision points of one node in src/lib/rules/complexity.js, where
    an [else] branch and a call add nothing. *)
Definition base_decision_points (n : node) (parent : option node) : Z :=
  match n with
  | IfStatement _ _ _ => 1
  | CallExpression _ _ => 0
  | _ => decision_points None n parent
  end.

(** The sum of [value] over the nodes entered by the events of a unit that
    are its own: the events of the units nested in it, at a [depth] above
    0, count for those units. *)
Fixpoint own_points (value : node -> option node -> Z) (depth : nat)
    (events : list event) : Z :=
  match events with
  | [] => 0
  | CodePathStart _ _ _ :: rest => own_points value (S depth) rest
  | CodePathEnd _ _ :: rest => own_points value (Nat.pred depth) rest
  | Enter n parent :: rest =>
      (match depth with
       | O => value n parent
       | S _ => 0
       end) + own_points value depth rest
  | Exit _ :: rest => own_points value depth rest
  end.

(** The decision points of a unit whose binding is [current]. *)
Definition points (current : option node) : nat -> list event -> Z :=
  own_points (decision_points current).

Definition base_points : nat -> list event -> Z :=
  own_points base_decision_points.

(** Events in which every unit that is started is ended, in order. *)
Inductive nested : list event -> Prop :=
| nested_nil : nested []
| nested_enter n parent rest :
    nested rest -> nested (Enter n parent :: rest)
| nested_exit n rest :
    nested rest -> nested (Exit n :: rest)
| nested_unit origin n parent inner rest :
    nested inner -> nested rest ->
    nested (CodePathStart origin n parent :: inner ++ CodePathEnd origin n :: rest).

(** The binding [onCodePathStart] records for a unit. *)
Definition binding (origin : string) (n : node) (parent : option node)
    : option node :=
  if String.eqb origin "function"
  then ComplexityRec.getFunctionIdentifier n parent
  else None.

(** ** Nodes without a decision point *)

(** The node types no listener of the complexity rule is keyed by. *)
Definition no_listener (n : node) : bool :=
  match n with
  | CatchClause _ _ | ConditionalExpression _ _ _ | ForStatement _ _ _ _
  | ForInStatement _ _ _ | ForOfStatement _ _ _
  | WhileStatement _ _ | DoWhileStatement _ _
  | IfStatement _ _ _ | SwitchStatement _ _ | LogicalExpression _ _ _
  | AssignmentExpression _ _ _ | CallExpression _ _ => false
  | _ => true
  end.

Definition plain_event (e : event) : bool :=
  match e with
  | Enter n _ => no_listener n
  | Exit _ => true
  | _ => false
  end.

(** A tree is plain when it holds no node a listener of the complexity rule
    is keyed by and opens no unit. *)
Definition plain (n : node) : bool :=
  forallb plain_event (traverse None n).

Definition plain_opt (o : option node) : bool :=
  match o with Some n => plain n | None => true end.

(** The function nodes, with their name, parameters and body. *)
Definition function_parts (f : node) : option (option node * list node * node) :=
  match f with
  | FunctionDeclaration id params body => Some (id, params, body)
  | FunctionExpression id params body => Some (id, params, body)
  | ArrowFunctionExpression params body => Some (None, params, body)
  | _ => None
  end.

(** ** Else-if chains *)

(** [if (t1) c1 else if (t2) c2 ... else final]: the [else] branch of a
    chain of links, each a test and a consequent. *)
Fixpoint else_if_chain (links : list (node * node)) (final : option node)
    : option node :=
  match links with
  | [] => final
  | (test, consequent) :: rest =>
      Some (IfStatement test consequent (else_if_chain rest final))
  end.

(** ** Logical chains of the test files *)

(** A chain whose operands, where they are not logical expressions
    themselves, are plain. *)
Fixpoint chain_of_plain_operands (n : node) : bool :=
  match n with
  | LogicalExpression _ lhs rhs =>
      chain_of_plain_operands lhs && chain_of_plain_operands rhs
  | _ => plain n
  end.

(** What an operand adds to the runs of its parent of operator [operator]:
    nothing when it is no logical expression, its runs when it starts a run
    of its own, and its runs but the one it shares with its parent when it
    has the operator of its parent. *)
Definition operand_runs (operator : string) (n : node) : Z :=
  match n with
  | LogicalExpression op _ _ =>
      runs n - (if String.eqb operator op then 1 else 0)
  | _ => 0
  end.

Definition logical (operator : string) (lhs rhs : node) : node :=
  LogicalExpression operator lhs rhs.

(** [a && b && c] *)
Definition sameLogicalAndSequence : node :=
  logical "&&" (logical "&&" (Identifier "a") (Identifier "b")) (Identifier "c").

(** [a && b && c || d || e] *)
Definition twoRepeatingLogicalSequences : node :=
  logical "||"
    (logical "||" (logical "&&" (logical "&&" (Identifier "a") (Identifier "b"))
                     (Identifier "c"))
       (Identifier "d"))
    (Identifier "e").

(** [a && b || c && d] *)
Definition twoMixedLogicalSequences : node :=
  logical "||" (logical "&&" (Identifier "a") (Identifier "b"))
    (logical "&&" (Identifier "c") (Identifier "d")).

(** ** Functions that call themselves, from the test files *)

Definition call (name : string) (arguments : list node) : node :=
  CallExpression (Identifier name) arguments.

Definition minus (n : string) (k : string) : node :=
  BinaryExpression "-" (Identifier n) (Literal k).

Definition function_returning (name : string) (e : node) : node :=
  FunctionDeclaration (Some (Identifier name)) [Identifier "n"]
    (BlockStatement [ReturnStatement (Some e)]).

(** [function recursionSample(n) { return n * recursionSample(n - 1); }] *)
Definition recursionSample : node :=
  Program [function_returning "recursionSample"
             (BinaryExpression "*" (Identifier "n")
                (call "recursionSample" [minus "n" "1"]))].

(** [function multipleRecursions(n) {
       return multipleRecursions(n - 1) + multipleRecursions(n - 2); }] *)
Definition multipleRecursions : node :=
  Program [function_returning "multipleRecursions"
             (BinaryExpression "+"
                (call "multipleRecursions" [minus "n" "1"])
                (call "multipleRecursions" [minus "n" "2"]))].

(** [function noRecursion(n) { return a(n - 1) + b(n - 2); }] *)
Definition noRecursion : node :=
  Program [function_returning "noRecursion"
             (BinaryExpression "+" (call "a" [minus "n" "1"])
                (call "b" [minus "n" "2"]))].

(** [const math = { factorial(n) { return n * math.factorial(n - 1); } };] *)
Definition methodInLiteral : node :=
  Program
    [VariableDeclaration "const"
       [VariableDeclarator (Identifier "math")
          (Some (ObjectExpression
             [Property (Identifier "factorial")
                (FunctionExpression None [Identifier "n"]
                   (BlockStatement
                      [ReturnStatement (Some
                         (BinaryExpression "*" (Identifier "n")
                            (CallExpression
                               (MemberExpression (Identifier "math")
                                  (Identifier "factorial") false)
                               [minus "n" "1"])))]))
                false]))]].





(** ** Nullish coalescing and logical assignment *)

(** [a ?? b ?? c] *)
Definition nullishChain : node :=
  logical "??" (logical "??" (Identifier "a") (Identifier "b")) (Identifier "c").

(** [a ||= b ||= c], that is [a ||= (b ||= c)] *)
Definition assignmentChain : node :=
  AssignmentExpression "||=" (Identifier "a")
    (AssignmentExpression "||=" (Identifier "b") (Identifier "c")).

(** ** Statements of a function-like unit *)

(** An event that neither opens nor closes a function-like unit. *)
Definition neutral (e : event) : bool :=
  match e with
  | Enter n _ => negb (MaxStatements.isFunctionLike n)
  | Exit n => negb (MaxStatements.isFunctionLike n)
  | _ => true
  end.

(** Events in which every function-like node that is entered is left, in
    order. *)
Inductive balanced : list event -> Prop :=
| balanced_nil : balanced []
| balanced_neutral e rest :
    neutral e = true -> balanced rest -> balanced (e :: rest)
| balanced_unit n parent inner rest :
    MaxStatements.isFunctionLike n = true ->
    balanced inner -> balanced rest ->
    balanced (Enter n parent :: inner ++ Exit n :: rest).

(** [node.body.length] of a statement block, 0 for another node. *)
Definition block_length (n : node) : Z :=
  match n with
  | BlockStatement body => Z.of_nat (length body)
  | _ => 0
  end.

(** The sum of the lengths of the statement blocks entered while the unit
    the events belong to is the innermost open one: the blocks of the units
    nested in it, at a [depth] above 0, are left out. *)
Fixpoint statements (depth : nat) (events : list event) : Z :=
  match events with
  | [] => 0
  | Enter n _ :: rest =>
      if MaxStatements.isFunctionLike n then statements (S depth) rest
      else (match depth with O => block_length n | S _ => 0 end)
           + statements depth rest
  | Exit n :: rest =>
      if MaxStatements.isFunctionLike n
      then statements (Nat.pred depth) rest
      else statements depth rest
  | _ :: rest => statements depth rest
  end.

(** The events no listener of the statement-count rule is keyed by. *)
Definition flat_event (e : event) : bool :=
  match e with
  | Enter n _ =>
      negb (MaxStatements.isFunctionLike n)
      && match n with BlockStatement _ => false | _ => true end
  | Exit n =>
      negb (MaxStatements.isFunctionLike n)
      && match n with Program _ => false | _ => true end
  | _ => true
  end.

(** A tree is flat when it holds no statement block and no function-like
    node. *)
Definition flat (n : node) : bool :=
  forallb flat_event (traverse None n).

Definition flat_opt (o : option node) : bool :=
  match o with Some n => flat n | None => true end.

(** The reports of the deferred units whose count exceeds the maximum. *)
Definition exceeding (max : jsval) (deferred : list (node * jsval))
    : list MaxStatements.report :=
  map (fun d => MaxStatements.mkReport (fst d) (snd d) max)
    (filter (fun d => js_gt (snd d) max) deferred).

(** A function declaration whose body holds flat statements only, and the
    number of these. *)
Definition flat_function (f : node) : bool :=
  match f with
  | FunctionDeclaration id params (BlockStatement body) =>
      flat_opt id && forallb flat params && forallb flat body
  | _ => false
  end.

Definition body_length (f : node) : jsval :=
  match f with
  | FunctionDeclaration _ _ body => Num (block_length body)
  | _ => undefined
  end.

(** [function name() { s; s; ... }] with [k] statements *)
Definition function_of (name : string) (k : nat) : node :=
  FunctionDeclaration (Some (Identifier name)) []
    (BlockStatement (repeat (ExpressionStatement (Identifier "s")) k)).

(** [class A { static { } }] *)
Definition classWithStaticBlock : node :=
  ClassDeclaration (Some (Identifier "A")) None (ClassBody [StaticBlock []]).

(** Two states of the statement-count rule that differ at most in the
    property "-1" of [functionStack]. *)
Definition same_counts (s1 s2 : MaxStatements.state) : Prop :=
  items (MaxStatements.functionStack s1) = items (MaxStatements.functionStack s2)
  /\ MaxStatements.topLevelFunctions s1 = MaxStatements.topLevelFunctions s2
  /\ MaxStatements.reports s1 = MaxStatements.reports s2.

(** [class A { static { } }  function f() { s; s; s; }] *)
Definition staticBlockAndFunction : node :=
  Program [classWithStaticBlock; function_of "f" 3].

(** ** The valid cases of src/tests/lib/rules/complexity.js *)

Definition declaration (name : string) (params body : list node) : node :=
  Program [FunctionDeclaration (Some (Identifier name)) params
             (BlockStatement body)].

Definition returns (e : node) : node := ReturnStatement (Some e).

Definition block_returning (raw : string) : node :=
  BlockStatement [returns (Literal raw)].

Definition const (name : string) (init : node) : node :=
  Program [VariableDeclaration "const"
             [VariableDeclarator (Identifier name) (Some init)]].

(** Each case with the threshold of its [options]. *)
Definition valid_cases : list (node * Z) :=
  [ (basic, 1);
    (declaration "letAssign" []
       [VariableDeclaration "let"
          [VariableDeclarator (Identifier "r") (Some (Literal "0.07"))]], 1);
    (declaration "optChainingOnMemberExpr" [Identifier "obj"]
       [returns (ChainExpression
          (MemberExpression (Identifier "obj") (Identifier "prop") false))], 1);
    (declaration "optionalChaininOnCallExpr" [Identifier "func"]
       [returns (ChainExpression (call "func" []))], 1);
    (declaration "oneIf" [Identifier "a"]
       [IfStatement (Identifier "a") (block_returning "true") None;
        returns (Literal "false")], 1);
    (declaration "oneIfElse" [Identifier "a"]
       [IfStatement (Identifier "a") (block_returning "true")
          (Some (block_returning "false"))], 2);
    (declaration "oneIfElseIf" [Identifier "a"; Identifier "b"]
       [IfStatement (Identifier "a") (block_returning "1")
          (Some (IfStatement (Identifier "b") (block_returning "2") None));
        returns (Literal "0")], 2);
    (declaration "ternary" [Identifier "val"]
       [returns (ConditionalExpression (Identifier "val") (Literal "yes")
                   (Literal "no"))], 1);
    (declaration "nullishCoalescing" [Identifier "val"]
       [returns (logical "??" (Identifier "val") (Literal "default"))], 1);
    (declaration "nullishAssign" [Identifier "obj"]
       [ExpressionStatement
          (AssignmentExpression "??="
             (MemberExpression (Identifier "obj") (Identifier "val") false)
             (Literal "default"));
        returns (Identifier "obj")], 1);
    (declaration "tryCatch" []
       [TryStatement (block_returning "true")
          (Some (CatchClause (Some (Identifier "e")) (block_returning "false")))
          None], 1);
    (declaration "defaultAssignment" [Identifier "b"]
       [VariableDeclaration "const"
          [VariableDeclarator
             (ArrayPattern [AssignmentPattern (Identifier "c") (Literal "")])
             (Some (Identifier "b"))]], 1);
    (declaration "defaultParameterValue"
       [AssignmentPattern (Identifier "b") (Literal "")] [], 1);
    (declaration "switchWithCases" [Identifier "val"]
       [SwitchStatement (Identifier "val")
          [SwitchCase (Some (Literal "1")) [returns (Literal "one")];
           SwitchCase (Some (Literal "2")) [returns (Literal "two")]]], 1);
    (declaration "switchWithDefault" [Identifier "val"]
       [SwitchStatement (Identifier "val")
          [SwitchCase (Some (Literal "1")) [returns (Literal "one")];
           SwitchCase (Some (Literal "2")) [returns (Literal "two")];
           SwitchCase None [returns (Literal "other")]]], 2);
    (declaration "logicalAssignment" [Identifier "obj"]
       [ExpressionStatement
          (AssignmentExpression "||="
             (MemberExpression (Identifier "obj") (Identifier "val") false)
             (Literal "default"));
        returns (Identifier "obj")], 1);
    (declaration "sameLogicalAndSequence" []
       [IfStatement sameLogicalAndSequence (BlockStatement []) None], 2);
    (declaration "sameLogicalOrSequence" []
       [IfStatement
          (logical "||" (logical "||" (Identifier "a") (Identifier "b"))
             (Identifier "c"))
          (BlockStatement []) None], 2);
    (declaration "twoRepeatingLogicalSequences" []
       [IfStatement twoRepeatingLogicalSequences (BlockStatement []) None], 3);
    (declaration "twoMixedLogicalSequences" []
       [IfStatement twoMixedLogicalSequences (BlockStatement []) None], 4);
    (recursionSample, 1);
    (multipleRecursions, 2);
    (const "factorial"
       (FunctionExpression None [Identifier "n"]
          (BlockStatement
             [returns (BinaryExpression "*"
                (BinaryExpression "*" (Identifier "n")
                   (call "factorial" [minus "n" "1"]))
                (call "b" [Identifier "n"]))])), 1);
    (const "fib"
       (ArrowFunctionExpression [Identifier "n"]
          (BinaryExpression "+" (call "fib" [minus "n" "1"])
             (call "fib" [minus "n" "2"]))), 2);
    (Program
       [VariableDeclaration "const"
          [VariableDeclarator (Identifier "math")
             (Some (ObjectExpression []))];
        ExpressionStatement
          (AssignmentExpression "="
             (MemberExpression (Identifier "math") (Identifier "factorial")
                false)
             (FunctionExpression None [Identifier "n"]
                (BlockStatement
                   [returns (CallExpression
                      (MemberExpression (Identifier "math")
                         (Identifier "factorial") false)
                      [minus "n" "1"])])))], 1);
    (methodInLiteral, 1);
    (noRecursion, 1) ].

(** The complexities a rule reports for a program under the threshold 0,
    under which every function is reported. *)
Definition scores (program : node) : list jsval :=
  map Complexity.complexity (ComplexityRec.lint (OptNumber 0) program).

Definition base_scores (program : node) : list jsval :=
  map Complexity.complexity (Complexity.lint (OptNumber 0) program).

(** ** Reports under a threshold *)

(** Whether a report is kept under the threshold [th]:
    [threshold === 0 || complexity > threshold]. *)
Definition kept_under (th : jsval) (r : Complexity.report) : bool :=
  js_is_zero th || js_gt (Complexity.complexity r) th.

(** The reports of a list that are kept under [th], each with [th] as its
    [max]. *)
Definition under (th : jsval) (rs : list Complexity.report)
    : list Complexity.report :=
  map (fun r =>
         Complexity.mkReport (Complexity.node_of r) (Complexity.name r)
           (Complexity.complexity r) th)
    (filter (kept_under th) rs).

(** The same for the statement-count rule: [count > max]. *)
Definition ms_under (max : jsval) (rs : list MaxStatements.report)
    : list MaxStatements.report :=
  map (fun r =>
         MaxStatements.mkReport (MaxStatements.node_of r)
           (MaxStatements.count r) max)
    (filter (fun r => js_gt (MaxStatements.count r) max) rs).

(** The units of a reportable origin that the events end, in the order in
    which they end, each with the name of its report. *)
Definition closed_units (events : list event) : list (node * unit_name) :=
  flat_map
    (fun e =>
       match e with
       | CodePathEnd origin n =>
           if Complexity.reportable origin
           then [(n, Complexity.nameOf origin n)]
           else []
       | _ => []
       end) events.

Definition unit_of (r : Complexity.report) : node * unit_name :=
  (Complexity.node_of r, Complexity.name r).

(** Two reports of one unit, the second with a complexity that is no
    lower. *)
Definition no_lower (r0 r1 : Complexity.report) : Prop :=
  unit_of r0 = unit_of r1
  /\ exists c0 c1,
       Complexity.complexity r0 = Num c0
       /\ Complexity.complexity r1 = Num c1 /\ c0 <= c1.

(** A report whose complexity is a number that is not negative. *)
Definition is_count (r : Complexity.report) : Prop :=
  exists c, Complexity.complexity r = Num c /\ 0 <= c.

(** ** Shapes of a logical chain *)

(** A chain whose logical expressions all have the operator [operator]. *)
Fixpoint uniform (operator : string) (n : node) : bool :=
  match n with
  | LogicalExpression op lhs rhs =>
      String.eqb operator op && uniform operator lhs && uniform operator rhs
  | _ => true
  end.

(** The chain with the operands of each of its logical expressions
    swapped. *)
Fixpoint mirror (n : node) : node :=
  match n with
  | LogicalExpression op lhs rhs => LogicalExpression op (mirror rhs) (mirror lhs)
  | _ => n
  end.

(** ** What the statement-count rule reports *)

(** A report of a function node the events leave, whose count exceeds the
    maximum of the configuration. *)
Definition sound_report (cfg : MaxStatements.config) (events : list event)
    (r : MaxStatements.report) : Prop :=
  isFunction (MaxStatements.node_of r) = true
  /\ In (Exit (MaxStatements.node_of r)) events
  /\ MaxStatements.max r = MaxStatements.maxOf cfg
  /\ js_gt (MaxStatements.count r) (MaxStatements.maxOf cfg) = true.

(** A deferred entry of a function node the events leave. *)
Definition sound_deferred (events : list event) (d : node * jsval) : Prop :=
  isFunction (fst d) = true /\ In (Exit (fst d)) events.

(** ** The operands of a logical chain *)

(** The events of the operands of a chain that are no logical expressions
    themselves, in the order of the traversal. *)
Fixpoint chain_operands (parent : option node) (n : node) : list event :=
  match n with
  | LogicalExpression _ lhs rhs =>
      chain_operands (Some n) lhs ++ chain_operands (Some n) rhs
  | _ => traverse parent n
  end.

(** ** The parts of an else-if chain *)

(** The if-statements of an else-if chain: the statement itself and, as
    long as the else branch is an if-statement, those of the branch. *)
Fixpoint if_nodes (n : node) : Z :=
  match n with
  | IfStatement _ _ (Some a) => 1 + if_nodes a
  | IfStatement _ _ None => 1
  | _ => 0
  end.

(** Whether an else-if chain ends in an else branch that is no
    if-statement. *)
Fixpoint ends_in_else (n : node) : bool :=
  match n with
  | IfStatement _ _ (Some a) =>
      if isIfStatement a then ends_in_else a else true
  | _ => false
  end.

(** The events of the tests and of the branches of an else-if chain that
    are no if-statements of the chain, in the order of the traversal. *)
Fixpoint if_parts (parent : option node) (n : node) : list event :=
  match n with
  | IfStatement test consequent alternate =>
      traverse (Some n) test ++ traverse (Some n) consequent
      ++ match alternate with
         | Some a => if_parts (Some n) a
         | None => []
         end
  | _ => traverse parent n
  end.

(** [function oneIfElse(a) { if (a) { return true; } else { return false; } }] *)
Definition oneIfElse : node :=
  declaration "oneIfElse" [Identifier "a"]
    [IfStatement (Identifier "a") (block_returning "true")
       (Some (block_returning "false"))].

(* ================================================================== *)
(** * Properties *)
(* ================================================================== *)

(** ** Arrays *)

Lemma increaseComplexity_cons c cs m :
  Complexity.increaseComplexity (mkArray (c :: cs) m) = mkArray ((c + 1) :: cs) m.
Proof. reflexivity. Qed.

Lemma iter_increaseComplexity k c cs m :
  Nat.iter k Complexity.increaseComplexity (mkArray (c :: cs) m)
  = mkArray ((c + Z.of_nat k) :: cs) m.
Proof.
  induction k as [|k IH].
  - simpl. now rewrite Z.add_0_r.
  - rewrite Nat.iter_succ, IH, increaseComplexity_cons.
    f_equal. f_equal. lia.
Qed.

Lemma increaseComplexityTimes_cons k c cs m :
  0 <= k ->
  Complexity.increaseComplexityTimes k (mkArray (c :: cs) m)
  = mkArray ((c + k) :: cs) m.
Proof.
  intros Hk. unfold Complexity.increaseComplexityTimes.
  rewrite iter_increaseComplexity, Z2Nat.id by assumption. reflexivity.
Qed.

(** ** The scan of a logical chain *)

Lemma count_sequences_spec n :
  forall currentOp count,
    Complexity.countLogicalOperatorSequences n currentOp count
    = match n with
      | LogicalExpression operator _ _ =>
          count + runs n
          - (if Complexity.startsSequence currentOp operator then 0 else 1)
      | _ => count
      end.
Proof.
  induction n; intros currentOp count; try reflexivity.
  cbn [Complexity.countLogicalOperatorSequences].
  set (k := if Complexity.startsSequence currentOp operator
            then count + 1 else count).
  assert (Hl : match n1 with
               | LogicalExpression _ _ _ =>
                   Complexity.countLogicalOperatorSequences n1 (Some operator) k
               | _ => k
               end = k + logical_nodes n1 - merged_operands n1
                     - continues_run operator n1).
  { rewrite IHn1. destruct n1; cbn; try lia.
    unfold runs. cbn. destruct (String.eqb operator operator0); cbn; lia. }
  rewrite Hl. clear Hl.
  set (k' := k + logical_nodes n1 - merged_operands n1
             - continues_run operator n1).
  assert (Hr : match n2 with
               | LogicalExpression _ _ _ =>
                   Complexity.countLogicalOperatorSequences n2 (Some operator) k'
               | _ => k'
               end = k' + logical_nodes n2 - merged_operands n2
                     - continues_run operator n2).
  { rewrite IHn2. destruct n2; cbn; try lia.
    unfold runs. cbn. destruct (String.eqb operator operator0); cbn; lia. }
  rewrite Hr. unfold runs, k', k. cbn [logical_nodes merged_operands].
  destruct (Complexity.startsSequence currentOp operator); lia.
Qed.

Lemma merged_le_nodes n :
  forall operator, merged_operands n + continues_run operator n <= logical_nodes n.
Proof.
  induction n; intros op;
    cbn [logical_nodes merged_operands continues_run]; try lia.
  specialize (IHn1 operator). specialize (IHn2 operator).
  destruct (String.eqb op operator); lia.
Qed.

Lemma runs_positive operator lhs rhs :
  1 <= runs (LogicalExpression operator lhs rhs).
Proof.
  unfold runs. cbn [logical_nodes merged_operands].
  pose proof (merged_le_nodes lhs operator).
  pose proof (merged_le_nodes rhs operator). lia.
Qed.

Lemma count_sequences_runs operator lhs rhs :
  Complexity.countLogicalOperatorSequences
    (LogicalExpression operator lhs rhs) None 0
  = runs (LogicalExpression operator lhs rhs).
Proof. rewrite count_sequences_spec. cbn. lia. Qed.

Lemma onLogicalExpression_cons operator lhs rhs parent c cs m :
  Complexity.onLogicalExpression (LogicalExpression operator lhs rhs) parent
    (mkArray (c :: cs) m)
  = mkArray
      ((c + if Complexity.hasLogicalExpressionParent parent then 0
            else runs (LogicalExpression operator lhs rhs)) :: cs) m.
Proof.
  unfold Complexity.onLogicalExpression.
  destruct (Complexity.hasLogicalExpressionParent parent).
  - now rewrite Z.add_0_r.
  - rewrite count_sequences_runs.
    apply increaseComplexityTimes_cons.
    pose proof (runs_positive operator lhs rhs). lia.
Qed.

(** ** One listener, on a stack that is not empty *)

Lemma isRecursiveCall_spec current callee :
  ComplexityRec.isRecursiveCall current callee
  = match current with
    | Some (Identifier name) => calls_by_name name callee
    | _ => false
    end.
Proof.
  destruct current as [cur|]; [|reflexivity].
  destruct cur; destruct callee; try reflexivity;
    cbn [ComplexityRec.isRecursiveCall calls_by_name];
    match goal with
    | |- context [match ?property with Identifier _ => _ | _ => _ end] =>
        destruct property; reflexivity
    end.
Qed.

Lemma enter_cons n parent f fs c cs m :
  ComplexityRec.enter n parent (f :: fs) (mkArray (c :: cs) m)
  = mkArray ((c + decision_points f n parent) :: cs) m.
Proof.
  destruct n; cbn [ComplexityRec.enter decision_points];
    rewrite ?increaseComplexity_cons, ?Z.add_0_r; try reflexivity.
  - (* IfStatement *)
    unfold ComplexityRec.onIfStatement, final_else.
    rewrite increaseComplexity_cons.
    destruct alternate as [a|]; cbn.
    + destruct (isIfStatement a); cbn;
        rewrite ?increaseComplexity_cons; do 2 f_equal; lia.
    + do 2 f_equal; lia.
  - (* SwitchStatement *)
    unfold Complexity.onSwitchStatement.
    rewrite increaseComplexity_cons.
    destruct (existsb Complexity.isDefaultCase cases); cbn;
      rewrite ?increaseComplexity_cons; do 2 f_equal; lia.
  - (* CallExpression *)
    unfold ComplexityRec.onCallExpression.
    rewrite isRecursiveCall_spec. cbn [ComplexityRec.currentFunctionIdentifier].
    destruct f as [[]|]; rewrite ?Z.add_0_r; try reflexivity.
    destruct (calls_by_name name n); cbn;
      rewrite ?increaseComplexity_cons, ?Z.add_0_r; reflexivity.
  - (* LogicalExpression *)
    apply onLogicalExpression_cons.
  - (* AssignmentExpression *)
    unfold Complexity.onAssignmentExpression.
    destruct (isLogicalAssignmentOperator operator); cbn;
      rewrite ?increaseComplexity_cons, ?Z.add_0_r; reflexivity.
Qed.

(** ** Runs of events *)

Lemma run_app th a b s :
  ComplexityRec.run th (a ++ b) s
  = ComplexityRec.run th b (ComplexityRec.run th a s).
Proof. apply fold_left_app. Qed.

Lemma run_cons th e t s :
  ComplexityRec.run th (e :: t) s
  = ComplexityRec.run th t (ComplexityRec.handle th e s).
Proof. reflexivity. Qed.

Lemma nested_app a b : nested a -> nested b -> nested (a ++ b).
Proof.
  induction 1 as [|n p t _ IH|n t _ IH|o n p inner t Hin _ _ IH]; intros Hb;
    cbn; try (constructor; auto; fail); auto.
  rewrite <- app_assoc. cbn. constructor; auto.
Qed.

Lemma own_points_inner value inner :
  nested inner ->
  forall depth rest,
    own_points value (S depth) (inner ++ rest)
    = own_points value (S depth) rest.
Proof.
  induction 1 as [|n p t _ IH|n t _ IH|o n p inner t _ IHi _ IHt];
    intros depth rest; cbn; auto.
  rewrite <- app_assoc. cbn. rewrite IHi. cbn. apply IHt.
Qed.

(** Events whose units are all ended add their own decision points to the
    last counter and leave the rest of both stacks as they are. *)
Lemma run_nested th events :
  nested events ->
  forall c cs m f fs r,
  exists r',
    ComplexityRec.run th events
      (ComplexityRec.mkState (mkArray (c :: cs) m) (f :: fs) r)
    = ComplexityRec.mkState (mkArray ((c + points f 0 events) :: cs) m)
        (f :: fs) (r ++ r').
Proof.
  induction 1 as [|n p t _ IH|n t _ IH|o n p inner t Hi IHi _ IHt];
    intros c cs m f fs r.
  - exists []. cbn. now rewrite Z.add_0_r, app_nil_r.
  - rewrite run_cons. cbn [ComplexityRec.handle ComplexityRec.complexities
      ComplexityRec.functionStack ComplexityRec.reports].
    rewrite enter_cons.
    destruct (IH (c + decision_points f n p) cs m f fs r) as [r' ->].
    exists r'. unfold points. cbn [own_points]. do 3 f_equal. lia.
  - rewrite run_cons. cbn [ComplexityRec.handle]. apply IH.
  - rewrite run_cons, run_app, run_cons.
    cbn [ComplexityRec.handle]. unfold ComplexityRec.onCodePathStart, push.
    cbn [ComplexityRec.complexities ComplexityRec.functionStack
      ComplexityRec.reports items minus1].
    destruct (IHi 0 (c :: cs) m
                (if String.eqb o "function"
                 then ComplexityRec.getFunctionIdentifier n p else None)
                (f :: fs) r) as [r1 ->].
    unfold ComplexityRec.onCodePathEnd.
    cbn [ComplexityRec.complexities ComplexityRec.functionStack
      ComplexityRec.reports pop items minus1 tl].
    unfold Complexity.reportIfComplex.
    unfold points. cbn [own_points].
    rewrite (own_points_inner _ inner Hi). cbn [own_points Nat.pred].
    destruct (negb (Complexity.reportable o)).
    + destruct (IHt c cs m f fs (r ++ r1)) as [r2 ->].
      exists (r1 ++ r2). now rewrite app_assoc.
    + destruct (js_is_zero th || js_gt _ th).
      * destruct (IHt c cs m f fs ((r ++ r1) ++ [Complexity.mkReport n
            (Complexity.nameOf o n) (Num (0 + own_points (decision_points
              (if String.eqb o "function"
               then ComplexityRec.getFunctionIdentifier n p else None))
              0 inner)) th])) as [r2 ->].
        eexists. rewrite <- !app_assoc. reflexivity.
      * destruct (IHt c cs m f fs (r ++ r1)) as [r2 ->].
        exists (r1 ++ r2). now rewrite app_assoc.
Qed.

(** ** The traversal *)

Lemma nested_in_code_path origin n parent inner :
  nested inner -> nested (in_code_path origin n parent inner).
Proof.
  intros H. destruct origin as [o|]; cbn; [|exact H].
  apply nested_unit; [exact H | constructor].
Qed.

Lemma nested_flat_map (l : list node) parent :
  list_all node (fun c => forall p, nested (traverse p c)) l ->
  nested (flat_map (traverse parent) l).
Proof.
  induction 1; cbn; [constructor | apply nested_app; auto].
Qed.

Lemma nested_option (o : option node) parent :
  option_all node (fun c => forall p, nested (traverse p c)) o ->
  nested (match o with Some c => traverse parent c | None => [] end).
Proof. destruct 1; [auto | constructor]. Qed.

Ltac nested_children :=
  repeat first
    [ apply nested_nil
    | apply nested_exit
    | apply nested_flat_map; assumption
    | apply nested_option; assumption
    | apply nested_in_code_path
    | match goal with
      | H : forall p, nested (traverse p ?c) |- nested (traverse _ ?c) =>
          apply H
      end
    | apply nested_app ].

(** The traversal ends every unit it starts. *)
Lemma traverse_nested n : forall parent, nested (traverse parent n).
Proof.
  induction n; intros parent; cbn [traverse];
    apply nested_in_code_path; apply nested_enter; nested_children.
  (* the value of a class field *)
  match goal with H : option_all _ _ _ |- _ => destruct H end;
    nested_children.
Qed.

(** ** Plain trees *)

Lemma plain_any_parent n :
  plain n = true -> forall parent, forallb plain_event (traverse parent n) = true.
Proof. intros H parent. destruct n; exact H. Qed.

Lemma plain_opt_any_parent o parent :
  plain_opt o = true ->
  forallb plain_event
    (match o with Some c => traverse parent c | None => [] end) = true.
Proof.
  destruct o; cbn; [intros H; now apply plain_any_parent | reflexivity].
Qed.

Lemma plain_all_any_parent l parent :
  forallb plain l = true ->
  forallb plain_event (flat_map (traverse parent) l) = true.
Proof.
  induction l as [|c l IH]; cbn; [reflexivity|].
  intros [Hc Hl]%andb_prop. rewrite forallb_app.
  now rewrite (plain_any_parent c Hc), IH.
Qed.

Lemma handle_plain th e s :
  plain_event e = true -> ComplexityRec.handle th e s = s.
Proof.
  destruct e as [| |n p|n]; cbn; try discriminate; destruct s; [|reflexivity].
  destruct n; cbn; try discriminate; reflexivity.
Qed.

Lemma run_plain th events s :
  forallb plain_event events = true -> ComplexityRec.run th events s = s.
Proof.
  revert s. induction events as [|e t IH]; intros s; cbn; [reflexivity|].
  intros [He Ht]%andb_prop.
  change (ComplexityRec.run th t (ComplexityRec.handle th e s) = s).
  now rewrite handle_plain, IH.
Qed.

Lemma base_handle_plain th e s :
  plain_event e = true -> Complexity.handle th e s = s.
Proof.
  destruct e as [| |n p|n]; cbn; try discriminate; destruct s; [|reflexivity].
  destruct n; cbn; try discriminate; reflexivity.
Qed.

Lemma base_run_plain th events s :
  forallb plain_event events = true -> Complexity.run th events s = s.
Proof.
  revert s. induction events as [|e t IH]; intros s; cbn; [reflexivity|].
  intros [He Ht]%andb_prop.
  change (Complexity.run th t (Complexity.handle th e s) = s).
  now rewrite base_handle_plain, IH.
Qed.

Lemma base_run_app th a b s :
  Complexity.run th (a ++ b) s = Complexity.run th b (Complexity.run th a s).
Proof. apply fold_left_app. Qed.

Lemma points_plain current events :
  forallb plain_event events = true ->
  forall depth, points current depth events = 0.
Proof.
  unfold points.
  induction events as [|e t IH]; cbn; [reflexivity|].
  intros [He Ht]%andb_prop depth.
  destruct e as [| |n p|n]; cbn in He; try discriminate; [|now apply IH].
  rewrite IH by assumption. destruct depth; [|reflexivity].
  destruct n; cbn in He; try discriminate; reflexivity.
Qed.

(** A unit made of plain events closes with the score 0. *)
Lemma run_plain_unit th origin n parent inner s :
  forallb plain_event inner = true ->
  ComplexityRec.run th
    (CodePathStart origin n parent :: inner ++ [CodePathEnd origin n]) s
  = ComplexityRec.mkState (ComplexityRec.complexities s)
      (ComplexityRec.functionStack s)
      (Complexity.reportIfComplex th origin n (Num 0) (ComplexityRec.reports s)).
Proof.
  intros H. rewrite run_cons, run_app, (run_plain th inner) by assumption.
  destruct s as [[cs m] fs r]. reflexivity.
Qed.

Lemma base_run_plain_unit th origin n parent inner s :
  forallb plain_event inner = true ->
  Complexity.run th
    (CodePathStart origin n parent :: inner ++ [CodePathEnd origin n]) s
  = Complexity.mkState (Complexity.complexities s)
      (Complexity.reportIfComplex th origin n (Num 0) (Complexity.reports s)).
Proof.
  intros H.
  change (Complexity.run th (CodePathStart origin n parent
                               :: inner ++ [CodePathEnd origin n]) s)
    with (Complexity.run th (inner ++ [CodePathEnd origin n])
            (Complexity.onCodePathStart s)).
  rewrite base_run_app, (base_run_plain th inner) by assumption.
  destruct s as [[cs m] r]. reflexivity.
Qed.

(** The score of a unit is the number of its own decision points. *)
Lemma run_unit th origin n parent inner s :
  nested inner ->
  exists r',
    ComplexityRec.run th
      (CodePathStart origin n parent :: inner ++ [CodePathEnd origin n]) s
    = ComplexityRec.mkState (ComplexityRec.complexities s)
        (ComplexityRec.functionStack s)
        (Complexity.reportIfComplex th origin n
           (Num (points (binding origin n parent) 0 inner))
           (ComplexityRec.reports s ++ r')).
Proof.
  intros H. destruct s as [[cs m] fs r].
  rewrite run_cons, run_app.
  cbn [ComplexityRec.handle]. unfold ComplexityRec.onCodePathStart, push.
  cbn [ComplexityRec.complexities ComplexityRec.functionStack
    ComplexityRec.reports items minus1].
  destruct (run_nested th inner H 0 cs m
              (if String.eqb origin "function"
               then ComplexityRec.getFunctionIdentifier n parent else None)
              fs r) as [r' ->].
  exists r'. reflexivity.
Qed.

Lemma traverse_function f id params body parent :
  function_parts f = Some (id, params, body) ->
  traverse parent f
  = CodePathStart "function" f parent
      :: (Enter f parent
          :: (match id with Some c => traverse (Some f) c | None => [] end
              ++ flat_map (traverse (Some f)) params
              ++ traverse (Some f) body)
          ++ [Exit f])
      ++ [CodePathEnd "function" f].
Proof.
  destruct f; cbn [function_parts]; try discriminate;
    intros [= <- <- <-]; reflexivity.
Qed.

(** ** The score of a unit in src/lib/rules/complexity.js *)

Lemma base_enter_cons n parent c cs m :
  Complexity.enter n parent (mkArray (c :: cs) m)
  = mkArray ((c + base_decision_points n parent) :: cs) m.
Proof.
  destruct n; cbn [Complexity.enter base_decision_points decision_points];
    rewrite ?increaseComplexity_cons, ?Z.add_0_r; try reflexivity.
  - (* SwitchStatement *)
    unfold Complexity.onSwitchStatement.
    rewrite increaseComplexity_cons.
    destruct (existsb Complexity.isDefaultCase cases); cbn;
      rewrite ?increaseComplexity_cons; do 2 f_equal; lia.
  - (* LogicalExpression *)
    apply onLogicalExpression_cons.
  - (* AssignmentExpression *)
    unfold Complexity.onAssignmentExpression.
    destruct (isLogicalAssignmentOperator operator); cbn;
      rewrite ?increaseComplexity_cons, ?Z.add_0_r; reflexivity.
Qed.

Lemma base_run_cons th e t s :
  Complexity.run th (e :: t) s = Complexity.run th t (Complexity.handle th e s).
Proof. reflexivity. Qed.

Lemma base_run_nested th events :
  nested events ->
  forall c cs m r,
  exists r',
    Complexity.run th events (Complexity.mkState (mkArray (c :: cs) m) r)
    = Complexity.mkState (mkArray ((c + base_points 0 events) :: cs) m)
        (r ++ r').
Proof.
  unfold base_points.
  induction 1 as [|n p t _ IH|n t _ IH|o n p inner t Hi IHi _ IHt];
    intros c cs m r.
  - exists []. cbn. now rewrite Z.add_0_r, app_nil_r.
  - rewrite base_run_cons.
    cbn [Complexity.handle Complexity.complexities Complexity.reports].
    rewrite base_enter_cons.
    destruct (IH (c + base_decision_points n p) cs m r) as [r' ->].
    exists r'. cbn [own_points]. do 3 f_equal. lia.
  - rewrite base_run_cons. cbn [Complexity.handle]. apply IH.
  - rewrite base_run_cons, base_run_app, base_run_cons.
    cbn [Complexity.handle]. unfold Complexity.onCodePathStart, push.
    cbn [Complexity.complexities Complexity.reports items minus1].
    destruct (IHi 0 (c :: cs) m r) as [r1 ->].
    unfold Complexity.onCodePathEnd.
    cbn [Complexity.complexities Complexity.reports pop items minus1].
    cbn [own_points]. rewrite (own_points_inner _ inner Hi).
    cbn [own_points Nat.pred].
    destruct (IHt c cs m
                (Complexity.reportIfComplex th o n
                   (Num (0 + own_points base_decision_points 0 inner))
                   (r ++ r1))) as [r2 ->].
    unfold Complexity.reportIfComplex.
    destruct (negb (Complexity.reportable o)).
    + exists (r1 ++ r2). now rewrite app_assoc.
    + destruct (js_is_zero th || js_gt _ th).
      * eexists. rewrite <- !app_assoc. reflexivity.
      * exists (r1 ++ r2). now rewrite app_assoc.
Qed.

Lemma base_run_unit th origin n parent inner s :
  nested inner ->
  exists r',
    Complexity.run th
      (CodePathStart origin n parent :: inner ++ [CodePathEnd origin n]) s
    = Complexity.mkState (Complexity.complexities s)
        (Complexity.reportIfComplex th origin n (Num (base_points 0 inner))
           (Complexity.reports s ++ r')).
Proof.
  intros H. destruct s as [[cs m] r].
  rewrite base_run_cons, base_run_app.
  cbn [Complexity.handle]. unfold Complexity.onCodePathStart, push.
  cbn [Complexity.complexities Complexity.reports items minus1].
  destruct (base_run_nested th inner H 0 cs m r) as [r' ->].
  exists r'. reflexivity.
Qed.

(** ** The reports of events do not depend on the stacks *)

Lemma reportIfComplex_app th origin n complexity a b :
  Complexity.reportIfComplex th origin n complexity (a ++ b)
  = a ++ Complexity.reportIfComplex th origin n complexity b.
Proof.
  unfold Complexity.reportIfComplex.
  destruct (negb (Complexity.reportable origin)); [reflexivity|].
  destruct (js_is_zero th || js_gt complexity th); [|reflexivity].
  now rewrite app_assoc.
Qed.

(** The reports of events whose units are all ended do not depend on the
    stacks the events start from. *)
Lemma run_reports_independent th events :
  nested events ->
  forall c cs m f fs r c' cs' m' f' fs',
    ComplexityRec.reports
      (ComplexityRec.run th events
         (ComplexityRec.mkState (mkArray (c :: cs) m) (f :: fs) r))
    = r ++ ComplexityRec.reports
             (ComplexityRec.run th events
                (ComplexityRec.mkState (mkArray (c' :: cs') m') (f' :: fs')
                   [])).
Proof.
  induction 1 as [|n p t _ IH|n t _ IH|o n p inner t Hi IHi _ IHt];
    intros c cs m f fs r c' cs' m' f' fs'.
  - cbn. now rewrite app_nil_r.
  - rewrite !run_cons.
    cbn [ComplexityRec.handle ComplexityRec.complexities
      ComplexityRec.functionStack ComplexityRec.reports].
    rewrite !enter_cons. apply IH.
  - rewrite !run_cons. apply IH.
  - rewrite !run_cons, !run_app, !run_cons.
    cbn [ComplexityRec.handle].
    unfold ComplexityRec.onCodePathStart, push.
    cbn [ComplexityRec.complexities ComplexityRec.functionStack
      ComplexityRec.reports items minus1].
    set (b := if String.eqb o "function"
              then ComplexityRec.getFunctionIdentifier n p else None).
    specialize (IHi 0 (c :: cs) m b (f :: fs) r 0 (c' :: cs') m' b
                  (f' :: fs')).
    destruct (run_nested th inner Hi 0 (c :: cs) m b (f :: fs) r)
      as [r1 E1].
    destruct (run_nested th inner Hi 0 (c' :: cs') m' b (f' :: fs') [])
      as [r2 E2].
    rewrite E1, E2 in IHi. rewrite E1, E2.
    cbn [ComplexityRec.reports app] in IHi.
    apply app_inv_head in IHi. subst r2.
    unfold ComplexityRec.onCodePathEnd.
    cbn [ComplexityRec.complexities ComplexityRec.functionStack
      ComplexityRec.reports pop items minus1 tl app].
    rewrite reportIfComplex_app.
    rewrite (IHt c' cs' m' f' fs'
               (Complexity.reportIfComplex th o n
                  (Num (0 + points b 0 inner)) r1) c' cs' m' f' fs').
    rewrite (IHt c cs m f fs _ c' cs' m' f' fs').
    now rewrite app_assoc.
Qed.

Lemma base_run_reports_independent th events :
  nested events ->
  forall c cs m r c' cs' m',
    Complexity.reports
      (Complexity.run th events (Complexity.mkState (mkArray (c :: cs) m) r))
    = r ++ Complexity.reports
             (Complexity.run th events
                (Complexity.mkState (mkArray (c' :: cs') m') [])).
Proof.
  induction 1 as [|n p t _ IH|n t _ IH|o n p inner t Hi IHi _ IHt];
    intros c cs m r c' cs' m'.
  - cbn. now rewrite app_nil_r.
  - rewrite !base_run_cons.
    cbn [Complexity.handle Complexity.complexities Complexity.reports].
    rewrite !base_enter_cons. apply IH.
  - rewrite !base_run_cons. apply IH.
  - rewrite !base_run_cons, !base_run_app, !base_run_cons.
    cbn [Complexity.handle].
    unfold Complexity.onCodePathStart, push.
    cbn [Complexity.complexities Complexity.reports items minus1].
    specialize (IHi 0 (c :: cs) m r 0 (c' :: cs') m').
    destruct (base_run_nested th inner Hi 0 (c :: cs) m r) as [r1 E1].
    destruct (base_run_nested th inner Hi 0 (c' :: cs') m' []) as [r2 E2].
    rewrite E1, E2 in IHi. rewrite E1, E2.
    cbn [Complexity.reports app] in IHi.
    apply app_inv_head in IHi. subst r2.
    unfold Complexity.onCodePathEnd.
    cbn [Complexity.complexities Complexity.reports pop items minus1 app].
    rewrite reportIfComplex_app.
    rewrite (IHt c' cs' m'
               (Complexity.reportIfComplex th o n
                  (Num (0 + base_points 0 inner)) r1) c' cs' m').
    rewrite (IHt c cs m _ c' cs' m').
    now rewrite app_assoc.
Qed.

Lemma run_nested_uniform th events f :
  nested events ->
  exists r',
    forall c cs m fs r,
      ComplexityRec.run th events
        (ComplexityRec.mkState (mkArray (c :: cs) m) (f :: fs) r)
      = ComplexityRec.mkState (mkArray ((c + points f 0 events) :: cs) m)
          (f :: fs) (r ++ r').
Proof.
  intros H.
  exists (ComplexityRec.reports
            (ComplexityRec.run th events
               (ComplexityRec.mkState (mkArray [0] undefined) [f] []))).
  intros c cs m fs r.
  destruct (run_nested th events H c cs m f fs r) as [r1 E].
  pose proof (run_reports_independent th events H c cs m f fs r
                0 [] undefined f []) as Hi.
  rewrite E in Hi. cbn [ComplexityRec.reports] in Hi.
  now rewrite E, Hi.
Qed.

Lemma base_run_nested_uniform th events :
  nested events ->
  exists r',
    forall c cs m r,
      Complexity.run th events (Complexity.mkState (mkArray (c :: cs) m) r)
      = Complexity.mkState (mkArray ((c + base_points 0 events) :: cs) m)
          (r ++ r').
Proof.
  intros H.
  exists (Complexity.reports
            (Complexity.run th events
               (Complexity.mkState (mkArray [0] undefined) []))).
  intros c cs m r.
  destruct (base_run_nested th events H c cs m r) as [r1 E].
  pose proof (base_run_reports_independent th events H c cs m r
                0 [] undefined) as Hi.
  rewrite E in Hi. cbn [Complexity.reports] in Hi.
  now rewrite E, Hi.
Qed.

(* ================================================================== *)
(** * The claims *)
(* ================================================================== *)

(** C1, against the claim as stated: the rule computes and reports the
    complexity 0, not 1, for [function basic() { return true; }], in both
    revisions. *)
Lemma C1_counterexample :
  map Complexity.complexity (ComplexityRec.lint (OptNumber 0) basic) = [Num 0]
  /\ map Complexity.complexity (Complexity.lint (OptNumber 0) basic) = [Num 0]
  /\ ~ In (Num 1)
       (map Complexity.complexity (ComplexityRec.lint (OptNumber 0) basic)).
Proof.
  repeat split; try reflexivity.
  cbn. intros [H|[]]. discriminate H.
Qed.

(** C1, as amended: the score of a unit starts at 0.  Both revisions open a
    unit with the counter 0; the score a unit is closed and reported with is
    the number of its own decision points, as each revision counts them,
    with no baseline point; and a
    function whose body holds only a return statement, with no decision
    point in its name, parameters and returned expression, has no decision
    point of its own and the score 0, which is what the report carries
    when the threshold is 0. *)
Theorem C1_score_starts_at_zero
    (th : jsval) (origin : string) (n : node) (parent : option node)
    (inner : list event) (f : node) (id : option node) (params : list node)
    (argument : option node)
    (s : ComplexityRec.state) (s0 : Complexity.state) :
  nested inner ->
  function_parts f
    = Some (id, params, BlockStatement [ReturnStatement argument]) ->
  plain_opt id = true ->
  forallb plain params = true ->
  plain_opt argument = true ->
  ComplexityRec.complexities (ComplexityRec.onCodePathStart origin n parent s)
    = push 0 (ComplexityRec.complexities s)
  /\ Complexity.complexities (Complexity.onCodePathStart s0)
     = push 0 (Complexity.complexities s0)
  /\ (exists r',
        ComplexityRec.run th
          (CodePathStart origin n parent :: inner ++ [CodePathEnd origin n]) s
        = ComplexityRec.mkState (ComplexityRec.complexities s)
            (ComplexityRec.functionStack s)
            (Complexity.reportIfComplex th origin n
               (Num (points (binding origin n parent) 0 inner))
               (ComplexityRec.reports s ++ r')))
  /\ (exists r',
        Complexity.run th
          (CodePathStart origin n parent :: inner ++ [CodePathEnd origin n]) s0
        = Complexity.mkState (Complexity.complexities s0)
            (Complexity.reportIfComplex th origin n
               (Num (base_points 0 inner)) (Complexity.reports s0 ++ r')))
  /\ ComplexityRec.run th (traverse parent f) s
     = ComplexityRec.mkState (ComplexityRec.complexities s)
         (ComplexityRec.functionStack s)
         (Complexity.reportIfComplex th "function" f (Num 0)
            (ComplexityRec.reports s))
  /\ Complexity.run th (traverse parent f) s0
     = Complexity.mkState (Complexity.complexities s0)
         (Complexity.reportIfComplex th "function" f (Num 0)
            (Complexity.reports s0))
  /\ points (binding "function" f parent) 0
       (Enter f parent
          :: (match id with Some c => traverse (Some f) c | None => [] end
              ++ flat_map (traverse (Some f)) params
              ++ traverse (Some f) (BlockStatement [ReturnStatement argument]))
          ++ [Exit f]) = 0
  /\ Complexity.reportIfComplex (Num 0) "function" f (Num 0) []
     = [Complexity.mkReport f (FunctionNameWithKind f) (Num 0) (Num 0)].
Proof.
  intros Hnested Hf Hid Hparams Harg.
  assert (Hplain :
    forallb plain_event
      (Enter f parent
         :: (match id with Some c => traverse (Some f) c | None => [] end
             ++ flat_map (traverse (Some f)) params
             ++ traverse (Some f) (BlockStatement [ReturnStatement argument]))
         ++ [Exit f]) = true).
  { cbn [forallb plain_event]. apply andb_true_intro. split.
    - destruct f; cbn in Hf; try discriminate; reflexivity.
    - rewrite !forallb_app.
      rewrite (plain_opt_any_parent id (Some f) Hid).
      rewrite (plain_all_any_parent params (Some f) Hparams).
      cbn [traverse codePathOrigin in_code_path flat_map forallb plain_event
             no_listener andb app].
      rewrite !forallb_app.
      rewrite (plain_opt_any_parent argument _ Harg). reflexivity. }
  repeat split.
  - apply run_unit, Hnested.
  - apply base_run_unit, Hnested.
  - rewrite (traverse_function f id params _ parent Hf).
    apply run_plain_unit, Hplain.
  - rewrite (traverse_function f id params _ parent Hf).
    apply base_run_plain_unit, Hplain.
  - apply points_plain, Hplain.
Qed.

Lemma C1_witness :
  ComplexityRec.run (Num 0) (traverse (Some basic) basic_function)
    (ComplexityRec.mkState (mkArray [0] undefined) [None] [])
  = ComplexityRec.mkState (mkArray [0] undefined) [None]
      (Complexity.reportIfComplex (Num 0) "function" basic_function (Num 0) []).
Proof.
  refine (proj1 (proj2 (proj2 (proj2 (proj2
    (C1_score_starts_at_zero (Num 0) "function" basic_function (Some basic)
       [Enter (Identifier "x") None; Exit (Identifier "x")]
       basic_function (Some (Identifier "basic")) []
       (Some (Literal "true"))
       (ComplexityRec.mkState (mkArray [0] undefined) [None] [])
       Complexity.initial _ _ _ _ _)))))).
  - repeat constructor.
  - reflexivity.
  - reflexivity.
  - reflexivity.
  - reflexivity.
Defined.

(** ** C2 *)

Lemma runs_unfold operator lhs rhs :
  runs (LogicalExpression operator lhs rhs)
  = 1 + operand_runs operator lhs + operand_runs operator rhs.
Proof.
  unfold runs. cbn [logical_nodes merged_operands].
  destruct lhs, rhs; cbn [operand_runs continues_run logical_nodes
    merged_operands]; unfold runs; cbn [logical_nodes merged_operands];
    repeat match goal with
           | |- context [String.eqb ?a ?b] => destruct (String.eqb a b)
           end; lia.
Qed.

Lemma operand_runs_uniform n :
  forall operator,
    0 <= operand_runs operator n
    /\ (operand_runs operator n = 0 <-> uniform operator n = true).
Proof.
  induction n; intros op; try (cbn; split; [lia | split; reflexivity]).
  cbn [operand_runs uniform]. rewrite runs_unfold.
  destruct (IHn1 operator) as [H1 E1]. destruct (IHn2 operator) as [H2 E2].
  destruct (String.eqb op operator) eqn:E.
  - apply String.eqb_eq in E. subst op. cbn [andb]. split; [lia|].
    rewrite andb_true_iff, <- E1, <- E2. lia.
  - cbn [andb]. split; [lia|]. split; [lia | discriminate].
Qed.

Lemma runs_one_uniform operator lhs rhs :
  runs (LogicalExpression operator lhs rhs) = 1
  <-> uniform operator (LogicalExpression operator lhs rhs) = true.
Proof.
  rewrite runs_unfold. cbn [uniform]. rewrite String.eqb_refl. cbn [andb].
  destruct (operand_runs_uniform lhs operator) as [H1 E1].
  destruct (operand_runs_uniform rhs operator) as [H2 E2].
  rewrite andb_true_iff, <- E1, <- E2. lia.
Qed.

(** A logical expression whose parent is a logical expression is skipped,
    whatever its operands: its traversal does what the traversal of the
    operands of its chain does. *)
Lemma run_chain th n :
  forall parent s,
    Complexity.hasLogicalExpressionParent parent = true ->
    ComplexityRec.run th (traverse parent n) s
    = ComplexityRec.run th (chain_operands parent n) s.
Proof.
  induction n; intros parent s Hp; try reflexivity.
  cbn [traverse codePathOrigin in_code_path chain_operands].
  rewrite run_cons, !run_app.
  cbn [ComplexityRec.handle ComplexityRec.enter].
  unfold Complexity.onLogicalExpression. rewrite Hp.
  rewrite IHn1, IHn2 by reflexivity.
  destruct s. reflexivity.
Qed.

Lemma base_run_chain th n :
  forall parent s,
    Complexity.hasLogicalExpressionParent parent = true ->
    Complexity.run th (traverse parent n) s
    = Complexity.run th (chain_operands parent n) s.
Proof.
  induction n; intros parent s Hp; try reflexivity.
  cbn [traverse codePathOrigin in_code_path chain_operands].
  rewrite base_run_cons, !base_run_app.
  cbn [Complexity.handle Complexity.enter].
  unfold Complexity.onLogicalExpression. rewrite Hp.
  rewrite IHn1, IHn2 by reflexivity.
  destruct s. reflexivity.
Qed.

(** The events of the operands of a chain of plain operands are plain. *)
Lemma chain_operands_plain n :
  chain_of_plain_operands n = true ->
  forall parent, forallb plain_event (chain_operands parent n) = true.
Proof.
  induction n; intros Hn parent; try (apply plain_any_parent, Hn).
  cbn [chain_of_plain_operands] in Hn. apply andb_prop in Hn as [H1 H2].
  cbn [chain_operands]. rewrite forallb_app, IHn1, IHn2 by assumption.
  reflexivity.
Qed.

(** C2: a logical expression whose parent is no logical expression adds the
    number of maximal same-operator runs of its chain, and one whose parent
    is a logical expression adds nothing, whatever the operands of the
    chain are.  The scan counts a run at the first node and at every node
    whose operator differs from the one handed down by its parent; an
    operand with the operator of its parent merges into the run of the
    parent.  The traversal of a whole chain does what adding the runs and
    then traversing the operands that are no logical expressions does: the
    logical expressions inside the chain add nothing.  In a function,
    [a && b && c] adds 1, [a && b && c || d || e] adds 2 and
    [a && b || c && d] adds 3. *)
Theorem C2_logical_chain_runs
    (th : jsval) (operator : string) (lhs rhs : node) (parent : option node)
    (currentOp : option string) (count : Z)
    (c : Z) (cs : list Z) (m : jsval) (f : option node)
    (fs : list (option node)) (r : list Complexity.report) :
  let n := LogicalExpression operator lhs rhs in
  let added :=
    if Complexity.hasLogicalExpressionParent parent then 0 else runs n in
  let adds (chain : node) (k : Z) :=
    Complexity.run th (traverse None chain)
      (Complexity.mkState (mkArray (c :: cs) m) r)
    = Complexity.mkState (mkArray ((c + k) :: cs) m) r
    /\ ComplexityRec.run th (traverse None chain)
         (ComplexityRec.mkState (mkArray (c :: cs) m) (f :: fs) r)
       = ComplexityRec.mkState (mkArray ((c + k) :: cs) m) (f :: fs) r in
  (* the scan *)
  Complexity.countLogicalOperatorSequences n currentOp count
    = count + runs n
      - (if Complexity.startsSequence currentOp operator then 0 else 1)
  /\ Complexity.countLogicalOperatorSequences n None 0 = runs n
  /\ runs n = 1 + operand_runs operator lhs + operand_runs operator rhs
  (* the listener *)
  /\ Complexity.enter n parent (mkArray (c :: cs) m)
     = mkArray ((c + added) :: cs) m
  /\ ComplexityRec.enter n parent (f :: fs) (mkArray (c :: cs) m)
     = mkArray ((c + added) :: cs) m
  (* the traversal of the chain *)
  /\ Complexity.run th (traverse parent n)
       (Complexity.mkState (mkArray (c :: cs) m) r)
     = Complexity.run th (chain_operands parent n)
         (Complexity.mkState (mkArray ((c + added) :: cs) m) r)
  /\ ComplexityRec.run th (traverse parent n)
       (ComplexityRec.mkState (mkArray (c :: cs) m) (f :: fs) r)
     = ComplexityRec.run th (chain_operands parent n)
         (ComplexityRec.mkState (mkArray ((c + added) :: cs) m) (f :: fs) r)
  (* the chains of the test files *)
  /\ adds sameLogicalAndSequence 1
  /\ adds twoRepeatingLogicalSequences 2
  /\ adds twoMixedLogicalSequences 3.
Proof.
  intros n added adds.
  assert (Hbase : forall op l r0 p c0 r1,
            Complexity.run th (traverse p (LogicalExpression op l r0))
              (Complexity.mkState (mkArray (c0 :: cs) m) r1)
            = Complexity.run th
                (chain_operands p (LogicalExpression op l r0))
                (Complexity.mkState
                   (mkArray
                      ((c0 + if Complexity.hasLogicalExpressionParent p
                             then 0
                             else runs (LogicalExpression op l r0)) :: cs) m)
                   r1)).
  { intros op l r0 p c0 r1.
    cbn [traverse codePathOrigin in_code_path chain_operands].
    rewrite base_run_cons, !base_run_app.
    cbn [Complexity.handle Complexity.enter Complexity.complexities
      Complexity.reports].
    rewrite onLogicalExpression_cons.
    rewrite (base_run_chain th l), (base_run_chain th r0) by reflexivity.
    reflexivity. }
  assert (Hrec : forall op l r0 p c0 r1,
            ComplexityRec.run th (traverse p (LogicalExpression op l r0))
              (ComplexityRec.mkState (mkArray (c0 :: cs) m) (f :: fs) r1)
            = ComplexityRec.run th
                (chain_operands p (LogicalExpression op l r0))
                (ComplexityRec.mkState
                   (mkArray
                      ((c0 + if Complexity.hasLogicalExpressionParent p
                             then 0
                             else runs (LogicalExpression op l r0)) :: cs) m)
                   (f :: fs) r1)).
  { intros op l r0 p c0 r1.
    cbn [traverse codePathOrigin in_code_path chain_operands].
    rewrite run_cons, !run_app.
    cbn [ComplexityRec.handle ComplexityRec.enter ComplexityRec.complexities
      ComplexityRec.functionStack ComplexityRec.reports].
    rewrite onLogicalExpression_cons.
    rewrite (run_chain th l), (run_chain th r0) by reflexivity.
    reflexivity. }
  assert (Hadds : forall op l r0 k,
            chain_of_plain_operands (LogicalExpression op l r0) = true ->
            runs (LogicalExpression op l r0) = k ->
            adds (LogicalExpression op l r0) k).
  { intros op l r0 k Hplain <-. subst adds. cbn beta. split.
    - rewrite Hbase.
      now rewrite (base_run_plain th _ _ (chain_operands_plain _ Hplain None)).
    - rewrite Hrec.
      now rewrite (run_plain th _ _ (chain_operands_plain _ Hplain None)). }
  subst n added.
  split; [apply (count_sequences_spec (LogicalExpression operator lhs rhs))|].
  split; [apply count_sequences_runs|].
  split; [apply runs_unfold|].
  split; [apply onLogicalExpression_cons|].
  split; [apply onLogicalExpression_cons|].
  split; [apply Hbase|]. split; [apply Hrec|].
  split; [|split]; apply Hadds; reflexivity.
Qed.

(** ** C3 *)

(** Two runs that differ in how the last counter is written. *)
Ltac same_counter :=
  match goal with
  | |- ?lhs = ?rhs =>
      match lhs with
      | context [mkArray (?x :: _) _] =>
          match rhs with
          | context [mkArray (?y :: _) _] =>
              replace x with y by lia; reflexivity
          end
      end
  end.

Lemma not_if_no_chain a :
  isIfStatement a = false -> if_nodes a = 0 /\ ends_in_else a = false.
Proof. destruct a; try discriminate; now split. Qed.

(** The traversal of an else-if chain does what adding the points of its
    if-statements and then traversing its tests and branches does. *)
Lemma run_if_parts th n :
  forall parent c cs m f fs r,
    ComplexityRec.run th (traverse parent n)
      (ComplexityRec.mkState (mkArray (c :: cs) m) (f :: fs) r)
    = ComplexityRec.run th (if_parts parent n)
        (ComplexityRec.mkState
           (mkArray ((c + if_nodes n + b2z (ends_in_else n)) :: cs) m)
           (f :: fs) r).
Proof.
  induction n; intros parent c cs m f fs r;
    try (cbn [if_parts if_nodes ends_in_else b2z];
         now rewrite !Z.add_0_r).
  cbn [traverse codePathOrigin in_code_path if_parts].
  rewrite run_cons, !run_app.
  cbn [ComplexityRec.handle ComplexityRec.complexities
    ComplexityRec.functionStack ComplexityRec.reports].
  rewrite enter_cons. cbn [decision_points].
  destruct (run_nested_uniform th _ f
              (traverse_nested n1 (Some (IfStatement n1 n2 alternate))))
    as [r1 E1].
  destruct (run_nested_uniform th _ f
              (traverse_nested n2 (Some (IfStatement n1 n2 alternate))))
    as [r2 E2].
  rewrite !E1, !E2.
  cbn [ComplexityRec.run fold_left ComplexityRec.handle].
  match goal with H : option_all _ _ _ |- _ => destruct H as [a IHa|] end.
  - fold (ComplexityRec.run th
            (traverse (Some (IfStatement n1 n2 (Some a))) a)).
    rewrite IHa.
    fold (ComplexityRec.run th
            (if_parts (Some (IfStatement n1 n2 (Some a))) a)).
    cbn [if_nodes ends_in_else final_else].
    destruct (isIfStatement a) eqn:Ha; cbn [negb b2z].
    + same_counter.
    + destruct (not_if_no_chain a Ha) as [-> ->]. cbn [b2z].
      same_counter.
  - cbn [if_nodes ends_in_else final_else b2z]. same_counter.
Qed.

(** In src/lib/rules/complexity.js only the if-statements count. *)
Lemma base_run_if_parts th n :
  forall parent c cs m r,
    Complexity.run th (traverse parent n)
      (Complexity.mkState (mkArray (c :: cs) m) r)
    = Complexity.run th (if_parts parent n)
        (Complexity.mkState (mkArray ((c + if_nodes n) :: cs) m) r).
Proof.
  induction n; intros parent c cs m r;
    try (cbn [if_parts if_nodes]; now rewrite !Z.add_0_r).
  cbn [traverse codePathOrigin in_code_path if_parts].
  rewrite base_run_cons, !base_run_app.
  cbn [Complexity.handle Complexity.complexities Complexity.reports].
  rewrite base_enter_cons. cbn [base_decision_points].
  destruct (base_run_nested_uniform th _
              (traverse_nested n1 (Some (IfStatement n1 n2 alternate))))
    as [r1 E1].
  destruct (base_run_nested_uniform th _
              (traverse_nested n2 (Some (IfStatement n1 n2 alternate))))
    as [r2 E2].
  rewrite !E1, !E2.
  cbn [Complexity.run fold_left Complexity.handle].
  match goal with H : option_all _ _ _ |- _ => destruct H as [a IHa|] end.
  - fold (Complexity.run th
            (traverse (Some (IfStatement n1 n2 (Some a))) a)).
    rewrite IHa.
    fold (Complexity.run th
            (if_parts (Some (IfStatement n1 n2 (Some a))) a)).
    cbn [if_nodes]. same_counter.
  - cbn [if_nodes]. same_counter.
Qed.

(** C3, against the claim as stated: in src/lib/rules/complexity.js the
    listener of an if-statement is [increaseComplexity], so that
    [if (a) { return true; } else { return false; }] adds 1 and not 2; in
    src/unnamed/part_001 it adds 2. *)
Lemma C3_counterexample :
  Complexity.enter
    (IfStatement (Identifier "a") (block_returning "true")
       (Some (block_returning "false")))
    None (mkArray [0] undefined)
  = mkArray [1] undefined
  /\ map Complexity.complexity (Complexity.lint (OptNumber 0) oneIfElse)
     = [Num 1]
  /\ map Complexity.complexity (ComplexityRec.lint (OptNumber 0) oneIfElse)
     = [Num 2].
Proof. repeat split. Qed.

(** C3, as amended: in src/unnamed/part_001 the listener of an
    if-statement adds 1, and 1 more exactly when the statement has an else
    branch that is not an if-statement, whatever its test and its
    branches; in src/lib/rules/complexity.js it adds exactly 1, and an else
    branch adds nothing.  So the traversal of an else-if chain does what
    adding the points of the chain and then traversing its tests and
    branches does, the points of the chain being, in part_001, 1 for each
    if-statement of the chain and 1 more when the chain ends in an else
    branch that is no if-statement, and in complexity.js 1 for each
    if-statement of the chain. *)
Theorem C3_if_statement
    (th : jsval) (test consequent : node) (alternate : option node)
    (links : list (node * node)) (final : option node)
    (parent : option node)
    (c : Z) (cs : list Z) (m : jsval) (f : option node)
    (fs : list (option node)) (r : list Complexity.report) :
  let stmt := IfStatement test consequent alternate in
  let chain := IfStatement test consequent (else_if_chain links final) in
  (* the listener of src/unnamed/part_001 *)
  ComplexityRec.enter stmt parent (f :: fs) (mkArray (c :: cs) m)
  = mkArray ((c + 1 + b2z (final_else alternate)) :: cs) m
  /\ (final_else alternate = true
      <-> exists a, alternate = Some a /\ isIfStatement a = false)
  (* the listener of src/lib/rules/complexity.js *)
  /\ Complexity.enter stmt parent (mkArray (c :: cs) m)
     = mkArray ((c + 1) :: cs) m
  (* the traversal of an else-if chain *)
  /\ ComplexityRec.run th (traverse parent stmt)
       (ComplexityRec.mkState (mkArray (c :: cs) m) (f :: fs) r)
     = ComplexityRec.run th (if_parts parent stmt)
         (ComplexityRec.mkState
            (mkArray ((c + if_nodes stmt + b2z (ends_in_else stmt)) :: cs) m)
            (f :: fs) r)
  /\ Complexity.run th (traverse parent stmt)
       (Complexity.mkState (mkArray (c :: cs) m) r)
     = Complexity.run th (if_parts parent stmt)
         (Complexity.mkState (mkArray ((c + if_nodes stmt) :: cs) m) r)
  (* the points of a chain of links *)
  /\ if_nodes chain
     = 1 + Z.of_nat (length links)
       + match final with Some e => if_nodes e | None => 0 end
  /\ ends_in_else chain
     = match final with
       | Some e => if isIfStatement e then ends_in_else e else true
       | None => false
       end.
Proof.
  intros stmt chain. subst stmt chain.
  split; [|split; [|split; [|split; [|split; [|split]]]]].
  - rewrite enter_cons. cbn [decision_points]. now rewrite Z.add_assoc.
  - unfold final_else. destruct alternate as [a|].
    + rewrite negb_true_iff. split.
      * intros H. now exists a.
      * now intros [a' [[= <-] H]].
    + split; [discriminate | now intros [a' [[=] _]]].
  - reflexivity.
  - apply run_if_parts.
  - apply base_run_if_parts.
  - revert test consequent.
    induction links as [|[t' c'] links IH]; intros test consequent.
    + cbn [else_if_chain length Z.of_nat if_nodes].
      destruct final; lia.
    + cbn [else_if_chain].
      change (if_nodes (IfStatement test consequent (Some ?x)))
        with (1 + if_nodes x).
      rewrite IH, length_cons, Nat2Z.inj_succ. lia.
  - revert test consequent.
    induction links as [|[t' c'] links IH]; intros test consequent.
    + cbn [else_if_chain ends_in_else]. destruct final; reflexivity.
    + cbn [else_if_chain].
      change (ends_in_else (IfStatement test consequent (Some ?x)))
        with (if isIfStatement x then ends_in_else x else true).
      cbn [isIfStatement]. apply IH.
Qed.

(** ** C4 *)





(** ** Reports that are made, and origins that are reported *)

Lemma app_one_neq {A} (l : list A) (x : A) : l ++ [x] <> l.
Proof.
  intros H. apply (f_equal (@length A)) in H.
  rewrite length_app in H. cbn in H. lia.
Qed.

Lemma reportable_iff origin :
  Complexity.reportable origin = true
  <-> origin = "function" \/ origin = "class-field-initializer"
      \/ origin = "class-static-block".
Proof.
  unfold Complexity.reportable.
  rewrite !orb_true_iff, !String.eqb_eq. tauto.
Qed.

(** ** C6 *)

(** C6 fails on the code at [{maximum: 0}]: [option.maximum || option.max]
    is [undefined] there, so nothing is ever reported, while the plain
    threshold 0 reports every function under the complexity rule and every
    function with a statement under the statement-count rule.  The two
    shapes agree for [{max: n}] and for [{maximum: n}] with [n] other than
    0. *)
Theorem C6_maximum_zero_is_lost (n : Z) (variant : option string) :
  Complexity.threshold (OptObject None (Some n) variant)
    = Complexity.threshold (OptNumber n)
  /\ Complexity.threshold (OptObject (Some n) None variant)
     = (if n =? 0 then undefined else Complexity.threshold (OptNumber n))
  /\ MaxStatements.maxStatements (OptObject None (Some n) variant)
     = MaxStatements.maxStatements (OptNumber n)
  /\ MaxStatements.maxStatements (OptObject (Some n) None variant)
     = (if n =? 0 then undefined
        else MaxStatements.maxStatements (OptNumber n))
  /\ map Complexity.complexity (Complexity.lint (OptNumber 0) basic) = [Num 0]
  /\ Complexity.lint (OptObject (Some 0) None None) basic = []
  /\ map Complexity.complexity (ComplexityRec.lint (OptNumber 0) basic)
     = [Num 0]
  /\ ComplexityRec.lint (OptObject (Some 0) None None) basic = []
  /\ map MaxStatements.count (MaxStatements.lint (OptNumber 0) None basic)
     = [Num 1]
  /\ MaxStatements.lint (OptObject (Some 0) None None) None basic = [].
Proof.
  repeat split; try reflexivity; cbn; unfold js_or; cbn;
    destruct (n =? 0); reflexivity.
Qed.

(** ** C7 *)

(** C7, against the claim as stated: [a ?? b ?? c] holds two occurrences of
    [??], and its traversal adds 1, in both revisions. *)
Lemma C7_counterexample :
  logical_nodes nullishChain = 2
  /\ ComplexityRec.run (Num 20) (traverse None nullishChain)
       (ComplexityRec.mkState (mkArray [0] undefined) [None] [])
     = ComplexityRec.mkState (mkArray [1] undefined) [None] []
  /\ Complexity.run (Num 20) (traverse None nullishChain)
       (Complexity.mkState (mkArray [0] undefined) [])
     = Complexity.mkState (mkArray [1] undefined) [].
Proof. repeat split. Qed.

Lemma isLogicalAssignmentOperator_iff operator :
  isLogicalAssignmentOperator operator = true
  <-> operator = "&&=" \/ operator = "||=" \/ operator = "??=".
Proof.
  unfold isLogicalAssignmentOperator.
  rewrite !orb_true_iff, !String.eqb_eq. tauto.
Qed.

(** C7, as amended: an assignment adds exactly 1 when its operator is one
    of [&&=], [||=] and [??=], and nothing otherwise, whatever its parent
    and its operands: assignments do not merge, and [a ||= b ||= c] adds 2.
    A nullish coalescing is a logical expression like the others: it adds
    the runs of its chain when its parent is no logical expression and
    nothing when its parent is one, whatever its operands.  So a chain
    adds exactly 1 when all its logical expressions are [??], however many
    they are, and only then: consecutive [??] merge into one run, and
    [a ?? b ?? c] adds 1. *)
Theorem C7_short_circuit_operators
    (th : jsval) (operator : string) (lhs rhs : node) (parent : option node)
    (c : Z) (cs : list Z) (m : jsval) (f : option node)
    (fs : list (option node)) (r : list Complexity.report)
    (operator' : string) (lhs' rhs' : node) :
  let assignment := AssignmentExpression operator lhs rhs in
  let nullish := LogicalExpression "??" lhs rhs in
  let inside := Some (LogicalExpression operator' lhs' rhs') in
  let added :=
    if Complexity.hasLogicalExpressionParent parent then 0
    else runs nullish in
  let base_state k := Complexity.mkState (mkArray ((c + k) :: cs) m) r in
  let state k :=
    ComplexityRec.mkState (mkArray ((c + k) :: cs) m) (f :: fs) r in
  (* logical assignment *)
  Complexity.enter assignment parent (mkArray (c :: cs) m)
  = mkArray ((c + b2z (isLogicalAssignmentOperator operator)) :: cs) m
  /\ ComplexityRec.enter assignment parent (f :: fs) (mkArray (c :: cs) m)
     = mkArray ((c + b2z (isLogicalAssignmentOperator operator)) :: cs) m
  /\ (isLogicalAssignmentOperator operator = true
      <-> operator = "&&=" \/ operator = "||=" \/ operator = "??=")
  /\ Complexity.run th (traverse parent assignment) (base_state 0)
     = Complexity.run th
         (traverse (Some assignment) lhs ++ traverse (Some assignment) rhs)
         (base_state (b2z (isLogicalAssignmentOperator operator)))
  /\ ComplexityRec.run th (traverse parent assignment) (state 0)
     = ComplexityRec.run th
         (traverse (Some assignment) lhs ++ traverse (Some assignment) rhs)
         (state (b2z (isLogicalAssignmentOperator operator)))
  /\ Complexity.run th (traverse None assignmentChain) (base_state 0)
     = base_state 2
  /\ ComplexityRec.run th (traverse None assignmentChain) (state 0) = state 2
  (* nullish coalescing *)
  /\ Complexity.enter nullish parent (mkArray (c :: cs) m)
     = mkArray ((c + added) :: cs) m
  /\ ComplexityRec.enter nullish parent (f :: fs) (mkArray (c :: cs) m)
     = mkArray ((c + added) :: cs) m
  /\ Complexity.enter nullish inside (mkArray (c :: cs) m)
     = mkArray (c :: cs) m
  /\ ComplexityRec.enter nullish inside (f :: fs) (mkArray (c :: cs) m)
     = mkArray (c :: cs) m
  /\ Complexity.countLogicalOperatorSequences nullish None 0 = runs nullish
  /\ (runs nullish = 1 <-> uniform "??" nullish = true)
  /\ (Complexity.countLogicalOperatorSequences nullish None 0 = 1
      <-> uniform "??" nullish = true)
  /\ (Complexity.enter nullish None (mkArray (c :: cs) m)
        = mkArray ((c + 1) :: cs) m
      <-> uniform "??" nullish = true)
  /\ (ComplexityRec.enter nullish None (f :: fs) (mkArray (c :: cs) m)
        = mkArray ((c + 1) :: cs) m
      <-> uniform "??" nullish = true)
  /\ Complexity.run th (traverse parent nullish) (base_state 0)
     = Complexity.run th (chain_operands parent nullish) (base_state added)
  /\ ComplexityRec.run th (traverse parent nullish) (state 0)
     = ComplexityRec.run th (chain_operands parent nullish) (state added)
  /\ Complexity.run th (traverse None nullishChain) (base_state 0)
     = base_state 1
  /\ ComplexityRec.run th (traverse None nullishChain) (state 0) = state 1.
Proof.
  intros assignment nullish inside added base_state state.
  subst assignment nullish inside added base_state state. cbn beta.
  assert (Hone : forall x,
            mkArray ((c + x) :: cs) m = mkArray ((c + 1) :: cs) m
            <-> x = 1).
  { intros x. split; [intros [= H]; lia | now intros ->]. }
  assert (Hassign : forall p,
            Complexity.onAssignmentExpression operator (mkArray (p :: cs) m)
            = mkArray ((p + b2z (isLogicalAssignmentOperator operator)) :: cs)
                m).
  { intros p. unfold Complexity.onAssignmentExpression.
    destruct (isLogicalAssignmentOperator operator); cbn [b2z].
    - apply increaseComplexity_cons.
    - now rewrite Z.add_0_r. }
  split; [apply Hassign|]. split; [apply Hassign|].
  split; [apply isLogicalAssignmentOperator_iff|].
  split.
  { cbn [traverse codePathOrigin in_code_path].
    rewrite base_run_cons, base_run_app.
    cbn [Complexity.handle Complexity.enter Complexity.complexities
      Complexity.reports Complexity.run fold_left].
    rewrite Hassign. same_counter. }
  split.
  { cbn [traverse codePathOrigin in_code_path].
    rewrite run_cons, run_app.
    cbn [ComplexityRec.handle ComplexityRec.enter ComplexityRec.complexities
      ComplexityRec.functionStack ComplexityRec.reports ComplexityRec.run
      fold_left].
    rewrite Hassign. same_counter. }
  split; [cbn -[Z.add]; same_counter|].
  split; [cbn -[Z.add]; same_counter|].
  split; [apply onLogicalExpression_cons|].
  split; [apply onLogicalExpression_cons|].
  split; [reflexivity|]. split; [reflexivity|].
  split; [apply count_sequences_runs|].
  split; [apply runs_one_uniform|].
  split; [rewrite count_sequences_runs; apply runs_one_uniform|].
  split.
  { cbn [Complexity.enter]. rewrite onLogicalExpression_cons.
    cbn [Complexity.hasLogicalExpressionParent].
    rewrite Hone. apply runs_one_uniform. }
  split.
  { cbn [ComplexityRec.enter]. rewrite onLogicalExpression_cons.
    cbn [Complexity.hasLogicalExpressionParent].
    rewrite Hone. apply runs_one_uniform. }
  split.
  { rewrite Z.add_0_r.
    cbn [traverse codePathOrigin in_code_path chain_operands].
    rewrite base_run_cons, !base_run_app.
    cbn [Complexity.handle Complexity.enter Complexity.complexities
      Complexity.reports].
    rewrite onLogicalExpression_cons.
    rewrite (base_run_chain th lhs), (base_run_chain th rhs) by reflexivity.
    reflexivity. }
  split.
  { rewrite Z.add_0_r.
    cbn [traverse codePathOrigin in_code_path chain_operands].
    rewrite run_cons, !run_app.
    cbn [ComplexityRec.handle ComplexityRec.enter ComplexityRec.complexities
      ComplexityRec.functionStack ComplexityRec.reports].
    rewrite onLogicalExpression_cons.
    rewrite (run_chain th lhs), (run_chain th rhs) by reflexivity.
    reflexivity. }
  split; cbn -[Z.add]; rewrite increaseComplexityTimes_cons by lia;
    same_counter.
Qed.

(** ** The statement-count rule *)

Lemma ms_run_app c a b s :
  MaxStatements.run c (a ++ b) s
  = MaxStatements.run c b (MaxStatements.run c a s).
Proof. apply fold_left_app. Qed.

Lemma ms_run_cons c e t s :
  MaxStatements.run c (e :: t) s
  = MaxStatements.run c t (MaxStatements.handle c e s).
Proof. reflexivity. Qed.

Lemma fold_reportIfTooManyStatements max deferred :
  forall r,
    fold_left
      (fun reports element =>
         MaxStatements.reportIfTooManyStatements (fst element) (snd element)
           max reports)
      deferred r
    = r ++ exceeding max deferred.
Proof.
  unfold exceeding.
  induction deferred as [|d l IH]; intros r; cbn.
  - now rewrite app_nil_r.
  - rewrite IH. unfold MaxStatements.reportIfTooManyStatements.
    destruct (js_gt (snd d) max); cbn; [now rewrite <- app_assoc|reflexivity].
Qed.

Lemma handle_enter_unit c n parent s :
  MaxStatements.isFunctionLike n = true ->
  MaxStatements.handle c (Enter n parent) s = MaxStatements.startFunction s.
Proof. destruct n; try discriminate; reflexivity. Qed.

Lemma handle_exit_unit c n s :
  MaxStatements.isFunctionLike n = true ->
  MaxStatements.handle c (Exit n) s = MaxStatements.endFunction c n s.
Proof. destruct n; try discriminate; reflexivity. Qed.

(** A neutral event adds the length of the block it enters, if it enters
    one, and defers nothing. *)
Lemma handle_neutral cfg e c cs m tl r :
  neutral e = true ->
  exists r',
    MaxStatements.handle cfg e (MaxStatements.mkState (mkArray (c :: cs) m) tl r)
    = MaxStatements.mkState (mkArray ((c + statements 0 [e]) :: cs) m) tl
        (r ++ r').
Proof.
  destruct e as [o n p|o n|n p|n]; cbn [neutral]; intros H.
  - exists []. cbn. now rewrite Z.add_0_r, app_nil_r.
  - exists []. cbn. now rewrite Z.add_0_r, app_nil_r.
  - exists []. cbn [statements]. apply negb_true_iff in H. rewrite H.
    rewrite app_nil_r, Z.add_0_r.
    destruct n; try discriminate; cbn; rewrite ?Z.add_0_r; reflexivity.
  - cbn [statements]. apply negb_true_iff in H. rewrite H.
    rewrite Z.add_0_r.
    destruct n; try discriminate;
      try (exists []; cbn; now rewrite app_nil_r).
    cbn [MaxStatements.handle]. unfold MaxStatements.onProgramExit.
    cbn [MaxStatements.topLevelFunctions MaxStatements.functionStack
      MaxStatements.reports].
    destruct (length tl =? 1)%nat.
    + exists []. now rewrite app_nil_r.
    + rewrite fold_reportIfTooManyStatements. eauto.
Qed.

Lemma statements_inner inner :
  balanced inner ->
  forall depth rest,
    statements (S depth) (inner ++ rest) = statements (S depth) rest.
Proof.
  induction 1 as [|e t He _ IH|n p inner t Hn _ IHi _ IHt];
    intros depth rest; cbn [app]; auto.
  - destruct e as [o n p|o n|n p|n]; cbn [neutral] in He; cbn [statements].
    + apply IH.
    + apply IH.
    + apply negb_true_iff in He. rewrite He. now rewrite IH.
    + apply negb_true_iff in He. rewrite He. apply IH.
  - rewrite <- app_assoc. cbn [app statements]. rewrite Hn, IHi.
    cbn [statements]. rewrite Hn. cbn [Nat.pred]. apply IHt.
Qed.

Lemma statements_cons e rest :
  neutral e = true ->
  statements 0 (e :: rest) = statements 0 [e] + statements 0 rest.
Proof.
  destruct e as [o n p|o n|n p|n]; cbn [neutral statements]; intros H;
    try reflexivity; apply negb_true_iff in H; rewrite H; lia.
Qed.

(** Events whose units are all closed add the lengths of their own blocks
    to the last counter, leave the rest of the stack as it is, and defer
    nothing. *)
Lemma ms_run_balanced cfg events :
  balanced events ->
  forall c cs m tl r,
  exists r',
    MaxStatements.run cfg events
      (MaxStatements.mkState (mkArray (c :: cs) m) tl r)
    = MaxStatements.mkState (mkArray ((c + statements 0 events) :: cs) m) tl
        (r ++ r').
Proof.
  induction 1 as [|e t He _ IH|n p inner t Hn Hi IHi _ IHt];
    intros c cs m tl r.
  - exists []. cbn. now rewrite Z.add_0_r, app_nil_r.
  - rewrite ms_run_cons.
    destruct (handle_neutral cfg e c cs m tl r He) as [r1 ->].
    destruct (IH (c + statements 0 [e]) cs m tl (r ++ r1)) as [r2 ->].
    exists (r1 ++ r2). rewrite (statements_cons e t He), app_assoc.
    do 3 f_equal; lia.
  - rewrite ms_run_cons, ms_run_app, ms_run_cons.
    rewrite handle_enter_unit by assumption.
    unfold MaxStatements.startFunction, push.
    cbn [MaxStatements.functionStack MaxStatements.topLevelFunctions
      MaxStatements.reports items minus1].
    destruct (IHi 0 (c :: cs) m tl r) as [r1 ->].
    rewrite handle_exit_unit by assumption.
    cbn [statements]. rewrite Hn, (statements_inner inner Hi).
    cbn [statements]. rewrite Hn. cbn [Nat.pred].
    unfold MaxStatements.endFunction.
    cbn [MaxStatements.functionStack MaxStatements.topLevelFunctions
      MaxStatements.reports pop items minus1 length].
    rewrite andb_false_r.
    destruct (isStaticBlock n).
    + destruct (IHt c cs m tl (r ++ r1)) as [r2 ->].
      exists (r1 ++ r2). now rewrite app_assoc.
    + unfold MaxStatements.reportIfTooManyStatements.
      destruct (js_gt _ _).
      * destruct (IHt c cs m tl ((r ++ r1) ++
          [MaxStatements.mkReport n (Num (0 + statements 0 inner))
             (MaxStatements.maxOf cfg)])) as [r2 ->].
        eexists. rewrite <- !app_assoc. reflexivity.
      * destruct (IHt c cs m tl (r ++ r1)) as [r2 ->].
        exists (r1 ++ r2). now rewrite app_assoc.
Qed.

(** The count a unit is closed with is the sum of the lengths of its own
    blocks. *)
Lemma ms_run_unit cfg n parent inner s :
  MaxStatements.isFunctionLike n = true ->
  balanced inner ->
  exists r',
    MaxStatements.run cfg (Enter n parent :: inner ++ [Exit n]) s
    = MaxStatements.endFunction cfg n
        (MaxStatements.mkState
           (mkArray (statements 0 inner
                     :: items (MaxStatements.functionStack s))
              (minus1 (MaxStatements.functionStack s)))
           (MaxStatements.topLevelFunctions s)
           (MaxStatements.reports s ++ r')).
Proof.
  intros Hn Hi. destruct s as [[cs m] tl r].
  rewrite ms_run_cons, ms_run_app, handle_enter_unit by assumption.
  unfold MaxStatements.startFunction, push.
  cbn [MaxStatements.functionStack MaxStatements.topLevelFunctions
    MaxStatements.reports items minus1].
  destruct (ms_run_balanced cfg inner Hi 0 cs m tl r) as [r' ->].
  exists r'. cbn [MaxStatements.run fold_left].
  now rewrite handle_exit_unit.
Qed.

Lemma balanced_app a b : balanced a -> balanced b -> balanced (a ++ b).
Proof.
  induction 1 as [|e t He _ IH|n p inner t Hn Hi _ _ IHt]; intros Hb; cbn.
  - exact Hb.
  - apply balanced_neutral; auto.
  - rewrite <- app_assoc. cbn. apply balanced_unit; auto.
Qed.

Lemma balanced_in_code_path origin n parent inner :
  balanced inner -> balanced (in_code_path origin n parent inner).
Proof.
  intros H. destruct origin as [o|]; cbn; [|exact H].
  apply balanced_neutral; [reflexivity|].
  apply balanced_app; [exact H|].
  apply balanced_neutral; [reflexivity | constructor].
Qed.

Lemma balanced_node n parent children :
  balanced children -> balanced (Enter n parent :: children ++ [Exit n]).
Proof.
  intros H. destruct (MaxStatements.isFunctionLike n) eqn:E.
  - apply balanced_unit; [exact E | exact H | constructor].
  - apply balanced_neutral; [cbn; now rewrite E|].
    apply balanced_app; [exact H|].
    apply balanced_neutral; [cbn; now rewrite E | constructor].
Qed.

Lemma balanced_flat_map (l : list node) parent :
  list_all node (fun c => forall p, balanced (traverse p c)) l ->
  balanced (flat_map (traverse parent) l).
Proof.
  induction 1; cbn; [constructor | apply balanced_app; auto].
Qed.

Lemma balanced_option (o : option node) parent :
  option_all node (fun c => forall p, balanced (traverse p c)) o ->
  balanced (match o with Some c => traverse parent c | None => [] end).
Proof. destruct 1; [auto | constructor]. Qed.

Ltac balanced_children :=
  repeat first
    [ apply balanced_nil
    | apply balanced_flat_map; assumption
    | apply balanced_option; assumption
    | apply balanced_in_code_path
    | match goal with
      | H : forall p, balanced (traverse p ?c) |- balanced (traverse _ ?c) =>
          apply H
      end
    | apply balanced_app ].

(** The traversal leaves every function-like node it enters. *)
Lemma traverse_balanced n : forall parent, balanced (traverse parent n).
Proof.
  induction n; intros parent; cbn [traverse];
    apply balanced_in_code_path; apply balanced_node; balanced_children.
  match goal with H : option_all _ _ _ |- _ => destruct H end;
    balanced_children.
Qed.

(** ** Flat trees *)

Lemma flat_any_parent n :
  flat n = true -> forall parent, forallb flat_event (traverse parent n) = true.
Proof. intros H parent. destruct n; exact H. Qed.

Lemma flat_opt_any_parent o parent :
  flat_opt o = true ->
  forallb flat_event
    (match o with Some c => traverse parent c | None => [] end) = true.
Proof.
  destruct o; cbn; [intros H; now apply flat_any_parent | reflexivity].
Qed.

Lemma flat_all_any_parent l parent :
  forallb flat l = true ->
  forallb flat_event (flat_map (traverse parent) l) = true.
Proof.
  induction l as [|c l IH]; cbn; [reflexivity|].
  intros [Hc Hl]%andb_prop. rewrite forallb_app.
  now rewrite (flat_any_parent c Hc), IH.
Qed.

Lemma ms_handle_flat cfg e s :
  flat_event e = true -> MaxStatements.handle cfg e s = s.
Proof.
  destruct e as [| |n p|n]; cbn; try reflexivity;
    destruct n; cbn; try discriminate; reflexivity.
Qed.

Lemma ms_run_flat cfg events s :
  forallb flat_event events = true -> MaxStatements.run cfg events s = s.
Proof.
  revert s. induction events as [|e t IH]; intros s; cbn; [reflexivity|].
  intros [He Ht]%andb_prop.
  change (MaxStatements.run cfg t (MaxStatements.handle cfg e s) = s).
  now rewrite ms_handle_flat, IH.
Qed.

(** A function whose body is a block of flat statements is closed with the
    number of these statements. *)
Lemma ms_run_flat_function cfg f id params body parent cs m tl r :
  function_parts f = Some (id, params, BlockStatement body) ->
  flat_opt id = true ->
  forallb flat params = true ->
  forallb flat body = true ->
  MaxStatements.run cfg (traverse parent f)
    (MaxStatements.mkState (mkArray cs m) tl r)
  = MaxStatements.endFunction cfg f
      (MaxStatements.mkState (mkArray (Z.of_nat (length body) :: cs) m) tl r).
Proof.
  intros Hf Hid Hparams Hbody.
  assert (Hlike : MaxStatements.isFunctionLike f = true)
    by (destruct f; try discriminate; reflexivity).
  rewrite (traverse_function f id params _ parent Hf).
  rewrite ms_run_cons. cbn [MaxStatements.handle].
  rewrite ms_run_app, (ms_run_cons cfg (Enter f parent)).
  rewrite handle_enter_unit by assumption.
  rewrite !ms_run_app.
  rewrite (ms_run_flat cfg _ _ (flat_opt_any_parent id (Some f) Hid)).
  rewrite (ms_run_flat cfg _ _ (flat_all_any_parent params (Some f) Hparams)).
  cbn [traverse codePathOrigin in_code_path].
  rewrite (ms_run_cons cfg (Enter (BlockStatement body) (Some f))).
  rewrite ms_run_app.
  cbn [MaxStatements.handle].
  rewrite (ms_run_flat cfg _ _ (flat_all_any_parent body _ Hbody)).
  cbn [MaxStatements.run fold_left].
  rewrite handle_exit_unit by assumption.
  reflexivity.
Qed.

Lemma balanced_function_inner f (id : option node) (params : list node) body :
  balanced
    (match id with Some c => traverse (Some f) c | None => [] end
     ++ flat_map (traverse (Some f)) params
     ++ traverse (Some f) body).
Proof.
  repeat apply balanced_app.
  - destruct id; [apply traverse_balanced | constructor].
  - apply balanced_flat_map, list_all_forall. intros c p.
    apply traverse_balanced.
  - apply traverse_balanced.
Qed.

(** ** C8 *)

(** C8: a function-like unit is closed with the sum of the lengths of the
    statement blocks entered while it was the innermost open unit, whatever
    events and whatever function of a tree it is made of.  So a function
    whose body is a block of [K] statements that hold no block and no
    function-like node is closed with the count [K], which is what is
    reported when [K] exceeds the maximum. *)
Theorem C8_statement_count
    (cfg : MaxStatements.config) (n : node) (parent : option node)
    (inner : list event) (s : MaxStatements.state)
    (g : node) (gid : option node) (gparams : list node) (gbody : node)
    (f : node) (id : option node) (params body : list node)
    (fparent : option node)
    (cs : list Z) (m : jsval) (tl : list (node * jsval))
    (r : list MaxStatements.report) (mx : Z) :
  MaxStatements.isFunctionLike n = true ->
  balanced inner ->
  function_parts g = Some (gid, gparams, gbody) ->
  function_parts f = Some (id, params, BlockStatement body) ->
  flat_opt id = true ->
  forallb flat params = true ->
  forallb flat body = true ->
  let K := Z.of_nat (length body) in
  let closed_with count r' :=
    MaxStatements.mkState
      (mkArray (count :: items (MaxStatements.functionStack s))
         (minus1 (MaxStatements.functionStack s)))
      (MaxStatements.topLevelFunctions s)
      (MaxStatements.reports s ++ r') in
  (exists r',
     MaxStatements.run cfg (Enter n parent :: inner ++ [Exit n]) s
     = MaxStatements.endFunction cfg n (closed_with (statements 0 inner) r'))
  /\ (exists r',
        MaxStatements.run cfg (traverse parent g) s
        = MaxStatements.endFunction cfg g
            (closed_with
               (statements 0
                  (match gid with
                   | Some c => traverse (Some g) c
                   | None => []
                   end
                   ++ flat_map (traverse (Some g)) gparams
                   ++ traverse (Some g) gbody))
               r'))
  /\ MaxStatements.run cfg (traverse fparent f)
       (MaxStatements.mkState (mkArray cs m) tl r)
     = MaxStatements.endFunction cfg f
         (MaxStatements.mkState (mkArray (K :: cs) m) tl r)
  /\ MaxStatements.run (MaxStatements.mkConfig false (Num mx))
       (traverse fparent f) (MaxStatements.mkState (mkArray cs m) tl r)
     = MaxStatements.mkState (mkArray cs m) tl
         (if K >? mx
          then r ++ [MaxStatements.mkReport f (Num K) (Num mx)]
          else r)
  /\ MaxStatements.lint (OptNumber mx) None (Program [f])
     = (if K >? mx then [MaxStatements.mkReport f (Num K) (Num mx)] else []).
Proof.
  intros Hn Hinner Hg Hf Hid Hparams Hbody K closed_with.
  subst K closed_with. cbv beta.
  assert (Hstatic : isStaticBlock f = false)
    by (destruct f; try discriminate; reflexivity).
  repeat apply conj.
  - now apply ms_run_unit.
  - rewrite (traverse_function g gid gparams gbody parent Hg).
    rewrite ms_run_cons. cbn [MaxStatements.handle].
    rewrite ms_run_app.
    assert (Hlike : MaxStatements.isFunctionLike g = true)
      by (destruct g; try discriminate; reflexivity).
    destruct (ms_run_unit cfg g parent _ s Hlike
                (balanced_function_inner g gid gparams gbody)) as [r' ->].
    exists r'. reflexivity.
  - now apply (ms_run_flat_function cfg f id params).
  - rewrite (ms_run_flat_function _ f id params body) by assumption.
    unfold MaxStatements.endFunction. cbn. rewrite Hstatic. reflexivity.
  - unfold MaxStatements.lint, MaxStatements.configure.
    cbn [traverse codePathOrigin in_code_path flat_map
      MaxStatements.ignoreTopLevelFunctions MaxStatements.maxStatements].
    rewrite app_nil_r.
    rewrite ms_run_cons. cbn [MaxStatements.handle].
    rewrite ms_run_app, (ms_run_cons _ (Enter _ _)).
    cbn [MaxStatements.handle].
    rewrite ms_run_app.
    unfold MaxStatements.initial, empty_array.
    rewrite (ms_run_flat_function _ f id params body) by assumption.
    unfold MaxStatements.endFunction. cbn. rewrite Hstatic. cbn.
    unfold MaxStatements.reportIfTooManyStatements. cbn.
    destruct (Z.of_nat (length body) >? mx); reflexivity.
Qed.

Lemma C8_witness :
  MaxStatements.lint (OptNumber 2) None (Program [function_of "f" 3])
  = [MaxStatements.mkReport (function_of "f" 3) (Num 3) (Num 2)].
Proof.
  refine (proj2 (proj2 (proj2 (proj2
    (C8_statement_count (MaxStatements.mkConfig false (Num 2))
       (function_of "f" 3) None [] MaxStatements.initial
       (function_of "f" 3) (Some (Identifier "f")) []
       (BlockStatement (repeat (ExpressionStatement (Identifier "s")) 3))
       (function_of "f" 3) (Some (Identifier "f")) []
       (repeat (ExpressionStatement (Identifier "s")) 3) None
       [] undefined [] [] 2 _ _ _ _ _ _ _))))).
  - reflexivity.
  - constructor.
  - reflexivity.
  - reflexivity.
  - reflexivity.
  - reflexivity.
  - reflexivity.
Defined.

(** ** C9 *)

Lemma In_exceeding max deferred rep :
  In rep (exceeding max deferred)
  <-> exists unit count,
        In (unit, count) deferred /\ js_gt count max = true
        /\ rep = MaxStatements.mkReport unit count max.
Proof.
  unfold exceeding. rewrite in_map_iff. split.
  - intros [[unit count] [<- [Hin Hgt]%filter_In]].
    exists unit, count. auto.
  - intros [unit [count [Hin [Hgt ->]]]].
    exists (unit, count). split; [reflexivity|].
    apply filter_In. auto.
Qed.

Lemma exceeding_app max a b :
  exceeding max (a ++ b) = exceeding max a ++ exceeding max b.
Proof. unfold exceeding. now rewrite filter_app, map_app. Qed.

Lemma exceeding_one max n count :
  exceeding max [(n, count)]
  = if js_gt count max then [MaxStatements.mkReport n count max] else [].
Proof. unfold exceeding. cbn. now destruct (js_gt count max). Qed.

Lemma flat_function_inv f :
  flat_function f = true ->
  exists id params body,
    f = FunctionDeclaration id params (BlockStatement body)
    /\ flat_opt id = true /\ forallb flat params = true
    /\ forallb flat body = true.
Proof.
  destruct f as [ | id params b | | | | | | | | | | | | | | | | | | | | | | | |
                  | | | | | | | | | | | | | ]; try discriminate.
  destruct b; try discriminate. cbn [flat_function].
  intros [[Hid Hparams]%andb_prop Hbody]%andb_prop.
  eauto 10.
Qed.

(** The top-level functions of a program are deferred, each with the
    number of its statements. *)
Lemma ms_run_top_functions cfg fs :
  MaxStatements.ignoreTop cfg = true ->
  forallb flat_function fs = true ->
  forall parent m tl r,
    MaxStatements.run cfg (flat_map (traverse parent) fs)
      (MaxStatements.mkState (mkArray [] m) tl r)
    = MaxStatements.mkState (mkArray [] m)
        (tl ++ map (fun f => (f, body_length f)) fs) r.
Proof.
  intros Hcfg. induction fs as [|f fs IH]; intros Hfs parent m tl r.
  - cbn. now rewrite app_nil_r.
  - cbn [forallb] in Hfs. apply andb_prop in Hfs as [Hf Hfs].
    cbn [flat_map map]. rewrite ms_run_app.
    destruct (flat_function_inv f Hf)
      as (id & params & body & -> & Hid & Hparams & Hbody).
    rewrite (ms_run_flat_function cfg
               (FunctionDeclaration id params (BlockStatement body))
               id params body parent [] m tl r eq_refl Hid Hparams Hbody).
    unfold MaxStatements.endFunction.
    cbn [MaxStatements.functionStack MaxStatements.topLevelFunctions
      MaxStatements.reports pop items minus1 isStaticBlock length].
    rewrite Hcfg. cbn [andb Nat.eqb].
    rewrite (IH Hfs). rewrite <- app_assoc. reflexivity.
Qed.

(** C9: with [ignoreTopLevelFunctions], a function that is closed with no
    enclosing function-like unit is deferred and not reported, while one
    closed inside another unit is reported at once when its count exceeds
    the maximum.  A class static block is no such unit: it is closed
    without being deferred or reported, wherever it is.  At the end of the
    traversal nothing is reported when one unit was deferred, and every
    deferred unit whose count exceeds the maximum is reported when two or
    more were.  So a program of [k] functions without nested blocks and
    functions reports none of them when [k = 1] and else those whose
    statements exceed the maximum; and in
    [class A { static { } }  function f() { s; s; s; }] the function is
    the one deferred unit and is not reported. *)
Theorem C9_deferred_top_level_functions
    (cfg : MaxStatements.config) (n : node) (count c : Z) (cs : list Z)
    (m : jsval) (tl : list (node * jsval)) (r : list MaxStatements.report)
    (functionStack : jsarray) (d d1 d2 : node * jsval)
    (rest : list (node * jsval)) (opt : option_value) (fs : list node)
    (body : list node) :
  MaxStatements.ignoreTop cfg = true ->
  isStaticBlock n = false ->
  forallb flat_function fs = true ->
  MaxStatements.endFunction cfg n
    (MaxStatements.mkState (mkArray [count] m) tl r)
  = MaxStatements.mkState (mkArray [] m) (tl ++ [(n, Num count)]) r
  /\ MaxStatements.endFunction cfg n
       (MaxStatements.mkState (mkArray (count :: c :: cs) m) tl r)
     = MaxStatements.mkState (mkArray (c :: cs) m) tl
         (MaxStatements.reportIfTooManyStatements n (Num count)
            (MaxStatements.maxOf cfg) r)
  /\ MaxStatements.endFunction cfg (StaticBlock body)
       (MaxStatements.mkState (mkArray (count :: cs) m) tl r)
     = MaxStatements.mkState (mkArray cs m) tl r
  /\ MaxStatements.onProgramExit cfg (MaxStatements.mkState functionStack [d] r)
     = MaxStatements.mkState functionStack [d] r
  /\ MaxStatements.onProgramExit cfg
       (MaxStatements.mkState functionStack (d1 :: d2 :: rest) r)
     = MaxStatements.mkState functionStack (d1 :: d2 :: rest)
         (r ++ exceeding (MaxStatements.maxOf cfg) (d1 :: d2 :: rest))
  /\ (forall rep,
        In rep (exceeding (MaxStatements.maxOf cfg) (d1 :: d2 :: rest))
        <-> exists unit count,
              In (unit, count) (d1 :: d2 :: rest)
              /\ js_gt count (MaxStatements.maxOf cfg) = true
              /\ rep = MaxStatements.mkReport unit count
                         (MaxStatements.maxOf cfg))
  /\ MaxStatements.onProgramExit cfg (MaxStatements.mkState functionStack [] r)
     = MaxStatements.mkState functionStack [] r
  /\ MaxStatements.lint opt (Some (Some true)) (Program fs)
     = (if (length fs =? 1)%nat then []
        else exceeding (MaxStatements.maxStatements opt)
               (map (fun f => (f, body_length f)) fs))
  /\ MaxStatements.lint (OptNumber 2) (Some (Some true))
       (Program [function_of "f" 3]) = []
  /\ MaxStatements.lint (OptNumber 2) (Some (Some true))
       (Program [function_of "f" 3; function_of "g" 4])
     = [MaxStatements.mkReport (function_of "f" 3) (Num 3) (Num 2);
        MaxStatements.mkReport (function_of "g" 4) (Num 4) (Num 2)]
  /\ MaxStatements.topLevelFunctions
       (MaxStatements.run (MaxStatements.mkConfig true (Num 2))
          (traverse None staticBlockAndFunction) MaxStatements.initial)
     = [(function_of "f" 3, Num 3)]
  /\ MaxStatements.lint (OptNumber 2) (Some (Some true)) staticBlockAndFunction
     = [].
Proof.
  intros Hcfg Hn Hfs.
  split; [|split; [|split; [|split; [|split; [|split; [|split; [|split;
    [|split; [|split; [|split]]]]]]]]]]; try reflexivity.
  - unfold MaxStatements.endFunction. cbn. now rewrite Hn, Hcfg.
  - unfold MaxStatements.endFunction. cbn.
    now rewrite Hn, andb_false_r.
  - unfold MaxStatements.onProgramExit.
    cbn [MaxStatements.topLevelFunctions MaxStatements.functionStack
      MaxStatements.reports length Nat.eqb].
    now rewrite fold_reportIfTooManyStatements.
  - intros rep. apply In_exceeding.
  - unfold MaxStatements.lint, MaxStatements.configure.
    cbn [traverse codePathOrigin in_code_path
      MaxStatements.ignoreTopLevelFunctions].
    rewrite ms_run_cons. cbn [MaxStatements.handle].
    rewrite ms_run_app, (ms_run_cons _ (Enter _ _)).
    cbn [MaxStatements.handle].
    rewrite ms_run_app.
    unfold MaxStatements.initial, empty_array.
    rewrite ms_run_top_functions by (assumption || reflexivity).
    cbn [MaxStatements.run fold_left MaxStatements.handle app].
    unfold MaxStatements.onProgramExit.
    cbn [MaxStatements.topLevelFunctions MaxStatements.functionStack
      MaxStatements.reports MaxStatements.maxOf].
    rewrite length_map.
    destruct (length fs =? 1)%nat; [reflexivity|].
    cbn [MaxStatements.reports].
    now rewrite fold_reportIfTooManyStatements.
Qed.

Lemma C9_witness :
  MaxStatements.lint (OptNumber 2) (Some (Some true))
    (Program [function_of "f" 3; function_of "g" 1; function_of "h" 4])
  = exceeding (Num 2)
      [(function_of "f" 3, Num 3); (function_of "g" 1, Num 1);
       (function_of "h" 4, Num 4)].
Proof.
  refine (proj1 (proj2 (proj2 (proj2 (proj2 (proj2 (proj2 (proj2
    (C9_deferred_top_level_functions (MaxStatements.mkConfig true (Num 2))
       (function_of "f" 3) 3 0 [] undefined [] [] empty_array
       (function_of "f" 3, Num 3) (function_of "f" 3, Num 3)
       (function_of "g" 1, Num 1) [] (OptNumber 2)
       [function_of "f" 3; function_of "g" 1; function_of "h" 4] []
       _ _ _))))))))); reflexivity.
Defined.

(** ** C5 *)

Lemma flat_function_of name k : flat_function (function_of name k) = true.
Proof.
  assert (H : forallb flat (repeat (ExpressionStatement (Identifier "s")) k)
              = true)
    by (induction k as [|k IH]; [reflexivity | cbn [repeat forallb];
        now rewrite IH]).
  unfold function_of. cbn [flat_function]. now rewrite H.
Qed.

Lemma body_length_function_of name k :
  body_length (function_of name k) = Num (Z.of_nat k).
Proof. cbn. now rewrite repeat_length. Qed.

(** A program of one function without nested blocks and functions: the
    function is closed with the number of its statements, on the empty
    stack, and the program is left next. *)
Lemma ms_run_one_function cfg f :
  flat_function f = true ->
  MaxStatements.run cfg (traverse None (Program [f])) MaxStatements.initial
  = MaxStatements.onProgramExit cfg
      (MaxStatements.endFunction cfg f
         (MaxStatements.mkState
            (mkArray [block_length
                        (match f with
                         | FunctionDeclaration _ _ body => body
                         | _ => f
                         end)] undefined) [] [])).
Proof.
  intros Hf.
  destruct (flat_function_inv f Hf)
    as (id & params & body & -> & Hid & Hparams & Hbody).
  cbn [traverse codePathOrigin in_code_path].
  rewrite ms_run_cons. cbn [MaxStatements.handle].
  rewrite ms_run_app, (ms_run_cons _ (Enter _ _)).
  cbn [MaxStatements.handle]. rewrite ms_run_app.
  cbn [flat_map]. rewrite app_nil_r.
  unfold MaxStatements.initial, empty_array.
  rewrite (ms_run_flat_function cfg
             (FunctionDeclaration id params (BlockStatement body))
             id params body _ [] undefined [] [] eq_refl Hid Hparams Hbody).
  reflexivity.
Qed.

(** C5, against the claim as stated: under [ignoreTopLevelFunctions] the
    one top-level function of a program, with 3 statements under the
    maximum 2, is not reported, while it is without the option. *)
Lemma C5_counterexample :
  body_length (function_of "f" 3) = Num (2 + 1)
  /\ MaxStatements.lint (OptNumber 2) (Some (Some true))
       (Program [function_of "f" 3]) = []
  /\ MaxStatements.lint (OptNumber 2) None (Program [function_of "f" 3])
     = [MaxStatements.mkReport (function_of "f" 3) (Num 3) (Num 2)].
Proof. repeat split. Qed.

(** C5, as amended.  The complexity rule: when a unit of a reportable
    origin is closed with the score [score] under the threshold [t], it
    is reported exactly when [t = 0] or [score > t]: not for a score equal
    to a threshold other than 0, always for the score [t + 1], always
    under the threshold 0.  The reportable origins are [function],
    [class-field-initializer] and [class-static-block]; the program is
    never reported.  The statement-count rule: a function that is
    evaluated is reported exactly when [count > max], not for a count equal
    to the maximum and always for the count [max + 1]; the maximum 0 is
    not special.  A function is evaluated when it is closed, unless
    [ignoreTopLevelFunctions] is set and no function-like unit encloses
    it: then it is deferred, and evaluated at the end of the program
    unless it is the only deferred one, which is never reported.  A class
    static block is never evaluated. *)
Theorem C5_threshold_boundary
    (t score : Z) (origin : string) (n : node) (r : list Complexity.report)
    (cs : list Z) (m : jsval) (fs : list (option node))
    (count max : Z) (r' : list MaxStatements.report)
    (g f : node) (c : Z) (deferred : list (node * jsval))
    (body : list node)
    (ignore : bool) (functionStack : jsarray) (d d1 d2 : node * jsval)
    (rest : list (node * jsval)) (name : string) (k : nat) :
  Complexity.reportable origin = true ->
  isStaticBlock g = false ->
  flat_function f = true ->
  let report score :=
    Complexity.mkReport n (Complexity.nameOf origin n) (Num score) (Num t) in
  let report' count := MaxStatements.mkReport n (Num count) (Num max) in
  let cfg ignore := MaxStatements.mkConfig ignore (Num max) in
  let evaluated count :=
    if count >? max
    then r' ++ [MaxStatements.mkReport g (Num count) (Num max)]
    else r' in
  (* the complexity rule *)
  Complexity.reportIfComplex (Num t) origin n (Num score) r
    = (if (t =? 0) || (score >? t) then r ++ [report score] else r)
  /\ (Complexity.reportIfComplex (Num t) origin n (Num score) r
        = r ++ [report score]
      <-> t = 0 \/ score > t)
  /\ Complexity.reportIfComplex (Num t) origin n (Num t) r
     = (if t =? 0 then r ++ [report t] else r)
  /\ Complexity.reportIfComplex (Num t) origin n (Num (t + 1)) r
     = r ++ [report (t + 1)]
  /\ Complexity.reportIfComplex (Num 0) origin n (Num score) r
     = r ++ [Complexity.mkReport n (Complexity.nameOf origin n) (Num score)
               (Num 0)]
  /\ Complexity.reportIfComplex (Num t) "program" n (Num score) r = r
  /\ Complexity.onCodePathEnd (Num t) origin n
       (Complexity.mkState (mkArray (score :: cs) m) r)
     = Complexity.mkState (mkArray cs m)
         (Complexity.reportIfComplex (Num t) origin n (Num score) r)
  /\ ComplexityRec.onCodePathEnd (Num t) origin n
       (ComplexityRec.mkState (mkArray (score :: cs) m) fs r)
     = ComplexityRec.mkState (mkArray cs m) (tl fs)
         (Complexity.reportIfComplex (Num t) origin n (Num score) r)
  /\ (Complexity.reportable origin = true
      <-> origin = "function" \/ origin = "class-field-initializer"
          \/ origin = "class-static-block")
  (* the comparison of the statement-count rule *)
  /\ MaxStatements.reportIfTooManyStatements n (Num count) (Num max) r'
     = (if count >? max then r' ++ [report' count] else r')
  /\ (MaxStatements.reportIfTooManyStatements n (Num count) (Num max) r'
        = r' ++ [report' count]
      <-> count > max)
  /\ MaxStatements.reportIfTooManyStatements n (Num max) (Num max) r' = r'
  /\ MaxStatements.reportIfTooManyStatements n (Num (max + 1)) (Num max) r'
     = r' ++ [report' (max + 1)]
  (* a function that is closed *)
  /\ MaxStatements.endFunction (cfg false) g
       (MaxStatements.mkState (mkArray (count :: cs) m) deferred r')
     = MaxStatements.mkState (mkArray cs m) deferred (evaluated count)
  /\ MaxStatements.endFunction (cfg true) g
       (MaxStatements.mkState (mkArray (count :: c :: cs) m) deferred r')
     = MaxStatements.mkState (mkArray (c :: cs) m) deferred
         (evaluated count)
  /\ MaxStatements.endFunction (cfg true) g
       (MaxStatements.mkState (mkArray [count] m) deferred r')
     = MaxStatements.mkState (mkArray [] m) (deferred ++ [(g, Num count)]) r'
  /\ MaxStatements.endFunction (cfg ignore) (StaticBlock body)
       (MaxStatements.mkState (mkArray (count :: cs) m) deferred r')
     = MaxStatements.mkState (mkArray cs m) deferred r'
  (* the end of the program *)
  /\ MaxStatements.onProgramExit (cfg ignore)
       (MaxStatements.mkState functionStack [d] r')
     = MaxStatements.mkState functionStack [d] r'
  /\ MaxStatements.onProgramExit (cfg ignore)
       (MaxStatements.mkState functionStack (d1 :: d2 :: rest) r')
     = MaxStatements.mkState functionStack (d1 :: d2 :: rest)
         (r' ++ exceeding (Num max) (d1 :: d2 :: rest))
  /\ MaxStatements.onProgramExit (cfg ignore)
       (MaxStatements.mkState functionStack [] r')
     = MaxStatements.mkState functionStack [] r'
  /\ (forall rep,
        In rep (exceeding (Num max) (d1 :: d2 :: rest))
        <-> exists unit count,
              In (unit, Num count) (d1 :: d2 :: rest) /\ count > max
              /\ rep = MaxStatements.mkReport unit (Num count) (Num max))
  (* a program of one function *)
  /\ MaxStatements.lint (OptNumber max) None (Program [f])
     = exceeding (Num max) [(f, body_length f)]
  /\ MaxStatements.lint (OptNumber max) (Some (Some true)) (Program [f]) = []
  /\ MaxStatements.lint (OptNumber (Z.of_nat k)) None
       (Program [function_of name k]) = []
  /\ MaxStatements.lint (OptNumber (Z.of_nat k - 1)) None
       (Program [function_of name k])
     = [MaxStatements.mkReport (function_of name k) (Num (Z.of_nat k))
          (Num (Z.of_nat k - 1))].
Proof.
  intros Ho Hg Hf report report' cfg evaluated.
  subst report report' cfg evaluated. cbn beta.
  assert (Hlint : forall mx f0,
            flat_function f0 = true ->
            MaxStatements.lint (OptNumber mx) None (Program [f0])
            = exceeding (Num mx) [(f0, body_length f0)]).
  { intros mx f0 H0. unfold MaxStatements.lint, MaxStatements.configure.
    rewrite (ms_run_one_function _ f0 H0).
    destruct (flat_function_inv f0 H0) as (id & params & b & -> & _).
    unfold MaxStatements.endFunction, MaxStatements.onProgramExit.
    cbn [MaxStatements.functionStack MaxStatements.topLevelFunctions
      MaxStatements.reports MaxStatements.ignoreTop MaxStatements.maxOf
      MaxStatements.ignoreTopLevelFunctions MaxStatements.maxStatements
      pop items minus1 isStaticBlock andb length Nat.eqb fold_left].
    rewrite exceeding_one. reflexivity. }
  unfold Complexity.reportIfComplex.
  rewrite Ho. cbn [negb js_is_zero js_gt]. rewrite !Z.gtb_ltb.
  split; [reflexivity|]. split.
  { destruct ((t =? 0) || (t <? score)) eqn:E; split.
    - intros _. apply orb_prop in E as [E|E]; [left|right]; lia.
    - reflexivity.
    - intros H. symmetry in H. now apply app_one_neq in H.
    - intros [H|H]; apply orb_false_elim in E as [E1 E2]; lia. }
  split; [replace (t <? t) with false by lia; now rewrite orb_false_r|].
  split; [replace (t <? t + 1) with true by lia; now rewrite orb_true_r|].
  split; [reflexivity|]. split; [reflexivity|].
  split.
  { unfold Complexity.onCodePathEnd, Complexity.reportIfComplex. cbn.
    now rewrite Ho, Z.gtb_ltb. }
  split.
  { unfold ComplexityRec.onCodePathEnd, Complexity.reportIfComplex. cbn.
    now rewrite Ho, Z.gtb_ltb. }
  split; [split; [intros _; now apply reportable_iff | reflexivity]|].
  unfold MaxStatements.reportIfTooManyStatements.
  cbn [js_gt]. rewrite !Z.gtb_ltb.
  split; [reflexivity|]. split.
  { destruct (max <? count) eqn:E; split; try lia; try reflexivity.
    intros H. symmetry in H. now apply app_one_neq in H. }
  split; [replace (max <? max) with false by lia; reflexivity|].
  split; [replace (max <? max + 1) with true by lia; reflexivity|].
  unfold MaxStatements.endFunction, MaxStatements.reportIfTooManyStatements.
  cbn [MaxStatements.functionStack MaxStatements.topLevelFunctions
    MaxStatements.reports MaxStatements.ignoreTop MaxStatements.maxOf
    pop items minus1 isStaticBlock andb length Nat.eqb js_gt].
  rewrite Hg, !Z.gtb_ltb.
  split; [reflexivity|]. split; [reflexivity|]. split; [reflexivity|].
  split; [reflexivity|].
  unfold MaxStatements.onProgramExit.
  cbn [MaxStatements.functionStack MaxStatements.topLevelFunctions
    MaxStatements.reports MaxStatements.maxOf length Nat.eqb].
  split; [reflexivity|].
  split; [now rewrite fold_reportIfTooManyStatements|].
  split; [reflexivity|].
  split.
  { intros rep. rewrite In_exceeding. split.
    - intros [unit [cnt [Hin [Hgt ->]]]].
      destruct cnt as [| |z]; try discriminate.
      exists unit, z. cbn in Hgt. repeat split; [exact Hin | lia].
    - intros [unit [z [Hin [Hgt ->]]]].
      exists unit, (Num z). repeat split; [exact Hin|].
      cbn. lia. }
  split; [now apply Hlint|].
  split.
  { unfold MaxStatements.lint, MaxStatements.configure.
    rewrite (ms_run_one_function _ f Hf).
    destruct (flat_function_inv f Hf) as (id & params & b & -> & _).
    reflexivity. }
  split.
  - rewrite Hlint by apply flat_function_of.
    rewrite exceeding_one, body_length_function_of. cbn [js_gt].
    replace (Z.of_nat k >? Z.of_nat k) with false by lia. reflexivity.
  - rewrite Hlint by apply flat_function_of.
    rewrite exceeding_one, body_length_function_of. cbn [js_gt].
    replace (Z.of_nat k >? Z.of_nat k - 1) with true by lia. reflexivity.
Qed.

Lemma C5_witness :
  Complexity.reportIfComplex (Num 2) "function" basic_function (Num 2) []
    = []
  /\ Complexity.reportIfComplex (Num 2) "function" basic_function (Num 3) []
     = [Complexity.mkReport basic_function
          (FunctionNameWithKind basic_function) (Num 3) (Num 2)].
Proof.
  split.
  - exact (proj1 (proj2 (proj2
      (C5_threshold_boundary 2 2 "function" basic_function [] [] undefined []
         0 0 [] basic_function (function_of "f" 3) 0 [] [] false
         empty_array (basic_function, Num 0) (basic_function, Num 0)
         (basic_function, Num 0) [] "f" 3 eq_refl eq_refl eq_refl)))).
  - exact (proj1 (proj2 (proj2 (proj2
      (C5_threshold_boundary 2 2 "function" basic_function [] [] undefined []
         0 0 [] basic_function (function_of "f" 3) 0 [] [] false
         empty_array (basic_function, Num 0) (basic_function, Num 0)
         (basic_function, Num 0) [] "f" 3 eq_refl eq_refl eq_refl))))).
Defined.

(** ** C10 *)

Lemma startFunction_same_counts s1 s2 :
  same_counts s1 s2 ->
  same_counts (MaxStatements.startFunction s1) (MaxStatements.startFunction s2).
Proof.
  unfold same_counts, MaxStatements.startFunction. cbn.
  intros (-> & -> & ->). auto.
Qed.

Lemma countStatements_same_counts body s1 s2 :
  same_counts s1 s2 ->
  same_counts (MaxStatements.countStatements body s1)
    (MaxStatements.countStatements body s2).
Proof.
  destruct s1 as [[i1 m1] tl1 r1], s2 as [[i2 m2] tl2 r2].
  unfold same_counts, MaxStatements.countStatements, add_last. cbn.
  intros (-> & -> & ->). destruct i2; cbn; auto.
Qed.

Lemma endFunction_same_counts cfg n s1 s2 :
  same_counts s1 s2 ->
  same_counts (MaxStatements.endFunction cfg n s1)
    (MaxStatements.endFunction cfg n s2).
Proof.
  destruct s1 as [[i1 m1] tl1 r1], s2 as [[i2 m2] tl2 r2].
  unfold same_counts, MaxStatements.endFunction, pop. cbn.
  intros (-> & -> & ->).
  destruct i2 as [|v [|w i2]]; cbn;
    destruct (isStaticBlock n); cbn; auto;
    destruct (MaxStatements.ignoreTop cfg); cbn; auto.
Qed.

Lemma onProgramExit_same_counts cfg s1 s2 :
  same_counts s1 s2 ->
  same_counts (MaxStatements.onProgramExit cfg s1)
    (MaxStatements.onProgramExit cfg s2).
Proof.
  destruct s1 as [[i1 m1] tl1 r1], s2 as [[i2 m2] tl2 r2].
  unfold same_counts, MaxStatements.onProgramExit. cbn.
  intros (-> & -> & ->).
  destruct (length tl2 =? 1)%nat; cbn; auto.
Qed.

Lemma handle_same_counts cfg e s1 s2 :
  same_counts s1 s2 ->
  same_counts (MaxStatements.handle cfg e s1) (MaxStatements.handle cfg e s2).
Proof.
  intros H.
  destruct e as [o n p|o n|n p|n]; cbn [MaxStatements.handle]; auto;
    destruct n;
    auto using startFunction_same_counts, countStatements_same_counts,
      endFunction_same_counts, onProgramExit_same_counts.
Qed.

Lemma run_same_counts cfg events :
  forall s1 s2,
    same_counts s1 s2 ->
    same_counts (MaxStatements.run cfg events s1)
      (MaxStatements.run cfg events s2).
Proof.
  induction events as [|e t IH]; intros s1 s2 H; [exact H|].
  rewrite !ms_run_cons. apply IH. now apply handle_same_counts.
Qed.

(** C10: the listener of a statement block, called while [functionStack]
    is empty, writes the property "-1" of the array and nothing else: the
    stack stays empty, nothing is deferred and nothing is reported; and
    whatever events follow, the counters, the deferred units and the
    reports are those of the run without the block. *)
Theorem C10_block_outside_functions
    (cfg : MaxStatements.config) (body : list node) (parent : option node)
    (m : jsval) (tl : list (node * jsval)) (r : list MaxStatements.report)
    (events : list event) :
  let s := MaxStatements.mkState (mkArray [] m) tl r in
  let s' := MaxStatements.handle cfg (Enter (BlockStatement body) parent) s in
  s' = MaxStatements.mkState
         (mkArray [] (js_add m (Num (Z.of_nat (length body))))) tl r
  /\ js_add undefined (Num (Z.of_nat (length body))) = NaN
  /\ items (MaxStatements.functionStack (MaxStatements.run cfg events s'))
     = items (MaxStatements.functionStack (MaxStatements.run cfg events s))
  /\ MaxStatements.topLevelFunctions (MaxStatements.run cfg events s')
     = MaxStatements.topLevelFunctions (MaxStatements.run cfg events s)
  /\ MaxStatements.reports (MaxStatements.run cfg events s')
     = MaxStatements.reports (MaxStatements.run cfg events s).
Proof.
  intros s s'. subst s s'.
  split; [reflexivity|]. split; [reflexivity|].
  apply (run_same_counts cfg events). repeat split.
Qed.

(** ** The test files *)

(** Both revisions accept every valid case of the test files under its
    threshold.  The scores of the later revision are the thresholds, but for
    the functions without a decision point: their score is 0 and their
    threshold 1, the least under which a function can be accepted. *)
Lemma valid_cases_accepted :
  forallb
    (fun case =>
       match ComplexityRec.lint (OptNumber (snd case)) (fst case),
             Complexity.lint (OptNumber (snd case)) (fst case) with
       | [], [] => true
       | _, _ => false
       end) valid_cases = true
  /\ map (fun case => scores (fst case)) valid_cases
     = map (fun k => [Num k])
         [0; 0; 0; 0; 1; 2; 2; 1; 1; 1; 1; 0; 0; 1; 2; 1; 2; 2; 3; 4;
          1; 2; 1; 2; 1; 1; 0]
  /\ map (fun case => base_scores (fst case)) valid_cases
     = map (fun k => [Num k])
         [0; 0; 0; 0; 1; 1; 2; 1; 1; 1; 1; 0; 0; 1; 2; 1; 2; 2; 3; 4;
          0; 0; 0; 0; 0; 0; 0].
Proof. repeat split; vm_compute; reflexivity. Qed.

(** ** Other decision points *)

(** A catch clause, a conditional expression and each loop add exactly 1,
    in both revisions. *)
Theorem single_decision_points
    (n : node) (parent : option node) (c : Z) (cs : list Z) (m : jsval)
    (f : option node) (fs : list (option node)) :
  match n with
  | CatchClause _ _ | ConditionalExpression _ _ _ | ForStatement _ _ _ _
  | ForInStatement _ _ _ | ForOfStatement _ _ _
  | WhileStatement _ _ | DoWhileStatement _ _ =>
      Complexity.enter n parent (mkArray (c :: cs) m)
        = mkArray ((c + 1) :: cs) m
      /\ ComplexityRec.enter n parent (f :: fs) (mkArray (c :: cs) m)
         = mkArray ((c + 1) :: cs) m
  | _ => True
  end.
Proof. destruct n; try exact I; split; reflexivity. Qed.

(** A switch statement adds 1, and 1 more exactly when one of its cases has
    no test; a case adds nothing, in both revisions. *)
Theorem switch_statement_points
    (discriminant : node) (cases : list node) (test : option node)
    (consequent : list node) (parent : option node)
    (c : Z) (cs : list Z) (m : jsval)
    (f : option node) (fs : list (option node)) :
  let default := existsb Complexity.isDefaultCase cases in
  Complexity.enter (SwitchStatement discriminant cases) parent
    (mkArray (c :: cs) m)
  = mkArray ((c + 1 + b2z default) :: cs) m
  /\ ComplexityRec.enter (SwitchStatement discriminant cases) parent (f :: fs)
       (mkArray (c :: cs) m)
     = mkArray ((c + 1 + b2z default) :: cs) m
  /\ (default = true <-> exists statements, In (SwitchCase None statements) cases)
  /\ Complexity.enter (SwitchCase test consequent) parent (mkArray (c :: cs) m)
     = mkArray (c :: cs) m
  /\ ComplexityRec.enter (SwitchCase test consequent) parent (f :: fs)
       (mkArray (c :: cs) m)
     = mkArray (c :: cs) m.
Proof.
  intros default. subst default.
  assert (H : Complexity.onSwitchStatement cases (mkArray (c :: cs) m)
              = mkArray ((c + 1 + b2z (existsb Complexity.isDefaultCase cases))
                         :: cs) m).
  { unfold Complexity.onSwitchStatement.
    rewrite increaseComplexity_cons.
    destruct (existsb Complexity.isDefaultCase cases); cbn [b2z].
    - apply increaseComplexity_cons.
    - now rewrite Z.add_0_r. }
  split; [exact H|]. split; [exact H|]. split; [|split; reflexivity].
  rewrite existsb_exists. split.
  - intros [x [Hin Hx]]. destruct x; try discriminate.
    destruct test0; try discriminate. eauto.
  - intros [statements Hin]. eexists. split; [exact Hin | reflexivity].
Qed.

(** ** The stacks *)

(** The traversal of a tree, started with stacks that are not empty, adds
    the decision points of the tree that are not in a unit of their own to
    the last counter and leaves the rest of both stacks as it is. *)
Theorem traverse_keeps_stacks
    (th : jsval) (n : node) (parent : option node)
    (c : Z) (cs : list Z) (m : jsval) (f : option node)
    (fs : list (option node)) (r : list Complexity.report) :
  exists r',
    ComplexityRec.run th (traverse parent n)
      (ComplexityRec.mkState (mkArray (c :: cs) m) (f :: fs) r)
    = ComplexityRec.mkState
        (mkArray ((c + points f 0 (traverse parent n)) :: cs) m)
        (f :: fs) (r ++ r').
Proof. apply run_nested, traverse_nested. Qed.

(** Events whose units are all closed leave an empty stack of the
    statement-count rule empty. *)
Lemma ms_run_balanced_empty cfg events :
  balanced events ->
  forall s,
    items (MaxStatements.functionStack s) = [] ->
    items (MaxStatements.functionStack (MaxStatements.run cfg events s)) = [].
Proof.
  induction 1 as [|e t He _ IH|n p inner t Hn Hi _ _ IHt]; intros s Hs.
  - exact Hs.
  - rewrite ms_run_cons. apply IH.
    destruct s as [[i m] tl r]. cbn in Hs. subst i.
    destruct e as [o n p|o n|n p|n]; cbn [neutral] in He; try exact eq_refl;
      destruct n; try discriminate; try reflexivity.
    cbn [MaxStatements.handle]. unfold MaxStatements.onProgramExit.
    destruct (length _ =? 1)%nat; reflexivity.
  - rewrite ms_run_cons, ms_run_app, ms_run_cons.
    rewrite handle_enter_unit by assumption. apply IHt.
    destruct s as [[i m] tl r]. cbn in Hs. subst i.
    unfold MaxStatements.startFunction, push.
    cbn [MaxStatements.functionStack MaxStatements.topLevelFunctions
      MaxStatements.reports items minus1].
    destruct (ms_run_balanced cfg inner Hi 0 [] m tl r) as [r' ->].
    rewrite handle_exit_unit by assumption.
    unfold MaxStatements.endFunction.
    cbn [MaxStatements.functionStack pop items minus1].
    destruct (isStaticBlock n); [reflexivity|].
    destruct (MaxStatements.ignoreTop cfg && _); reflexivity.
Qed.

(** Linting a program leaves the stacks of both rules empty. *)
Theorem lint_empties_stacks
    (th : jsval) (cfg : MaxStatements.config) (body : list node) :
  let after := ComplexityRec.run th (traverse None (Program body))
                 ComplexityRec.initial in
  let after' := MaxStatements.run cfg (traverse None (Program body))
                  MaxStatements.initial in
  ComplexityRec.complexities after = empty_array
  /\ ComplexityRec.functionStack after = []
  /\ items (MaxStatements.functionStack after') = [].
Proof.
  cbn zeta. split; [|split].
  3: { apply ms_run_balanced_empty; [apply traverse_balanced | reflexivity]. }
  all: assert (Hnested :
         nested (Enter (Program body) None
                 :: flat_map (traverse (Some (Program body))) body
                 ++ [Exit (Program body)]))
    by (apply nested_enter, nested_app; [|repeat constructor];
        apply nested_flat_map, list_all_forall; intros c p;
        apply traverse_nested);
    cbn [traverse codePathOrigin in_code_path];
    destruct (run_unit th "program" (Program body) None _
                ComplexityRec.initial Hnested) as [r' ->];
    reflexivity.
Qed.

(* ================================================================== *)
(** * Further properties of the rules *)
(* ================================================================== *)

(** ** The threshold only selects among the reports *)

Lemma under_app th a b : under th (a ++ b) = under th a ++ under th b.
Proof. unfold under. now rewrite filter_app, map_app. Qed.

Lemma under_one th n name complexity max :
  under th [Complexity.mkReport n name complexity max]
  = if js_is_zero th || js_gt complexity th
    then [Complexity.mkReport n name complexity th]
    else [].
Proof.
  unfold under, kept_under. cbn.
  destruct (js_is_zero th || js_gt complexity th); reflexivity.
Qed.

Lemma reportIfComplex_under th origin n complexity rs :
  Complexity.reportIfComplex th origin n complexity (under th rs)
  = under th (Complexity.reportIfComplex (Num 0) origin n complexity rs).
Proof.
  unfold Complexity.reportIfComplex.
  destruct (negb (Complexity.reportable origin)); [reflexivity|].
  cbn [js_is_zero Z.eqb orb]. rewrite under_app, under_one.
  destruct (js_is_zero th || js_gt complexity th);
    [reflexivity | now rewrite app_nil_r].
Qed.

Lemma run_under th events :
  forall cx fs rs,
    ComplexityRec.run th events (ComplexityRec.mkState cx fs (under th rs))
    = let s0 := ComplexityRec.run (Num 0) events
                  (ComplexityRec.mkState cx fs rs) in
      ComplexityRec.mkState (ComplexityRec.complexities s0)
        (ComplexityRec.functionStack s0)
        (under th (ComplexityRec.reports s0)).
Proof.
  induction events as [|e t IH]; intros cx fs rs; [reflexivity|].
  rewrite !run_cons.
  destruct e as [o n p|o n|n p|n]; cbn [ComplexityRec.handle].
  - apply IH.
  - unfold ComplexityRec.onCodePathEnd.
    cbn [ComplexityRec.complexities ComplexityRec.functionStack
      ComplexityRec.reports].
    destruct (pop cx) as [c rest].
    rewrite reportIfComplex_under. apply IH.
  - apply IH.
  - apply IH.
Qed.

Lemma base_run_under th events :
  forall cx rs,
    Complexity.run th events (Complexity.mkState cx (under th rs))
    = let s0 := Complexity.run (Num 0) events (Complexity.mkState cx rs) in
      Complexity.mkState (Complexity.complexities s0)
        (under th (Complexity.reports s0)).
Proof.
  induction events as [|e t IH]; intros cx rs; [reflexivity|].
  rewrite !base_run_cons.
  destruct e as [o n p|o n|n p|n]; cbn [Complexity.handle].
  - apply IH.
  - unfold Complexity.onCodePathEnd.
    cbn [Complexity.complexities Complexity.reports].
    destruct (pop cx) as [c rest].
    rewrite reportIfComplex_under. apply IH.
  - apply IH.
  - apply IH.
Qed.

Lemma under_under t1 t2 rs :
  0 <= t1 <= t2 ->
  under (Num t2) (under (Num t1) rs) = under (Num t2) rs.
Proof.
  intros H. induction rs as [|[n name c max] rs IH]; [reflexivity|].
  change (under (Num t2)
            (under (Num t1) ([Complexity.mkReport n name c max] ++ rs))
          = under (Num t2) ([Complexity.mkReport n name c max] ++ rs)).
  rewrite !under_app, IH. f_equal. rewrite !under_one.
  destruct c as [| |z]; cbn [js_gt js_is_zero]; rewrite ?orb_false_r.
  - destruct (t1 =? 0) eqn:E1;
      [rewrite under_one; cbn [js_gt js_is_zero]; now rewrite orb_false_r|].
    replace (t2 =? 0) with false by lia. reflexivity.
  - destruct (t1 =? 0) eqn:E1;
      [rewrite under_one; cbn [js_gt js_is_zero]; now rewrite orb_false_r|].
    replace (t2 =? 0) with false by lia. reflexivity.
  - rewrite !Z.gtb_ltb.
    destruct ((t1 =? 0) || (t1 <? z)) eqn:E1.
    + rewrite under_one. cbn [js_gt js_is_zero]. now rewrite Z.gtb_ltb.
    + apply orb_false_elim in E1 as [Ea Eb].
      replace ((t2 =? 0) || (t2 <? z)) with false
        by (symmetry; apply orb_false_intro; lia).
      reflexivity.
Qed.

Lemma lint_under th program :
  ComplexityRec.reports
    (ComplexityRec.run th (traverse None program) ComplexityRec.initial)
  = under th (ComplexityRec.lint (OptNumber 0) program).
Proof.
  unfold ComplexityRec.initial.
  change (@nil Complexity.report) with (under th []) at 1.
  now rewrite run_under.
Qed.

Lemma base_lint_under th program :
  Complexity.reports
    (Complexity.run th (traverse None program) Complexity.initial)
  = under th (Complexity.lint (OptNumber 0) program).
Proof.
  unfold Complexity.initial.
  change (@nil Complexity.report) with (under th []) at 1.
  now rewrite base_run_under.
Qed.

(** The threshold has no part in the scores: under every option, the
    reports are those of the threshold 0 that the threshold keeps, so that
    a higher threshold only removes reports, and every report carries a
    complexity above the threshold unless the threshold is 0.  The
    [variant] of an option has no part in the reports at all.  In both
    revisions. *)
Theorem threshold_only_selects
    (opt : option_value) (program : node) (t1 t2 : Z)
    (maximum max : option Z) (variant variant' : option string) :
  0 <= t1 <= t2 ->
  ComplexityRec.lint opt program
    = under (ComplexityRec.threshold opt)
        (ComplexityRec.lint (OptNumber 0) program)
  /\ Complexity.lint opt program
     = under (Complexity.threshold opt) (Complexity.lint (OptNumber 0) program)
  /\ ComplexityRec.lint (OptNumber t2) program
     = under (Num t2) (ComplexityRec.lint (OptNumber t1) program)
  /\ Complexity.lint (OptNumber t2) program
     = under (Num t2) (Complexity.lint (OptNumber t1) program)
  /\ Forall
       (fun r =>
          Complexity.max r = ComplexityRec.threshold opt
          /\ (js_is_zero (Complexity.max r) = true
              \/ js_gt (Complexity.complexity r) (Complexity.max r) = true))
       (ComplexityRec.lint opt program)
  /\ ComplexityRec.lint (OptObject maximum max variant) program
     = ComplexityRec.lint (OptObject maximum max variant') program
  /\ Complexity.lint (OptObject maximum max variant) program
     = Complexity.lint (OptObject maximum max variant') program.
Proof.
  intros Ht.
  split; [apply lint_under|]. split; [apply base_lint_under|].
  split; [|split; [|split; [|split; reflexivity]]].
  - unfold ComplexityRec.lint at 1 2.
    cbn [ComplexityRec.threshold Complexity.threshold].
    rewrite !lint_under. symmetry. now apply under_under.
  - unfold Complexity.lint at 1 2. cbn [Complexity.threshold].
    rewrite !base_lint_under. symmetry. now apply under_under.
  - unfold ComplexityRec.lint. rewrite lint_under. unfold under.
    apply Forall_forall.
    intros r [r0 [<- [_ Hk]%filter_In]]%in_map_iff.
    cbn [Complexity.max Complexity.complexity]. split; [reflexivity|].
    now apply orb_prop.
Qed.

Lemma threshold_only_selects_witness :
  ComplexityRec.lint (OptNumber 2) multipleRecursions
  = under (Num 2) (ComplexityRec.lint (OptNumber 1) multipleRecursions).
Proof.
  refine (proj1 (proj2 (proj2
    (threshold_only_selects (OptNumber 2) multipleRecursions 1 2
       None None None None _)))).
  lia.
Defined.

(** ** An option that leaves no threshold *)

Lemma js_gt_undefined c : js_gt c undefined = false.
Proof. now destruct c. Qed.

Lemma under_undefined rs : under undefined rs = [].
Proof.
  unfold under. induction rs as [|r rs IH]; [reflexivity|].
  cbn [filter]. unfold kept_under at 1. cbn [js_is_zero orb].
  rewrite js_gt_undefined. exact IH.
Qed.

Lemma exceeding_undefined deferred : exceeding undefined deferred = [].
Proof.
  unfold exceeding. induction deferred as [|d t IH]; [reflexivity|].
  cbn [filter]. now rewrite js_gt_undefined.
Qed.

(** The listener an event is dispatched to, whatever the configuration. *)
Lemma ms_handle_cases e :
  (forall cfg s, MaxStatements.handle cfg e s = s)
  \/ (forall cfg s, MaxStatements.handle cfg e s = MaxStatements.startFunction s)
  \/ (exists body, forall cfg s,
        MaxStatements.handle cfg e s = MaxStatements.countStatements body s)
  \/ (exists n,
        e = Exit n /\ MaxStatements.isFunctionLike n = true
        /\ forall cfg s,
             MaxStatements.handle cfg e s = MaxStatements.endFunction cfg n s)
  \/ (forall cfg s,
        MaxStatements.handle cfg e s = MaxStatements.onProgramExit cfg s).
Proof.
  destruct e as [o n p|o n|n p|n]; try (left; intros; reflexivity);
    destruct n;
    first
      [ left; intros; reflexivity
      | right; left; intros; reflexivity
      | right; right; left; eexists; intros; reflexivity
      | do 3 right; left; eexists;
        split; [reflexivity | split; [reflexivity | intros; reflexivity]]
      | do 4 right; intros; reflexivity ].
Qed.

Lemma ms_run_invariant cfg (P : MaxStatements.state -> Prop) :
  (forall e s, P s -> P (MaxStatements.handle cfg e s)) ->
  forall events s, P s -> P (MaxStatements.run cfg events s).
Proof.
  intros Hstep events. induction events as [|e t IH]; intros s Hs;
    [exact Hs|].
  rewrite ms_run_cons. apply IH, Hstep, Hs.
Qed.

Lemma ms_no_report cfg events s :
  MaxStatements.maxOf cfg = undefined ->
  MaxStatements.reports s = [] ->
  MaxStatements.reports (MaxStatements.run cfg events s) = [].
Proof.
  intros Hmax. revert s.
  apply (ms_run_invariant cfg (fun s => MaxStatements.reports s = [])).
  intros e s Hs.
  destruct (ms_handle_cases e)
    as [H|[H|[[body H]|[[n [_ [_ H]]]|H]]]]; rewrite H; clear H.
  - exact Hs.
  - exact Hs.
  - exact Hs.
  - unfold MaxStatements.endFunction.
    destruct (pop (MaxStatements.functionStack s)) as [count rest].
    destruct (isStaticBlock n); [exact Hs|].
    destruct (MaxStatements.ignoreTop cfg && _); [exact Hs|].
    cbn [MaxStatements.reports].
    unfold MaxStatements.reportIfTooManyStatements.
    now rewrite Hmax, js_gt_undefined.
  - unfold MaxStatements.onProgramExit.
    destruct (length _ =? 1)%nat; [exact Hs|].
    cbn [MaxStatements.reports].
    now rewrite fold_reportIfTooManyStatements, Hmax, exceeding_undefined,
      app_nil_r.
Qed.

(** When an option has both [maximum] and [max], [maximum] is taken unless
    it is 0, and [max] then.  The only option that leaves a rule without a
    number to compare with is an object whose [maximum] is 0 and that has
    no [max]; under it, no rule reports anything, whatever the program. *)
Theorem maximum_zero_disables_rules
    (opt : option_value) (variant : option string)
    (option1 : option (option bool)) (program : node) (maximum max : Z) :
  let zero := OptObject (Some 0) None variant in
  let both := OptObject (Some maximum) (Some max) variant in
  Complexity.threshold both = Num (if maximum =? 0 then max else maximum)
  /\ MaxStatements.maxStatements both
     = Num (if maximum =? 0 then max else maximum)
  /\ (Complexity.threshold opt = undefined
      <-> exists v, opt = OptObject (Some 0) None v)
  /\ (MaxStatements.maxStatements opt = undefined
      <-> exists v, opt = OptObject (Some 0) None v)
  /\ Complexity.lint zero program = []
  /\ ComplexityRec.lint zero program = []
  /\ MaxStatements.lint zero option1 program = [].
Proof.
  cbn zeta.
  assert (Hth : forall f,
            (f = Complexity.threshold \/ f = MaxStatements.maxStatements) ->
            f opt = undefined <-> exists v, opt = OptObject (Some 0) None v).
  { intros f Hf. split.
    - destruct opt as [|n|[a|] [b|] v];
        destruct Hf as [-> | ->]; cbn; try discriminate;
        unfold js_or; cbn;
        try (destruct (a =? 0) eqn:E; cbn; try discriminate);
        try (destruct (b =? 0); cbn; discriminate);
        intros _; exists v; do 2 f_equal; lia.
    - intros [v ->]. destruct Hf as [-> | ->]; reflexivity. }
  assert (Hboth : js_or (Num maximum) (Num max)
                  = Num (if maximum =? 0 then max else maximum))
    by (unfold js_or; cbn; now destruct (maximum =? 0)).
  split; [exact Hboth|]. split; [exact Hboth|].
  split; [apply Hth; now left|]. split; [apply Hth; now right|].
  split; [|split].
  - unfold Complexity.lint. rewrite base_lint_under. apply under_undefined.
  - unfold ComplexityRec.lint. rewrite lint_under. apply under_undefined.
  - unfold MaxStatements.lint. apply ms_no_report; reflexivity.
Qed.

(** ** What the statement-count rule reports *)

Lemma ms_run_sound cfg all events :
  incl events all ->
  forall s,
    Forall (sound_report cfg all) (MaxStatements.reports s) ->
    Forall (sound_deferred all) (MaxStatements.topLevelFunctions s) ->
    Forall (sound_report cfg all)
      (MaxStatements.reports (MaxStatements.run cfg events s))
    /\ Forall (sound_deferred all)
         (MaxStatements.topLevelFunctions (MaxStatements.run cfg events s)).
Proof.
  induction events as [|e t IH]; intros Hall s Hr Hd; [now split|].
  rewrite ms_run_cons.
  assert (He : In e all) by (apply Hall; now left).
  assert (Ht : incl t all) by (intros x Hx; apply Hall; now right).
  destruct (ms_handle_cases e)
    as [H|[H|[[body H]|[[n [-> [Hn H]]]|H]]]]; rewrite H; clear H.
  - now apply IH.
  - now apply IH.
  - now apply IH.
  - unfold MaxStatements.endFunction.
    destruct (pop (MaxStatements.functionStack s)) as [count rest].
    destruct (isStaticBlock n) eqn:Hs; [now apply IH|].
    assert (Hf : isFunction n = true).
    { unfold MaxStatements.isFunctionLike in Hn. rewrite Hs in Hn.
      now rewrite orb_false_r in Hn. }
    destruct (MaxStatements.ignoreTop cfg && _).
    + apply IH; [exact Ht | exact Hr |].
      cbn [MaxStatements.topLevelFunctions].
      apply Forall_app. split; [exact Hd|]. now repeat constructor.
    + apply IH; [exact Ht | | exact Hd].
      cbn [MaxStatements.reports].
      unfold MaxStatements.reportIfTooManyStatements.
      destruct (js_gt count (MaxStatements.maxOf cfg)) eqn:Hgt; [|exact Hr].
      apply Forall_app. split; [exact Hr|]. now repeat constructor.
  - unfold MaxStatements.onProgramExit.
    destruct (length _ =? 1)%nat; [now apply IH|].
    apply IH; [exact Ht | | exact Hd].
    cbn [MaxStatements.reports].
    rewrite fold_reportIfTooManyStatements.
    apply Forall_app. split; [exact Hr|].
    apply Forall_forall. intros r [unit [count [Hin [Hgt ->]]]]%In_exceeding.
    rewrite Forall_forall in Hd. destruct (Hd _ Hin) as [Hf Hexit].
    now repeat split.
Qed.

(** Every report of the statement-count rule is for a function node of the
    program, never for a class static block or the program, and carries
    the maximum of the options and a count that is a number above it. *)
Theorem reports_are_of_functions
    (opt : option_value) (option1 : option (option bool)) (program : node) :
  Forall
    (fun r =>
       sound_report (MaxStatements.configure opt option1)
         (traverse None program) r
       /\ isStaticBlock (MaxStatements.node_of r) = false
       /\ exists count max,
            MaxStatements.count r = Num count
            /\ MaxStatements.maxStatements opt = Num max /\ count > max)
    (MaxStatements.lint opt option1 program).
Proof.
  unfold MaxStatements.lint.
  destruct (ms_run_sound (MaxStatements.configure opt option1)
              (traverse None program) (traverse None program)
              (incl_refl _) MaxStatements.initial)
    as [H _]; [constructor | constructor |].
  eapply Forall_impl; [|exact H].
  intros [n count max] Hs. split; [exact Hs|].
  destruct Hs as [Hf [Hexit [Hmax Hgt]]].
  cbn [MaxStatements.node_of MaxStatements.count MaxStatements.max] in *.
  cbn [MaxStatements.configure MaxStatements.maxOf] in Hgt.
  split; [now destruct n|].
  destruct count as [| |c]; try discriminate.
  destruct (MaxStatements.maxStatements opt) as [| |mx]; try discriminate.
  exists c, mx. repeat split. cbn in Hgt. lia.
Qed.

(** ** Deferring the top-level functions *)

Lemma ms_ignore_simulation max events :
  forall sT sF,
    MaxStatements.functionStack sT = MaxStatements.functionStack sF ->
    incl (MaxStatements.reports sT) (MaxStatements.reports sF) ->
    incl (exceeding max (MaxStatements.topLevelFunctions sT))
      (MaxStatements.reports sF) ->
    incl
      (MaxStatements.reports
         (MaxStatements.run (MaxStatements.mkConfig true max) events sT))
      (MaxStatements.reports
         (MaxStatements.run (MaxStatements.mkConfig false max) events sF)).
Proof.
  induction events as [|e t IH]; intros sT sF Hfs Hr Hd; [exact Hr|].
  rewrite !ms_run_cons.
  destruct (ms_handle_cases e)
    as [H|[H|[[body H]|[[n [_ [_ H]]]|H]]]]; rewrite !H; clear H.
  - now apply IH.
  - apply IH; [|exact Hr|exact Hd].
    unfold MaxStatements.startFunction. cbn. now rewrite Hfs.
  - apply IH; [|exact Hr|exact Hd].
    unfold MaxStatements.countStatements. cbn. now rewrite Hfs.
  - unfold MaxStatements.endFunction. rewrite Hfs.
    destruct (pop (MaxStatements.functionStack sF)) as [count rest].
    destruct (isStaticBlock n); [now apply IH|].
    cbn [MaxStatements.ignoreTop MaxStatements.maxOf andb].
    unfold MaxStatements.reportIfTooManyStatements.
    destruct (length (items rest) =? 0)%nat.
    + apply IH; [reflexivity | |];
        cbn [MaxStatements.reports MaxStatements.topLevelFunctions].
      * destruct (js_gt count max); [|exact Hr].
        now apply incl_appl.
      * rewrite exceeding_app, exceeding_one.
        destruct (js_gt count max).
        -- apply incl_app; [now apply incl_appl | apply incl_appr, incl_refl].
        -- now rewrite app_nil_r.
    + apply IH; [reflexivity | |];
        cbn [MaxStatements.reports MaxStatements.topLevelFunctions].
      * destruct (js_gt count max); [|exact Hr].
        apply incl_app; [now apply incl_appl | apply incl_appr, incl_refl].
      * destruct (js_gt count max); [|exact Hd]. now apply incl_appl.
  - assert (Hgrow : incl (MaxStatements.reports sF)
                      (MaxStatements.reports
                         (MaxStatements.onProgramExit
                            (MaxStatements.mkConfig false max) sF))).
    { unfold MaxStatements.onProgramExit.
      destruct (length _ =? 1)%nat; [apply incl_refl|].
      cbn [MaxStatements.reports]. rewrite fold_reportIfTooManyStatements.
      apply incl_appl, incl_refl. }
    assert (Hfs' : forall b s,
              MaxStatements.functionStack
                (MaxStatements.onProgramExit (MaxStatements.mkConfig b max) s)
              = MaxStatements.functionStack s
              /\ MaxStatements.topLevelFunctions
                   (MaxStatements.onProgramExit
                      (MaxStatements.mkConfig b max) s)
                 = MaxStatements.topLevelFunctions s).
    { intros b s. unfold MaxStatements.onProgramExit.
      destruct (length _ =? 1)%nat; split; reflexivity. }
    apply IH.
    + now rewrite !(proj1 (Hfs' _ _)).
    + unfold MaxStatements.onProgramExit at 1.
      destruct (length (MaxStatements.topLevelFunctions sT) =? 1)%nat.
      * eapply incl_tran; [exact Hr | exact Hgrow].
      * cbn [MaxStatements.reports MaxStatements.maxOf].
        rewrite fold_reportIfTooManyStatements.
        apply incl_app; (eapply incl_tran; [|exact Hgrow]); assumption.
    + rewrite (proj2 (Hfs' _ _)). eapply incl_tran; [exact Hd | exact Hgrow].
Qed.

(** Deferring the top-level functions never adds a report: what the rule
    reports with [ignoreTopLevelFunctions] set, it reports under every
    second option. *)
Theorem ignoring_top_level_adds_no_report
    (opt : option_value) (option1 : option (option bool)) (program : node) :
  incl (MaxStatements.lint opt (Some (Some true)) program)
    (MaxStatements.lint opt option1 program).
Proof.
  unfold MaxStatements.lint, MaxStatements.configure.
  cbn [MaxStatements.ignoreTopLevelFunctions].
  destruct (MaxStatements.ignoreTopLevelFunctions option1);
    [apply incl_refl|].
  apply ms_ignore_simulation; [reflexivity | apply incl_refl |].
  intros r [].
Qed.

(** ** The maximum only selects among the reports *)

Lemma ms_under_app max a b :
  ms_under max (a ++ b) = ms_under max a ++ ms_under max b.
Proof. unfold ms_under. now rewrite filter_app, map_app. Qed.

Lemma ms_under_one max n count max0 :
  ms_under max [MaxStatements.mkReport n count max0]
  = if js_gt count max then [MaxStatements.mkReport n count max] else [].
Proof. unfold ms_under. cbn. now destruct (js_gt count max). Qed.

Lemma js_gt_above count m1 m2 :
  m1 <= m2 -> js_gt count (Num m2) = true -> js_gt count (Num m1) = true.
Proof.
  intros H. destruct count as [| |c]; cbn; try discriminate. lia.
Qed.

Lemma reportIfTooManyStatements_under m1 m2 n count r :
  m1 <= m2 ->
  MaxStatements.reportIfTooManyStatements n count (Num m2)
    (ms_under (Num m2) r)
  = ms_under (Num m2)
      (MaxStatements.reportIfTooManyStatements n count (Num m1) r).
Proof.
  intros H. unfold MaxStatements.reportIfTooManyStatements.
  destruct (js_gt count (Num m2)) eqn:E2.
  - rewrite (js_gt_above count m1 m2 H E2), ms_under_app, ms_under_one.
    now rewrite E2.
  - destruct (js_gt count (Num m1)); [|reflexivity].
    rewrite ms_under_app, ms_under_one, E2. now rewrite app_nil_r.
Qed.

Lemma ms_under_exceeding m1 m2 deferred :
  m1 <= m2 ->
  ms_under (Num m2) (exceeding (Num m1) deferred)
  = exceeding (Num m2) deferred.
Proof.
  intros H. induction deferred as [|[n count] t IH]; [reflexivity|].
  change ((n, count) :: t) with ([(n, count)] ++ t).
  rewrite !exceeding_app, ms_under_app, IH. f_equal.
  rewrite !exceeding_one.
  destruct (js_gt count (Num m2)) eqn:E2.
  - rewrite (js_gt_above count m1 m2 H E2), ms_under_one. now rewrite E2.
  - destruct (js_gt count (Num m1)); [|reflexivity].
    rewrite ms_under_one. now rewrite E2.
Qed.

Lemma ms_run_under b m1 m2 events :
  m1 <= m2 ->
  forall fs tl r,
    MaxStatements.run (MaxStatements.mkConfig b (Num m2)) events
      (MaxStatements.mkState fs tl (ms_under (Num m2) r))
    = let s1 := MaxStatements.run (MaxStatements.mkConfig b (Num m1)) events
                  (MaxStatements.mkState fs tl r) in
      MaxStatements.mkState (MaxStatements.functionStack s1)
        (MaxStatements.topLevelFunctions s1)
        (ms_under (Num m2) (MaxStatements.reports s1)).
Proof.
  intros Hm. induction events as [|e t IH]; intros fs tl r; [reflexivity|].
  rewrite !ms_run_cons.
  destruct (ms_handle_cases e)
    as [H|[H|[[body H]|[[n [_ [_ H]]]|H]]]]; rewrite !H; clear H.
  - apply IH.
  - apply IH.
  - apply IH.
  - unfold MaxStatements.endFunction.
    cbn [MaxStatements.functionStack MaxStatements.topLevelFunctions
      MaxStatements.reports MaxStatements.ignoreTop MaxStatements.maxOf].
    destruct (pop fs) as [count rest].
    destruct (isStaticBlock n); [apply IH|].
    destruct (b && _); [apply IH|].
    rewrite (reportIfTooManyStatements_under m1 m2) by exact Hm. apply IH.
  - unfold MaxStatements.onProgramExit.
    cbn [MaxStatements.functionStack MaxStatements.topLevelFunctions
      MaxStatements.reports MaxStatements.maxOf].
    destruct (length tl =? 1)%nat; [apply IH|].
    rewrite !fold_reportIfTooManyStatements.
    rewrite <- (ms_under_exceeding m1 m2 tl Hm), <- ms_under_app.
    apply IH.
Qed.

(** Raising the maximum only removes reports: the reports under a maximum
    are those of any lower maximum whose count is above it, in the same
    order. *)
Theorem maximum_only_selects
    (m1 m2 : Z) (option1 : option (option bool)) (program : node) :
  m1 <= m2 ->
  MaxStatements.lint (OptNumber m2) option1 program
  = ms_under (Num m2) (MaxStatements.lint (OptNumber m1) option1 program).
Proof.
  intros Hm. unfold MaxStatements.lint, MaxStatements.configure.
  cbn [MaxStatements.maxStatements]. unfold MaxStatements.initial.
  change (@nil MaxStatements.report) with (ms_under (Num m2) []) at 1.
  now rewrite (ms_run_under _ m1 m2).
Qed.

Lemma maximum_only_selects_witness :
  MaxStatements.lint (OptNumber 3) None
    (Program [function_of "f" 3; function_of "g" 4])
  = ms_under (Num 3)
      (MaxStatements.lint (OptNumber 2) None
         (Program [function_of "f" 3; function_of "g" 4])).
Proof.
  apply (maximum_only_selects 2 3 None
           (Program [function_of "f" 3; function_of "g" 4])).
  lia.
Defined.

(** ** The units a program is reported for *)

Lemma closed_units_app a b :
  closed_units (a ++ b) = closed_units a ++ closed_units b.
Proof. apply flat_map_app. Qed.

Lemma reportIfComplex_unit origin n complexity rs :
  map unit_of (Complexity.reportIfComplex (Num 0) origin n complexity rs)
  = map unit_of rs ++ closed_units [CodePathEnd origin n].
Proof.
  unfold Complexity.reportIfComplex, closed_units. cbn [flat_map].
  destruct (Complexity.reportable origin); cbn [negb js_is_zero Z.eqb orb].
  - now rewrite map_app, app_nil_r.
  - now rewrite app_nil_r.
Qed.

Lemma run_closed_units events :
  forall s,
    map unit_of (ComplexityRec.reports (ComplexityRec.run (Num 0) events s))
    = map unit_of (ComplexityRec.reports s) ++ closed_units events.
Proof.
  induction events as [|e t IH]; intros s; [now rewrite app_nil_r|].
  rewrite run_cons, IH.
  change (e :: t) with ([e] ++ t). rewrite closed_units_app, app_assoc.
  f_equal.
  destruct e as [o n p|o n|n p|n]; cbn [ComplexityRec.handle];
    try (cbn; now rewrite app_nil_r).
  unfold ComplexityRec.onCodePathEnd.
  destruct (pop (ComplexityRec.complexities s)) as [c rest].
  cbn [ComplexityRec.reports]. apply reportIfComplex_unit.
Qed.

Lemma base_run_closed_units events :
  forall s,
    map unit_of (Complexity.reports (Complexity.run (Num 0) events s))
    = map unit_of (Complexity.reports s) ++ closed_units events.
Proof.
  induction events as [|e t IH]; intros s; [now rewrite app_nil_r|].
  rewrite base_run_cons, IH.
  change (e :: t) with ([e] ++ t). rewrite closed_units_app, app_assoc.
  f_equal.
  destruct e as [o n p|o n|n p|n]; cbn [Complexity.handle];
    try (cbn; now rewrite app_nil_r).
  unfold Complexity.onCodePathEnd.
  destruct (pop (Complexity.complexities s)) as [c rest].
  cbn [Complexity.reports]. apply reportIfComplex_unit.
Qed.

Lemma In_under th r rs :
  In r (under th rs) -> exists r0, In r0 rs /\ unit_of r0 = unit_of r.
Proof.
  unfold under. intros [r0 [<- [Hin _]%filter_In]]%in_map_iff.
  exists r0. split; [exact Hin | reflexivity].
Qed.

(** The shape of the events of a node that opens a unit. *)
Lemma traverse_unit g parent o :
  codePathOrigin g = Some o ->
  exists children,
    traverse parent g
    = CodePathStart o g parent
        :: (Enter g parent :: children ++ [Exit g]) ++ [CodePathEnd o g]
    /\ nested children /\ balanced children.
Proof.
  destruct g; try discriminate; intros [= <-];
    cbn [traverse codePathOrigin in_code_path];
    eexists; (split; [reflexivity|]); split;
    repeat first
      [ apply nested_app
      | apply balanced_app
      | apply traverse_nested
      | apply traverse_balanced
      | apply nested_flat_map, list_all_forall; intros;
        apply traverse_nested
      | apply balanced_flat_map, list_all_forall; intros;
        apply traverse_balanced
      | match goal with
        | |- nested (match ?x with _ => _ end) =>
            destruct x; [apply traverse_nested | constructor]
        | |- balanced (match ?x with _ => _ end) =>
            destruct x; [apply traverse_balanced | constructor]
        end ].
Qed.

(** Under the threshold 0, the reports are one for each function, each
    value of a class field and each class static block of the program, in
    the order in which these end: a function after the functions nested in
    it, and none for the program.  Under another threshold, each report is
    for one of them.  In both revisions. *)
Theorem every_unit_is_reported_once
    (opt : option_value) (program : node) (body : list node)
    (f : node) (parent : option node) :
  let units n parent := closed_units (traverse parent n) in
  map unit_of (ComplexityRec.lint (OptNumber 0) program)
    = units program None
  /\ map unit_of (Complexity.lint (OptNumber 0) program)
     = units program None
  /\ units (Program body) None
     = flat_map (fun n => units n (Some (Program body))) body
  /\ match function_parts f with
     | Some (id, params, fbody) =>
         units f parent
         = match id with Some n => units n (Some f) | None => [] end
           ++ flat_map (fun n => units n (Some f)) params
           ++ units fbody (Some f)
           ++ [(f, FunctionNameWithKind f)]
     | None => True
     end
  /\ incl (map unit_of (ComplexityRec.lint opt program)) (units program None)
  /\ incl (map unit_of (Complexity.lint opt program)) (units program None).
Proof.
  cbn zeta.
  assert (Hrec : map unit_of (ComplexityRec.lint (OptNumber 0) program)
                 = closed_units (traverse None program))
    by apply (run_closed_units _ ComplexityRec.initial).
  assert (Hbase : map unit_of (Complexity.lint (OptNumber 0) program)
                  = closed_units (traverse None program))
    by apply (base_run_closed_units _ Complexity.initial).
  assert (Hall : forall p l,
            closed_units (flat_map (traverse p) l)
            = flat_map (fun n => closed_units (traverse p n)) l).
  { intros p l. induction l as [|x l IH]; [reflexivity|].
    cbn [flat_map]. now rewrite closed_units_app, IH. }
  split; [exact Hrec|]. split; [exact Hbase|]. split; [|split; [|split]].
  - cbn [traverse codePathOrigin in_code_path].
    change (closed_units
              ([CodePathStart "program" (Program body) None;
                Enter (Program body) None]
               ++ (flat_map (traverse (Some (Program body))) body
                   ++ [Exit (Program body)])
               ++ [CodePathEnd "program" (Program body)])
            = flat_map
                (fun n => closed_units (traverse (Some (Program body)) n))
                body).
    rewrite !closed_units_app, Hall. cbn. now rewrite !app_nil_r.
  - destruct (function_parts f) as [[[id params] fbody]|] eqn:Hf; [|exact I].
    rewrite (traverse_function f id params fbody parent Hf).
    change (closed_units
              ([CodePathStart "function" f parent; Enter f parent]
               ++ ((match id with
                    | Some c => traverse (Some f) c
                    | None => []
                    end
                    ++ flat_map (traverse (Some f)) params
                    ++ traverse (Some f) fbody)
                   ++ [Exit f])
               ++ [CodePathEnd "function" f])
            = match id with
              | Some n => closed_units (traverse (Some f) n)
              | None => []
              end
              ++ flat_map (fun n => closed_units (traverse (Some f) n)) params
              ++ closed_units (traverse (Some f) fbody)
              ++ [(f, FunctionNameWithKind f)]).
    rewrite !closed_units_app, Hall.
    destruct id; cbn; now rewrite ?app_nil_r, <- ?app_assoc.
  - unfold ComplexityRec.lint. rewrite lint_under.
    intros u [r [<- [r0 [Hin <-]]%In_under]]%in_map_iff. rewrite <- Hrec.
    now apply in_map.
  - unfold Complexity.lint. rewrite base_lint_under.
    intros u [r [<- [r0 [Hin <-]]%In_under]]%in_map_iff. rewrite <- Hbase.
    now apply in_map.
Qed.

(** ** A unit nested in another *)

Lemma own_points_app value a :
  nested a ->
  forall depth b,
    own_points value depth (a ++ b)
    = own_points value depth a + own_points value depth b.
Proof.
  induction 1 as [|n p rest _ IH|n rest _ IH|o n p inner rest Hi _ _ IH];
    intros depth b; cbn [app own_points].
  - reflexivity.
  - rewrite IH. lia.
  - apply IH.
  - rewrite <- app_assoc. cbn [app].
    rewrite !(own_points_inner value inner Hi). cbn [own_points Nat.pred].
    apply IH.
Qed.

Lemma own_points_unit value o g parent inner depth :
  nested inner ->
  own_points value depth
    (CodePathStart o g parent :: inner ++ [CodePathEnd o g]) = 0.
Proof.
  intros Hi. cbn [own_points].
  now rewrite (own_points_inner value inner Hi).
Qed.

(** A node that opens a unit adds nothing to the unit around it: its
    decision points count for the unit it opens, and its traversal leaves
    the stacks of the rule exactly as they were.  No more does the value of
    a class field: the traversal of a class field leaves the stacks of the
    rule as the traversal of its key alone leaves them.  In both
    revisions. *)
Theorem nested_units_add_nothing
    (th : jsval) (g : node) (parent : option node) (o : string)
    (current : option node) (depth : nat)
    (s : ComplexityRec.state) (s0 : Complexity.state)
    (key value : node) :
  codePathOrigin g = Some o ->
  let field := PropertyDefinition key (Some value) in
  points current depth (traverse parent g) = 0
  /\ base_points depth (traverse parent g) = 0
  /\ ComplexityRec.complexities (ComplexityRec.run th (traverse parent g) s)
     = ComplexityRec.complexities s
  /\ ComplexityRec.functionStack (ComplexityRec.run th (traverse parent g) s)
     = ComplexityRec.functionStack s
  /\ Complexity.complexities (Complexity.run th (traverse parent g) s0)
     = Complexity.complexities s0
  /\ points current depth (traverse parent field)
     = points current depth (traverse (Some field) key)
  /\ base_points depth (traverse parent field)
     = base_points depth (traverse (Some field) key)
  /\ ComplexityRec.complexities
       (ComplexityRec.run th (traverse parent field) s)
     = ComplexityRec.complexities
         (ComplexityRec.run th (traverse (Some field) key) s)
  /\ ComplexityRec.functionStack
       (ComplexityRec.run th (traverse parent field) s)
     = ComplexityRec.functionStack
         (ComplexityRec.run th (traverse (Some field) key) s)
  /\ Complexity.complexities (Complexity.run th (traverse parent field) s0)
     = Complexity.complexities
         (Complexity.run th (traverse (Some field) key) s0).
Proof.
  intros Ho field.
  assert (Hrun : exists r',
            ComplexityRec.run th (traverse parent field) s
            = let s1 := ComplexityRec.run th (traverse (Some field) key) s in
              ComplexityRec.mkState (ComplexityRec.complexities s1)
                (ComplexityRec.functionStack s1) r').
  { subst field. cbn [traverse codePathOrigin in_code_path].
    rewrite run_cons, !run_app.
    cbn [ComplexityRec.handle ComplexityRec.enter].
    replace (ComplexityRec.mkState (ComplexityRec.complexities s)
               (ComplexityRec.functionStack s) (ComplexityRec.reports s))
      with s by now destruct s.
    destruct (run_unit th "class-field-initializer" value
                (Some (PropertyDefinition key (Some value)))
                (traverse (Some (PropertyDefinition key (Some value))) value)
                (ComplexityRec.run th
                   (traverse (Some (PropertyDefinition key (Some value))) key)
                   s)
                (traverse_nested value _)) as [r' E].
    rewrite E. eexists. reflexivity. }
  assert (Hbase : exists r',
            Complexity.run th (traverse parent field) s0
            = let s1 := Complexity.run th (traverse (Some field) key) s0 in
              Complexity.mkState (Complexity.complexities s1) r').
  { subst field. cbn [traverse codePathOrigin in_code_path].
    rewrite base_run_cons, !base_run_app.
    cbn [Complexity.handle Complexity.enter].
    replace (Complexity.mkState (Complexity.complexities s0)
               (Complexity.reports s0))
      with s0 by now destruct s0.
    destruct (base_run_unit th "class-field-initializer" value
                (Some (PropertyDefinition key (Some value)))
                (traverse (Some (PropertyDefinition key (Some value))) value)
                (Complexity.run th
                   (traverse (Some (PropertyDefinition key (Some value))) key)
                   s0)
                (traverse_nested value _)) as [r' E].
    rewrite E. eexists. reflexivity. }
  destruct (traverse_unit g parent o Ho) as [children [-> [Hn _]]].
  assert (Hinner : nested (Enter g parent :: children ++ [Exit g]))
    by (apply nested_enter, nested_app; [exact Hn | repeat constructor]).
  assert (Hfield : forall value0,
            value0 (PropertyDefinition key (Some value)) parent = 0 ->
            own_points value0 depth (traverse parent field)
            = own_points value0 depth (traverse (Some field) key)).
  { intros value0 H0. subst field.
    cbn [traverse codePathOrigin in_code_path].
    cbn [own_points]. rewrite H0.
    rewrite <- app_assoc.
    rewrite (own_points_app value0 _ (traverse_nested key _)).
    cbn [app own_points]. rewrite <- app_assoc.
    rewrite (own_points_inner value0 _ (traverse_nested value _)).
    cbn [app own_points]. destruct depth; lia. }
  split; [now apply own_points_unit|]. split; [now apply own_points_unit|].
  split; [|split; [|split; [|split; [|split; [|split; [|split]]]]]].
  - destruct (run_unit th o g parent _ s Hinner) as [r' ->]. reflexivity.
  - destruct (run_unit th o g parent _ s Hinner) as [r' ->]. reflexivity.
  - destruct (base_run_unit th o g parent _ s0 Hinner) as [r' ->].
    reflexivity.
  - now apply Hfield.
  - now apply Hfield.
  - destruct Hrun as [r' ->]. reflexivity.
  - destruct Hrun as [r' ->]. reflexivity.
  - destruct Hbase as [r' ->]. reflexivity.
Qed.

Lemma nested_units_add_nothing_witness :
  points None 0 (traverse None basic_function) = 0.
Proof.
  refine (proj1
    (nested_units_add_nothing undefined basic_function None "function"
       None 0 ComplexityRec.initial Complexity.initial
       (Identifier "a") (Identifier "b") _)).
  reflexivity.
Defined.

(** A function, or a class static block, adds nothing to the count of the
    function around it: the statements of its blocks count for itself, and
    its traversal leaves the stack of the rule exactly as it was, also when
    the stack was empty. *)
Theorem nested_functions_count_for_themselves
    (cfg : MaxStatements.config) (g : node) (parent : option node)
    (depth : nat) (s : MaxStatements.state) :
  MaxStatements.isFunctionLike g = true ->
  statements depth (traverse parent g) = 0
  /\ MaxStatements.functionStack (MaxStatements.run cfg (traverse parent g) s)
     = MaxStatements.functionStack s.
Proof.
  intros Hg.
  assert (Ho : exists o, codePathOrigin g = Some o)
    by (destruct g; try discriminate; eexists; reflexivity).
  destruct Ho as [o Ho].
  destruct (traverse_unit g parent o Ho) as [children [-> [_ Hb]]].
  split.
  - cbn [statements app]. rewrite Hg.
    rewrite <- app_assoc. rewrite (statements_inner children Hb).
    cbn [app statements]. now rewrite Hg.
  - rewrite ms_run_cons, ms_run_app. cbn [MaxStatements.handle].
    destruct (ms_run_unit cfg g parent children s Hg Hb) as [r' ->].
    cbn [MaxStatements.run fold_left MaxStatements.handle].
    unfold MaxStatements.endFunction.
    cbn [MaxStatements.functionStack pop items minus1].
    destruct (MaxStatements.functionStack s) as [i m] eqn:Hs.
    cbn [items minus1].
    destruct (isStaticBlock g); [reflexivity|].
    destruct (MaxStatements.ignoreTop cfg && _); reflexivity.
Qed.

Lemma nested_functions_count_for_themselves_witness :
  statements 0 (traverse None (function_of "f" 3)) = 0.
Proof.
  refine (proj1
    (nested_functions_count_for_themselves
       (MaxStatements.mkConfig false (Num 2)) (function_of "f" 3) None 0
       MaxStatements.initial _)).
  reflexivity.
Defined.

(** ** The sequences of a logical chain *)

Lemma mirror_counts n :
  logical_nodes (mirror n) = logical_nodes n
  /\ merged_operands (mirror n) = merged_operands n
  /\ forall operator,
       continues_run operator (mirror n) = continues_run operator n.
Proof.
  induction n; try (repeat split; reflexivity).
  destruct IHn1 as [N1 [M1 C1]]. destruct IHn2 as [N2 [M2 C2]].
  cbn [mirror logical_nodes merged_operands continues_run].
  rewrite N1, N2, M1, M2, C1, C2. repeat split; lia.
Qed.

(** The scan of a logical chain finds at least one sequence and at most as
    many as the chain has logical expressions; it finds exactly one when
    all of these have the same operator, and only then.  What it finds
    does not change when the operands of every logical expression are
    swapped, and it adds what it finds to the count it is given. *)
Theorem sequences_of_a_chain
    (operator : string) (lhs rhs : node) (currentOp : option string)
    (count : Z) :
  let n := LogicalExpression operator lhs rhs in
  let sequences := Complexity.countLogicalOperatorSequences n None 0 in
  1 <= sequences <= logical_nodes n
  /\ (sequences = 1 <-> uniform operator n = true)
  /\ Complexity.countLogicalOperatorSequences (mirror n) currentOp count
     = Complexity.countLogicalOperatorSequences n currentOp count
  /\ Complexity.countLogicalOperatorSequences n currentOp count
     = count + Complexity.countLogicalOperatorSequences n currentOp 0.
Proof.
  intros n sequences. subst sequences n.
  rewrite count_sequences_runs.
  split; [|split; [|split]].
  - split; [apply runs_positive|].
    unfold runs. cbn [logical_nodes merged_operands].
    assert (Hm : forall x op, 0 <= merged_operands x
                              /\ 0 <= continues_run op x).
    { assert (Hc : forall op y, 0 <= continues_run op y)
        by (intros op []; cbn; try lia; destruct (String.eqb op _); lia).
      intros x op. split; [|apply Hc].
      induction x; cbn [merged_operands]; try lia.
      match goal with
      | |- context [continues_run ?o x1] =>
          pose proof (Hc o x1); pose proof (Hc o x2)
      end. lia. }
    pose proof (Hm lhs operator). pose proof (Hm rhs operator). lia.
  - rewrite runs_unfold. cbn [uniform]. rewrite String.eqb_refl. cbn [andb].
    destruct (operand_runs_uniform lhs operator) as [H1 E1].
    destruct (operand_runs_uniform rhs operator) as [H2 E2].
    rewrite andb_true_iff, <- E1, <- E2. lia.
  - cbn [mirror]. rewrite !count_sequences_spec. unfold runs.
    cbn [logical_nodes merged_operands].
    destruct (mirror_counts lhs) as [N1 [M1 C1]].
    destruct (mirror_counts rhs) as [N2 [M2 C2]].
    rewrite N1, N2, M1, M2, C1, C2. lia.
  - rewrite !count_sequences_spec. lia.
Qed.

(** ** The two revisions *)

Lemma base_decision_points_le current n parent :
  base_decision_points n parent <= decision_points current n parent.
Proof.
  destruct n; cbn [base_decision_points decision_points]; try lia.
  - destruct (final_else alternate); cbn; lia.
  - destruct current as [[]|]; try lia.
    match goal with
    | |- context [calls_by_name ?x ?y] => destruct (calls_by_name x y)
    end; cbn; lia.
Qed.

Lemma own_points_le value0 value1 events :
  (forall n parent, value0 n parent <= value1 n parent) ->
  forall depth,
    own_points value0 depth events <= own_points value1 depth events.
Proof.
  intros H. induction events as [|[o n p|o n|n p|n] t IH]; intros depth;
    cbn [own_points]; try apply IH; try lia.
  specialize (IH depth). specialize (H n p). destruct depth; lia.
Qed.

Lemma compare_nested events :
  nested events ->
  forall c0 cs0 m0 r0 c1 cs1 m1 f fs r1,
    Forall2 no_lower r0 r1 ->
    Forall2 no_lower
      (Complexity.reports
         (Complexity.run (Num 0) events
            (Complexity.mkState (mkArray (c0 :: cs0) m0) r0)))
      (ComplexityRec.reports
         (ComplexityRec.run (Num 0) events
            (ComplexityRec.mkState (mkArray (c1 :: cs1) m1) (f :: fs) r1))).
Proof.
  induction 1 as [|n p t _ IH|n t _ IH|o n p inner t Hi IHi _ IHt];
    intros c0 cs0 m0 r0 c1 cs1 m1 f fs r1 Hr.
  - exact Hr.
  - rewrite run_cons, base_run_cons.
    cbn [ComplexityRec.handle ComplexityRec.complexities
      ComplexityRec.functionStack ComplexityRec.reports
      Complexity.handle Complexity.complexities Complexity.reports].
    rewrite enter_cons, base_enter_cons. now apply IH.
  - rewrite run_cons, base_run_cons. now apply IH.
  - rewrite run_cons, run_app, run_cons.
    rewrite base_run_cons, base_run_app, base_run_cons.
    cbn [ComplexityRec.handle Complexity.handle].
    unfold ComplexityRec.onCodePathStart, Complexity.onCodePathStart, push.
    cbn [ComplexityRec.complexities ComplexityRec.functionStack
      ComplexityRec.reports Complexity.complexities Complexity.reports
      items minus1].
    specialize (IHi 0 (c0 :: cs0) m0 r0 0 (c1 :: cs1) m1
                  (if String.eqb o "function"
                   then ComplexityRec.getFunctionIdentifier n p else None)
                  (f :: fs) r1 Hr).
    destruct (base_run_nested (Num 0) inner Hi 0 (c0 :: cs0) m0 r0)
      as [ri0 E0].
    destruct (run_nested (Num 0) inner Hi 0 (c1 :: cs1) m1
                (if String.eqb o "function"
                 then ComplexityRec.getFunctionIdentifier n p else None)
                (f :: fs) r1) as [ri1 E1].
    rewrite E0, E1 in IHi. rewrite E0, E1.
    cbn [ComplexityRec.reports Complexity.reports] in IHi.
    unfold ComplexityRec.onCodePathEnd, Complexity.onCodePathEnd.
    cbn [ComplexityRec.complexities ComplexityRec.functionStack
      ComplexityRec.reports Complexity.complexities Complexity.reports
      pop items minus1 tl].
    apply IHt.
    unfold Complexity.reportIfComplex.
    destruct (negb (Complexity.reportable o)); [exact IHi|].
    cbn [js_is_zero Z.eqb orb].
    apply Forall2_app; [exact IHi|].
    constructor; [|constructor].
    split; [reflexivity|].
    cbn [Complexity.complexity]. do 2 eexists.
    split; [reflexivity|]. split; [reflexivity|].
    pose proof (own_points_le base_decision_points
                  (decision_points
                     (if String.eqb o "function"
                      then ComplexityRec.getFunctionIdentifier n p
                      else None))
                  inner
                  (fun n0 p0 => base_decision_points_le _ n0 p0) 0%nat).
    unfold base_points, points. lia.
Qed.

Lemma under_no_lower th l0 l1 :
  Forall2 no_lower l0 l1 ->
  incl (map unit_of (under th l0)) (map unit_of (under th l1)).
Proof.
  induction 1 as [|[n0 name0 c0 max0] [n1 name1 c1 max1] l0 l1 Hx _ IH];
    [apply incl_refl|].
  change (incl
            (map unit_of
               (under th ([Complexity.mkReport n0 name0 c0 max0] ++ l0)))
            (map unit_of
               (under th ([Complexity.mkReport n1 name1 c1 max1] ++ l1)))).
  rewrite !under_app, !map_app.
  apply incl_app; [apply incl_appl | now apply incl_appr].
  rewrite !under_one.
  destruct Hx as [Hu [z0 [z1 [H0 [H1 Hle]]]]].
  cbn [Complexity.complexity] in H0, H1. subst c0 c1.
  unfold unit_of in Hu. cbn [Complexity.node_of Complexity.name] in Hu.
  injection Hu as -> ->.
  destruct (js_is_zero th || js_gt (Num z0) th) eqn:E0; [|intros x []].
  replace (js_is_zero th || js_gt (Num z1) th) with true; [apply incl_refl|].
  symmetry. apply orb_true_iff. apply orb_true_iff in E0 as [E0|E0];
    [now left | right].
  destruct th as [| |t]; try discriminate. cbn in *. lia.
Qed.

(** The later revision scores no unit lower than the earlier one: linting
    a program under the threshold 0, both report the same units in the same
    order, the later one with a complexity that is at least that of the
    earlier one.  So every unit the earlier revision reports under an
    option, the later one reports under it too. *)
Theorem later_revision_scores_no_lower
    (opt : option_value) (body : list node) :
  Forall2 no_lower
    (Complexity.lint (OptNumber 0) (Program body))
    (ComplexityRec.lint (OptNumber 0) (Program body))
  /\ incl (map unit_of (Complexity.lint opt (Program body)))
       (map unit_of (ComplexityRec.lint opt (Program body))).
Proof.
  assert (H0 : Forall2 no_lower
                 (Complexity.lint (OptNumber 0) (Program body))
                 (ComplexityRec.lint (OptNumber 0) (Program body))).
  { unfold Complexity.lint, ComplexityRec.lint.
    destruct (traverse_unit (Program body) None "program" eq_refl)
      as [children [-> [Hn _]]].
    assert (Hinner : nested (Enter (Program body) None
                             :: children ++ [Exit (Program body)]))
      by (apply nested_enter, nested_app; [exact Hn | repeat constructor]).
    rewrite run_cons, run_app, base_run_cons, base_run_app.
    pose proof (compare_nested _ Hinner 0 [] undefined [] 0 [] undefined
                  None [] [] (Forall2_nil _)) as Hc.
    cbn [ComplexityRec.handle Complexity.handle].
    unfold ComplexityRec.onCodePathStart, Complexity.onCodePathStart, push,
      ComplexityRec.initial, Complexity.initial, empty_array.
    cbn [ComplexityRec.complexities ComplexityRec.functionStack
      ComplexityRec.reports Complexity.complexities Complexity.reports
      items minus1 String.eqb Ascii.eqb Bool.eqb
      ComplexityRec.threshold Complexity.threshold].
    destruct (base_run_nested (Num 0) _ Hinner 0 [] undefined [])
      as [ri0 E0].
    destruct (run_nested (Num 0) _ Hinner 0 [] undefined None [] [])
      as [ri1 E1].
    rewrite E0, E1 in Hc. rewrite E0, E1. exact Hc. }
  split; [exact H0|].
  unfold Complexity.lint, ComplexityRec.lint.
  rewrite lint_under, base_lint_under.
  now apply under_no_lower.
Qed.

(** ** The two stacks of the later revision *)

Lemma add_last_length d arr :
  length (items (add_last d arr)) = length (items arr).
Proof. destruct arr as [[|v rest] m]; reflexivity. Qed.

Lemma increaseComplexityTimes_length count arr :
  length (items (Complexity.increaseComplexityTimes count arr))
  = length (items arr).
Proof.
  unfold Complexity.increaseComplexityTimes.
  induction (Z.to_nat count) as [|k IH]; [reflexivity|].
  rewrite Nat.iter_succ. unfold Complexity.increaseComplexity at 1.
  now rewrite add_last_length.
Qed.

Lemma enter_length n parent fs arr :
  length (items (ComplexityRec.enter n parent fs arr)) = length (items arr).
Proof.
  destruct n; cbn [ComplexityRec.enter]; try reflexivity;
    unfold ComplexityRec.onIfStatement, ComplexityRec.onCallExpression,
      Complexity.onSwitchStatement, Complexity.onLogicalExpression,
      Complexity.onAssignmentExpression, Complexity.increaseComplexity;
    repeat match goal with
      | |- context [match ?x with _ => _ end] => destruct x
      end;
    rewrite ?increaseComplexityTimes_length, ?add_last_length;
    reflexivity.
Qed.

(** The stack of function identifiers stays aligned with the stack of
    complexities: whatever the events, both have the same length after
    them.  Starting a code path pushes on both, 0 and the identifier of
    the function ([null] for a code path that is no function); ending one
    pops both; no node listener changes the length of either. *)
Theorem stacks_stay_aligned
    (th : jsval) (events : list event) (origin : string) (n : node)
    (parent : option node) (s0 : ComplexityRec.state) :
  let s := ComplexityRec.run th events ComplexityRec.initial in
  let started := ComplexityRec.onCodePathStart origin n parent s0 in
  let ended := ComplexityRec.onCodePathEnd th origin n s0 in
  let entered := ComplexityRec.handle th (Enter n parent) s0 in
  length (ComplexityRec.functionStack s)
  = length (items (ComplexityRec.complexities s))
  /\ items (ComplexityRec.complexities started)
     = 0 :: items (ComplexityRec.complexities s0)
  /\ ComplexityRec.functionStack started
     = (if String.eqb origin "function"
        then ComplexityRec.getFunctionIdentifier n parent
        else None) :: ComplexityRec.functionStack s0
  /\ items (ComplexityRec.complexities ended)
     = tl (items (ComplexityRec.complexities s0))
  /\ ComplexityRec.functionStack ended = tl (ComplexityRec.functionStack s0)
  /\ length (items (ComplexityRec.complexities entered))
     = length (items (ComplexityRec.complexities s0))
  /\ ComplexityRec.functionStack entered = ComplexityRec.functionStack s0
  /\ ComplexityRec.handle th (Exit n) s0 = s0.
Proof.
  cbn zeta.
  assert (H : forall s,
            length (ComplexityRec.functionStack s)
            = length (items (ComplexityRec.complexities s)) ->
            length (ComplexityRec.functionStack
                      (ComplexityRec.run th events s))
            = length (items (ComplexityRec.complexities
                               (ComplexityRec.run th events s)))).
  { induction events as [|e t IH]; intros s Hs; [exact Hs|].
    rewrite run_cons. apply IH.
    destruct s as [[i m] fs r].
    cbn [ComplexityRec.functionStack ComplexityRec.complexities items] in Hs.
    destruct e as [o x p|o x|x p|x]; cbn [ComplexityRec.handle].
    - cbn. now rewrite Hs.
    - unfold ComplexityRec.onCodePathEnd.
      cbn [ComplexityRec.functionStack ComplexityRec.complexities
        ComplexityRec.reports].
      destruct i as [|v rest]; destruct fs as [|f fs']; try discriminate;
        cbn in *; congruence.
    - cbn [ComplexityRec.functionStack ComplexityRec.complexities
        ComplexityRec.reports].
      now rewrite enter_length.
    - exact Hs. }
  split; [apply H; reflexivity|].
  split; [reflexivity|]. split; [reflexivity|].
  split; [|split; [|split; [|split]]].
  - unfold ComplexityRec.onCodePathEnd.
    destruct s0 as [[[|v rest] m] fs r]; reflexivity.
  - unfold ComplexityRec.onCodePathEnd.
    destruct (pop (ComplexityRec.complexities s0)); reflexivity.
  - cbn [ComplexityRec.handle ComplexityRec.complexities].
    apply enter_length.
  - reflexivity.
  - reflexivity.
Qed.

(** ** The parts of a program *)

(** To a child of the program, it makes no difference which program it is
    a child of. *)
Lemma run_program_child th n x y s :
  ComplexityRec.run th (traverse (Some (Program x)) n) s
  = ComplexityRec.run th (traverse (Some (Program y)) n) s.
Proof. destruct n; reflexivity. Qed.

Lemma base_run_program_child th n x y s :
  Complexity.run th (traverse (Some (Program x)) n) s
  = Complexity.run th (traverse (Some (Program y)) n) s.
Proof. destruct n; reflexivity. Qed.

Lemma nested_statements parent l :
  nested (flat_map (traverse parent) l).
Proof.
  apply nested_flat_map, list_all_forall. intros c p. apply traverse_nested.
Qed.

Lemma lint_statements opt l x :
  ComplexityRec.lint opt (Program l)
  = ComplexityRec.reports
      (ComplexityRec.run (ComplexityRec.threshold opt)
         (flat_map (traverse (Some (Program x))) l)
         (ComplexityRec.mkState (mkArray [0] undefined) [None] [])).
Proof.
  unfold ComplexityRec.lint.
  cbn [traverse codePathOrigin in_code_path].
  rewrite run_cons, run_app, (run_cons _ (Enter _ _)), run_app.
  cbn [ComplexityRec.handle].
  unfold ComplexityRec.onCodePathStart, ComplexityRec.initial, push,
    empty_array.
  cbn [ComplexityRec.complexities ComplexityRec.functionStack
    ComplexityRec.reports items minus1 String.eqb Ascii.eqb Bool.eqb
    ComplexityRec.enter].
  destruct (run_nested (ComplexityRec.threshold opt) _
              (nested_statements (Some (Program l)) l)
              0 [] undefined None [] []) as [r E].
  rewrite E.
  assert (E' : ComplexityRec.run (ComplexityRec.threshold opt)
                 (flat_map (traverse (Some (Program x))) l)
                 (ComplexityRec.mkState (mkArray [0] undefined) [None] [])
               = ComplexityRec.run (ComplexityRec.threshold opt)
                   (flat_map (traverse (Some (Program l))) l)
                   (ComplexityRec.mkState (mkArray [0] undefined) [None] [])).
  { generalize (ComplexityRec.mkState (mkArray [0] undefined) [None] []).
    induction l as [|a t IH] in |- * at 1 3; intros s; [reflexivity|].
    cbn [flat_map]. rewrite !run_app.
    rewrite (run_program_child _ a x l). apply IH. }
  rewrite E', E. reflexivity.
Qed.

Lemma base_lint_statements opt l x :
  Complexity.lint opt (Program l)
  = Complexity.reports
      (Complexity.run (Complexity.threshold opt)
         (flat_map (traverse (Some (Program x))) l)
         (Complexity.mkState (mkArray [0] undefined) [])).
Proof.
  unfold Complexity.lint.
  cbn [traverse codePathOrigin in_code_path].
  rewrite base_run_cons, base_run_app, (base_run_cons _ (Enter _ _)),
    base_run_app.
  cbn [Complexity.handle].
  unfold Complexity.onCodePathStart, Complexity.initial, push, empty_array.
  cbn [Complexity.complexities Complexity.reports items minus1
    Complexity.enter].
  destruct (base_run_nested (Complexity.threshold opt) _
              (nested_statements (Some (Program l)) l)
              0 [] undefined []) as [r E].
  rewrite E.
  assert (E' : Complexity.run (Complexity.threshold opt)
                 (flat_map (traverse (Some (Program x))) l)
                 (Complexity.mkState (mkArray [0] undefined) [])
               = Complexity.run (Complexity.threshold opt)
                   (flat_map (traverse (Some (Program l))) l)
                   (Complexity.mkState (mkArray [0] undefined) [])).
  { generalize (Complexity.mkState (mkArray [0] undefined) []).
    induction l as [|a t IH] in |- * at 1 3; intros s; [reflexivity|].
    cbn [flat_map]. rewrite !base_run_app.
    rewrite (base_run_program_child _ a x l). apply IH. }
  rewrite E', E. reflexivity.
Qed.

(** The statements of a program are judged one by one: what is reported
    for a program is what is reported for its first statements, followed by
    what is reported for the statements after them.  In both revisions. *)
Theorem parts_are_judged_independently
    (opt : option_value) (a b : list node) :
  ComplexityRec.lint opt (Program (a ++ b))
    = ComplexityRec.lint opt (Program a) ++ ComplexityRec.lint opt (Program b)
  /\ Complexity.lint opt (Program (a ++ b))
     = Complexity.lint opt (Program a) ++ Complexity.lint opt (Program b).
Proof.
  split.
  - rewrite (lint_statements opt (a ++ b) (a ++ b)),
      (lint_statements opt a (a ++ b)), (lint_statements opt b (a ++ b)).
    rewrite flat_map_app, run_app.
    destruct (run_nested (ComplexityRec.threshold opt) _
                (nested_statements (Some (Program (a ++ b))) a)
                0 [] undefined None [] []) as [r E].
    rewrite E. cbn [ComplexityRec.reports app].
    apply (run_reports_independent _ _
             (nested_statements (Some (Program (a ++ b))) b)).
  - rewrite (base_lint_statements opt (a ++ b) (a ++ b)),
      (base_lint_statements opt a (a ++ b)),
      (base_lint_statements opt b (a ++ b)).
    rewrite flat_map_app, base_run_app.
    destruct (base_run_nested (Complexity.threshold opt) _
                (nested_statements (Some (Program (a ++ b))) a)
                0 [] undefined []) as [r E].
    rewrite E. cbn [Complexity.reports app].
    apply (base_run_reports_independent _ _
             (nested_statements (Some (Program (a ++ b))) b)).
Qed.

(** ** The complexities that are reported *)

Lemma decision_points_nonneg current n parent :
  0 <= decision_points current n parent.
Proof.
  destruct n; cbn [decision_points]; try lia.
  - destruct (final_else alternate); cbn; lia.
  - destruct (existsb Complexity.isDefaultCase cases); cbn; lia.
  - destruct current as [[]|]; try lia.
    match goal with
    | |- context [calls_by_name ?x ?y] => destruct (calls_by_name x y)
    end; cbn; lia.
  - destruct (Complexity.hasLogicalExpressionParent parent); [lia|].
    pose proof (runs_positive operator n1 n2). lia.
  - destruct (isLogicalAssignmentOperator operator); cbn; lia.
Qed.

Lemma own_points_nonneg value events :
  (forall n parent, 0 <= value n parent) ->
  forall depth, 0 <= own_points value depth events.
Proof.
  intros H. induction events as [|[o n p|o n|n p|n] t IH]; intros depth;
    cbn [own_points]; try apply IH; try lia.
  specialize (IH depth). specialize (H n p). destruct depth; lia.
Qed.

Lemma reportIfComplex_count th origin n c r :
  0 <= c -> Forall is_count r ->
  Forall is_count (Complexity.reportIfComplex th origin n (Num c) r).
Proof.
  intros Hc Hr. unfold Complexity.reportIfComplex.
  destruct (negb (Complexity.reportable origin)); [exact Hr|].
  destruct (js_is_zero th || js_gt (Num c) th); [|exact Hr].
  apply Forall_app. split; [exact Hr|].
  constructor; [|constructor]. exists c. now split.
Qed.

Lemma run_counts th events :
  nested events ->
  forall c cs m f fs r,
    Forall is_count r ->
    Forall is_count
      (ComplexityRec.reports
         (ComplexityRec.run th events
            (ComplexityRec.mkState (mkArray (c :: cs) m) (f :: fs) r))).
Proof.
  induction 1 as [|n p t _ IH|n t _ IH|o n p inner t Hi IHi _ IHt];
    intros c cs m f fs r Hr.
  - exact Hr.
  - rewrite run_cons.
    cbn [ComplexityRec.handle ComplexityRec.complexities
      ComplexityRec.functionStack ComplexityRec.reports].
    rewrite enter_cons. now apply IH.
  - rewrite run_cons. now apply IH.
  - rewrite run_cons, run_app, run_cons.
    cbn [ComplexityRec.handle].
    unfold ComplexityRec.onCodePathStart, push.
    cbn [ComplexityRec.complexities ComplexityRec.functionStack
      ComplexityRec.reports items minus1].
    set (b := if String.eqb o "function"
              then ComplexityRec.getFunctionIdentifier n p else None).
    specialize (IHi 0 (c :: cs) m b (f :: fs) r Hr).
    destruct (run_nested th inner Hi 0 (c :: cs) m b (f :: fs) r)
      as [r1 E1].
    rewrite E1 in IHi. rewrite E1. cbn [ComplexityRec.reports] in IHi.
    unfold ComplexityRec.onCodePathEnd.
    cbn [ComplexityRec.complexities ComplexityRec.functionStack
      ComplexityRec.reports pop items minus1 tl].
    apply IHt. apply reportIfComplex_count; [|exact IHi].
    pose proof (own_points_nonneg (decision_points b) inner
                  (decision_points_nonneg b) 0%nat).
    unfold points. lia.
Qed.

Lemma base_run_counts th events :
  nested events ->
  forall c cs m r,
    Forall is_count r ->
    Forall is_count
      (Complexity.reports
         (Complexity.run th events
            (Complexity.mkState (mkArray (c :: cs) m) r))).
Proof.
  induction 1 as [|n p t _ IH|n t _ IH|o n p inner t Hi IHi _ IHt];
    intros c cs m r Hr.
  - exact Hr.
  - rewrite base_run_cons.
    cbn [Complexity.handle Complexity.complexities Complexity.reports].
    rewrite base_enter_cons. now apply IH.
  - rewrite base_run_cons. now apply IH.
  - rewrite base_run_cons, base_run_app, base_run_cons.
    cbn [Complexity.handle].
    unfold Complexity.onCodePathStart, push.
    cbn [Complexity.complexities Complexity.reports items minus1].
    specialize (IHi 0 (c :: cs) m r Hr).
    destruct (base_run_nested th inner Hi 0 (c :: cs) m r) as [r1 E1].
    rewrite E1 in IHi. rewrite E1. cbn [Complexity.reports] in IHi.
    unfold Complexity.onCodePathEnd.
    cbn [Complexity.complexities Complexity.reports pop items minus1].
    apply IHt. apply reportIfComplex_count; [|exact IHi].
    assert (Hb : forall n0 p0, 0 <= base_decision_points n0 p0).
    { intros n0 p0. destruct n0; cbn [base_decision_points]; try lia;
        apply decision_points_nonneg. }
    pose proof (own_points_nonneg base_decision_points inner Hb 0%nat).
    unfold base_points. lia.
Qed.

(** Every complexity reported for a program is a number, and not a
    negative one: no report carries [undefined] or [NaN], whatever the
    option.  In both revisions. *)
Theorem reported_complexities_are_counts
    (opt : option_value) (body : list node) :
  Forall is_count (ComplexityRec.lint opt (Program body))
  /\ Forall is_count (Complexity.lint opt (Program body)).
Proof.
  split.
  - rewrite (lint_statements opt body body).
    apply run_counts; [apply nested_statements | constructor].
  - rewrite (base_lint_statements opt body body).
    apply base_run_counts; [apply nested_statements | constructor].
Qed.

(** ** The parts of a program, for the statement-count rule *)

Lemma ms_neutral_keeps cfg e s :
  neutral e = true ->
  MaxStatements.topLevelFunctions s = [] ->
  MaxStatements.reports (MaxStatements.handle cfg e s)
  = MaxStatements.reports s
  /\ MaxStatements.topLevelFunctions (MaxStatements.handle cfg e s) = [].
Proof.
  intros He Htl.
  destruct (ms_handle_cases e)
    as [H|[H|[[body H]|[[n [-> [Hn _]]]|H]]]]; try rewrite H.
  - now split.
  - now split.
  - now split.
  - cbn [neutral] in He. now rewrite Hn in He.
  - unfold MaxStatements.onProgramExit. rewrite Htl. now split.
Qed.

(** Without [ignoreTopLevelFunctions], the reports of events whose
    function-like nodes are all left do not depend on the state the events
    start from. *)
Lemma ms_reports_independent max events :
  balanced events ->
  forall s s',
    MaxStatements.topLevelFunctions s = [] ->
    MaxStatements.topLevelFunctions s' = [] ->
    let cfg := MaxStatements.mkConfig false max in
    exists r',
      MaxStatements.reports (MaxStatements.run cfg events s)
      = MaxStatements.reports s ++ r'
      /\ MaxStatements.reports (MaxStatements.run cfg events s')
         = MaxStatements.reports s' ++ r'
      /\ MaxStatements.topLevelFunctions (MaxStatements.run cfg events s) = []
      /\ MaxStatements.topLevelFunctions (MaxStatements.run cfg events s')
         = [].
Proof.
  cbn zeta.
  induction 1 as [|e t He _ IH|n p inner t Hn Hi IHi _ IHt];
    intros s s' Hs Hs'.
  - exists []. now rewrite !app_nil_r.
  - rewrite !ms_run_cons.
    destruct (ms_neutral_keeps (MaxStatements.mkConfig false max) e s He Hs)
      as [Hr Htl].
    destruct (ms_neutral_keeps (MaxStatements.mkConfig false max) e s' He Hs')
      as [Hr' Htl'].
    destruct (IH _ _ Htl Htl') as [r' [E [E' [T T']]]].
    exists r'. now rewrite E, E', Hr, Hr'.
  - rewrite !ms_run_cons, !ms_run_app, !ms_run_cons.
    rewrite !(handle_enter_unit _ n p) by exact Hn.
    rewrite !(handle_exit_unit _ n) by exact Hn.
    destruct s as [[i m] tl r]. destruct s' as [[i' m'] tl' r0].
    cbn [MaxStatements.topLevelFunctions] in Hs, Hs'. subst tl tl'.
    unfold MaxStatements.startFunction, push.
    cbn [MaxStatements.functionStack MaxStatements.topLevelFunctions
      MaxStatements.reports items minus1].
    destruct (IHi (MaxStatements.mkState (mkArray (0 :: i) m) [] r)
                (MaxStatements.mkState (mkArray (0 :: i') m') [] r0)
                eq_refl eq_refl) as [ri [E [E' _]]].
    destruct (ms_run_balanced (MaxStatements.mkConfig false max) inner Hi
                0 i m [] r) as [r1 R1].
    destruct (ms_run_balanced (MaxStatements.mkConfig false max) inner Hi
                0 i' m' [] r0) as [r2 R2].
    rewrite R1 in E. rewrite R2 in E'. rewrite R1, R2.
    cbn [MaxStatements.reports] in E, E'.
    apply app_inv_head in E. apply app_inv_head in E'. subst r1 r2.
    unfold MaxStatements.endFunction.
    cbn [MaxStatements.functionStack MaxStatements.topLevelFunctions
      MaxStatements.reports MaxStatements.ignoreTop MaxStatements.maxOf
      pop items minus1 andb].
    destruct (isStaticBlock n).
    + destruct (IHt (MaxStatements.mkState (mkArray i m) [] (r ++ ri))
                  (MaxStatements.mkState (mkArray i' m') [] (r0 ++ ri))
                  eq_refl eq_refl) as [rt [F [F' [T T']]]].
      exists (ri ++ rt). rewrite F, F'.
      cbn [MaxStatements.reports]. now rewrite !app_assoc.
    + unfold MaxStatements.reportIfTooManyStatements.
      destruct (js_gt (Num (0 + statements 0 inner)) max).
      * set (rep := MaxStatements.mkReport n
                      (Num (0 + statements 0 inner)) max).
        destruct (IHt (MaxStatements.mkState (mkArray i m) []
                         ((r ++ ri) ++ [rep]))
                    (MaxStatements.mkState (mkArray i' m') []
                       ((r0 ++ ri) ++ [rep]))
                    eq_refl eq_refl) as [rt [F [F' [T T']]]].
        exists (ri ++ [rep] ++ rt). rewrite F, F'.
        cbn [MaxStatements.reports].
        split; [now rewrite <- !app_assoc|].
        split; [now rewrite <- !app_assoc|]. now split.
      * destruct (IHt (MaxStatements.mkState (mkArray i m) [] (r ++ ri))
                    (MaxStatements.mkState (mkArray i' m') [] (r0 ++ ri))
                    eq_refl eq_refl) as [rt [F [F' [T T']]]].
        exists (ri ++ rt). rewrite F, F'.
        cbn [MaxStatements.reports]. now rewrite !app_assoc.
Qed.

Lemma ms_run_program_child cfg n x y s :
  MaxStatements.run cfg (traverse (Some (Program x)) n) s
  = MaxStatements.run cfg (traverse (Some (Program y)) n) s.
Proof. destruct n; reflexivity. Qed.

Lemma balanced_statements parent l :
  balanced (flat_map (traverse parent) l).
Proof.
  apply balanced_flat_map, list_all_forall. intros c p.
  apply traverse_balanced.
Qed.

Lemma ms_lint_statements opt option1 l x :
  MaxStatements.ignoreTopLevelFunctions option1 = false ->
  MaxStatements.lint opt option1 (Program l)
  = MaxStatements.reports
      (MaxStatements.run
         (MaxStatements.mkConfig false (MaxStatements.maxStatements opt))
         (flat_map (traverse (Some (Program x))) l)
         MaxStatements.initial).
Proof.
  intros Hignore.
  unfold MaxStatements.lint, MaxStatements.configure. rewrite Hignore.
  set (cfg := MaxStatements.mkConfig false (MaxStatements.maxStatements opt)).
  cbn [traverse codePathOrigin in_code_path].
  rewrite ms_run_cons, ms_run_app, (ms_run_cons _ (Enter _ _)), ms_run_app.
  cbn [MaxStatements.handle].
  assert (E' : forall s,
            MaxStatements.run cfg (flat_map (traverse (Some (Program x))) l) s
            = MaxStatements.run cfg
                (flat_map (traverse (Some (Program l))) l) s).
  { induction l as [|a t IH] in |- * at 1 3; intros s; [reflexivity|].
    cbn [flat_map]. rewrite !ms_run_app.
    rewrite (ms_run_program_child _ a x l). apply IH. }
  rewrite E'.
  destruct (ms_reports_independent (MaxStatements.maxStatements opt)
              _ (balanced_statements (Some (Program l)) l)
              MaxStatements.initial MaxStatements.initial eq_refl eq_refl)
    as [r [E [_ [T _]]]].
  fold cfg in T.
  cbn [MaxStatements.run fold_left MaxStatements.handle].
  unfold MaxStatements.onProgramExit.
  fold (MaxStatements.run cfg
          (flat_map (traverse (Some (Program l))) l) MaxStatements.initial).
  rewrite T. reflexivity.
Qed.

(** Without [ignoreTopLevelFunctions], the statements of a program are
    judged one by one: what is reported for a program is what is reported
    for its first statements, followed by what is reported for the
    statements after them. *)
Theorem statements_are_judged_independently
    (opt : option_value) (option1 : option (option bool))
    (a b : list node) :
  MaxStatements.ignoreTopLevelFunctions option1 = false ->
  MaxStatements.lint opt option1 (Program (a ++ b))
  = MaxStatements.lint opt option1 (Program a)
    ++ MaxStatements.lint opt option1 (Program b).
Proof.
  intros Hignore.
  rewrite (ms_lint_statements opt option1 (a ++ b) (a ++ b) Hignore),
    (ms_lint_statements opt option1 a (a ++ b) Hignore),
    (ms_lint_statements opt option1 b (a ++ b) Hignore).
  rewrite flat_map_app, ms_run_app.
  destruct (ms_reports_independent (MaxStatements.maxStatements opt)
              _ (balanced_statements (Some (Program (a ++ b))) a)
              MaxStatements.initial MaxStatements.initial eq_refl eq_refl)
    as [ra [Ea [_ [Ta _]]]].
  destruct (ms_reports_independent (MaxStatements.maxStatements opt)
              _ (balanced_statements (Some (Program (a ++ b))) b)
              (MaxStatements.run
                 (MaxStatements.mkConfig false
                    (MaxStatements.maxStatements opt))
                 (flat_map (traverse (Some (Program (a ++ b)))) a)
                 MaxStatements.initial)
              MaxStatements.initial Ta eq_refl)
    as [rb [Eb [Eb' _]]].
  rewrite Eb, Eb'. reflexivity.
Qed.

Lemma statements_are_judged_independently_witness :
  MaxStatements.lint (OptNumber 2) None
    (Program ([function_of "f" 3] ++ [function_of "g" 4]))
  = MaxStatements.lint (OptNumber 2) None (Program [function_of "f" 3])
    ++ MaxStatements.lint (OptNumber 2) None (Program [function_of "g" 4]).
Proof.
  apply (statements_are_judged_independently (OptNumber 2) None
           [function_of "f" 3] [function_of "g" 4]).
  reflexivity.
Defined.
